(** * A shallow embedding of the ASD spectroradiometer file codec

    This development models [src/SpectInstrulment/asd_Spect/asdFileHandle.py]
    (class [ASDFile]): the in-memory byte buffer, Python's [struct] module as
    the code uses it, the per-section parsers and wrappers, the [read] and
    [write] drivers, the [update] operation and the spectral helpers.

    Modelling conventions.
    - A [bytes] object is a [list Z] of values in [0, 255].
    - A Python [float] is carried as its IEEE-754 binary64 bit pattern (a [Z]
      in [0, 2^64)); arithmetic goes through Rocq's primitive floats.
    - A Python [str] is carried as its UTF-8 encoding, so [str.encode('utf-8')]
      is the identity and [bytes.decode('utf-8')] checks well-formedness.
    - Offsets are natural numbers: the code only ever starts at 3 and adds.
    - Exceptions are values of [exc]; a computation that may raise returns
      [res A]. *)

From Stdlib Require Import Ascii String ZArith List Bool Lia.
From Stdlib Require Import PrimFloat Uint63 FloatOps SpecFloat.
Import ListNotations.

Open Scope string_scope.
Open Scope list_scope.
Open Scope Z_scope.
Set Warnings "-register-all".

(** ** Exceptions and the error monad *)

Inductive exc :=
  | TypeError
  | ValueError
  | StructError
  | AttributeError
  | UnicodeDecodeError
  | OverflowError
  | IndexError
  | NameError
  | OSError
  | UnboundLocalError
  | ZeroDivisionError.

Inductive res (A : Type) :=
  | Ok (a : A)
  | Raise (e : exc).
Arguments Ok {A} a.
Arguments Raise {A} e.

Definition bind {A B} (m : res A) (k : A -> res B) : res B :=
  match m with
  | Ok a => k a
  | Raise e => Raise e
  end.

Notation "'let*' x := m 'in' k" := (bind m (fun x => k))
  (at level 200, x name, m at level 100, k at level 200).

Notation "'let*' ' p := m 'in' k" := (bind m (fun x => match x with p => k end))
  (at level 200, p pattern, m at level 100, k at level 200).

(** [try: ... except Exception: return d] *)
Definition catch {A} (m : res A) (d : A) : A :=
  match m with
  | Ok a => a
  | Raise _ => d
  end.

(** ** Bytes *)

Definition bytes := list Z.

Definition byte_ok (b : Z) : bool := (0 <=? b) && (b <? 256).
Definition bytes_ok (bs : bytes) : bool := forallb byte_ok bs.

(** Python slice [bs[a:a+n]] for non-negative [a]. *)
Definition slice (bs : bytes) (a n : nat) : bytes := firstn n (skipn a bs).

(** Little-endian unsigned value of a byte string. *)
Fixpoint le_uint (bs : bytes) : Z :=
  match bs with
  | [] => 0
  | b :: r => b + 256 * le_uint r
  end.

(** Little-endian encoding of [z] on [n] bytes (wrapping modulo [2^(8n)]). *)
Fixpoint le_bytes (n : nat) (z : Z) : bytes :=
  match n with
  | O => []
  | S k => (z mod 256) :: le_bytes k (z / 256)
  end.

Definition to_signed (n : nat) (u : Z) : Z :=
  if u <? 2 ^ (8 * Z.of_nat n - 1) then u else u - 2 ^ (8 * Z.of_nat n).

(** ** Floats

    [struct.unpack('<f')] converts a binary32 pattern to a C [double]
    ([PyFloat_Unpack4] is [memcpy] then the C conversion), [struct.pack('<f')]
    converts back with [(float)x] and raises [OverflowError] when a finite
    double rounds to infinity ([PyFloat_Pack4]).  The conversions are the
    x86-64 SSE ones: round to nearest even, a signalling NaN is quietened. *)

(** Round [m / 2^k] to the nearest integer, ties to even. *)
Definition rne (m k : Z) : Z :=
  if k <=? 0 then m
  else
    let q := Z.shiftr m k in
    let r := m - Z.shiftl q k in
    let half := 2 ^ (k - 1) in
    if (half <? r) || ((r =? half) && Z.odd q) then q + 1 else q.

(** binary32 pattern -> binary64 pattern (exact). *)
Definition widen32 (u : Z) : Z :=
  let s := u / 2 ^ 31 in
  let e := (u / 2 ^ 23) mod 256 in
  let m := u mod 2 ^ 23 in
  if e =? 255 then
    if m =? 0 then s * 2 ^ 63 + 2047 * 2 ^ 52
    else s * 2 ^ 63 + 2047 * 2 ^ 52 + Z.lor m (2 ^ 22) * 2 ^ 29
  else if e =? 0 then
    if m =? 0 then s * 2 ^ 63
    else
      let p := Z.log2 m in
      s * 2 ^ 63 + (p + 874) * 2 ^ 52 + (m - 2 ^ p) * 2 ^ (52 - p)
  else s * 2 ^ 63 + (e + 896) * 2 ^ 52 + m * 2 ^ 29.

(** binary64 pattern -> binary32 pattern, [(float)x]. *)
Definition narrow64 (b : Z) : res Z :=
  let s := b / 2 ^ 63 in
  let e := (b / 2 ^ 52) mod 2048 in
  let m := b mod 2 ^ 52 in
  if e =? 2047 then
    if m =? 0 then Ok (s * 2 ^ 31 + 255 * 2 ^ 23)
    else Ok (s * 2 ^ 31 + 255 * 2 ^ 23 + Z.lor (2 ^ 22) (m / 2 ^ 29))
  else if e =? 0 then Ok (s * 2 ^ 31)
  else
    let mm := 2 ^ 52 + m in
    if 897 <=? e then
      let r := rne mm 29 in
      let v := (e - 897) * 2 ^ 23 + r in
      if 255 * 2 ^ 23 <=? v then Raise OverflowError else Ok (s * 2 ^ 31 + v)
    else Ok (s * 2 ^ 31 + rne mm (926 - e)).

(** binary64 pattern <-> primitive float. *)
Definition f64_to_prim (b : Z) : float :=
  let s := negb (b / 2 ^ 63 =? 0) in
  let e := (b / 2 ^ 52) mod 2048 in
  let m := b mod 2 ^ 52 in
  SF2Prim
    (if e =? 2047 then (if m =? 0 then S754_infinity s else S754_nan)
     else if e =? 0 then (if m =? 0 then S754_zero s else S754_finite s (Z.to_pos m) (-1074))
     else S754_finite s (Z.to_pos (2 ^ 52 + m)) (e - 1075)).

Definition sign_bit (s : bool) : Z := if s then 2 ^ 63 else 0.

Definition prim_to_f64 (f : float) : Z :=
  match Prim2SF f with
  | S754_zero s => sign_bit s
  | S754_infinity s => sign_bit s + 2047 * 2 ^ 52
  | S754_nan => 2047 * 2 ^ 52 + 2 ^ 51
  | S754_finite s m e =>
      if (e =? -1074) && (Z.pos m <? 2 ^ 52) then sign_bit s + Z.pos m
      else sign_bit s + (e + 1075) * 2 ^ 52 + (Z.pos m - 2 ^ 52)
  end.

(** Python float arithmetic on bit patterns. *)
Definition fadd (x y : Z) : Z := prim_to_f64 (f64_to_prim x + f64_to_prim y)%float.
Definition fsub (x y : Z) : Z := prim_to_f64 (f64_to_prim x - f64_to_prim y)%float.
Definition fmul (x y : Z) : Z := prim_to_f64 (f64_to_prim x * f64_to_prim y)%float.
Definition fdiv (x y : Z) : Z := prim_to_f64 (f64_to_prim x / f64_to_prim y)%float.

(** [float(n)] for a Python [int]: correctly rounded, [OverflowError] when
    too large. *)
Definition float_of_int (z : Z) : res Z :=
  match binary_normalize 53 1024 z 0 false with
  | S754_infinity _ => Raise OverflowError
  | sf => Ok (prim_to_f64 (SF2Prim sf))
  end.

(** [int(x)] for a Python [float]: truncation toward zero. *)
Definition int_of_float (x : Z) : res Z :=
  match Prim2SF (f64_to_prim x) with
  | S754_zero _ => Ok 0
  | S754_infinity _ => Raise OverflowError
  | S754_nan => Raise ValueError
  | S754_finite s m e =>
      let a := if 0 <=? e then Z.pos m * 2 ^ e else Z.pos m / 2 ^ (- e) in
      Ok (if s then - a else a)
  end.

(** [math.ceil] on a finite float, as numpy's [_arange_safe_ceil_to_intp]. *)
Definition ceil_of_float (x : Z) : res Z :=
  match Prim2SF (f64_to_prim x) with
  | S754_zero _ => Ok 0
  | S754_infinity _ => Raise OverflowError
  | S754_nan => Raise ValueError
  | S754_finite s m e =>
      if 0 <=? e then Ok ((if s then -1 else 1) * Z.pos m * 2 ^ e)
      else
        let q := Z.pos m / 2 ^ (- e) in
        let exact := (Z.pos m mod 2 ^ (- e) =? 0) in
        Ok (if s then - q else if exact then q else q + 1)
  end.

(** ** Python values *)

Inductive pyval :=
  | PNone
  | PBool (b : bool)
  | PInt (z : Z)
  | PFloat (bits : Z)
  | PBytes (bs : bytes)
  | PStr (utf8 : bytes)
  | PTuple (vs : list pyval)
  | PList (vs : list pyval)
  | PNT (fields : list string) (vs : list pyval)
  | PArray (xs : list Z)
  | PDatetime (year month day hour minute second : Z).

(** [bool(v)]: numpy refuses the truth value of an array of two or more
    elements. *)
Definition truthy (v : pyval) : res bool :=
  match v with
  | PNone => Ok false
  | PBool b => Ok b
  | PInt z => Ok (negb (z =? 0))
  | PFloat b => Ok (negb ((b =? 0) || (b =? 2 ^ 63)))
  | PBytes bs | PStr bs => Ok (negb (Nat.eqb (length bs) 0))
  | PTuple vs | PList vs | PNT _ vs => Ok (negb (Nat.eqb (length vs) 0))
  | PArray [] => Ok false
  | PArray [x] => Ok (negb ((x =? 0) || (x =? 2 ^ 63)))
  | PArray _ => Raise ValueError
  | PDatetime _ _ _ _ _ _ => Ok true
  end.

Fixpoint assoc_get {A} (names : list string) (vs : list A) (n : string) : option A :=
  match names, vs with
  | k :: ks, v :: vs' => if String.eqb k n then Some v else assoc_get ks vs' n
  | _, _ => None
  end.

(** Attribute access on a namedtuple instance. *)
Definition attr (v : pyval) (name : string) : res pyval :=
  match v with
  | PNT fs vs => match assoc_get fs vs name with Some x => Ok x | None => Raise AttributeError end
  | _ => Raise AttributeError
  end.

(** Python offsets as the parsers pass them around: an [int], [None], or the
    tuple [(None, None)] returned by the [__check_offset] wrapper. *)
Inductive pyoff :=
  | OffInt (n : nat)
  | OffNone
  | OffPair.

(** ** UTF-8

    One decoding step at the head of a byte string: [(true, n)] for a
    well-formed sequence of [n] bytes, [(false, n)] for an ill-formed one whose
    maximal subpart has [n] bytes (what CPython's decoder reports and what
    [errors='ignore'] skips). *)

Definition in_range (lo hi b : Z) : bool := (lo <=? b) && (b <=? hi).

Definition utf8_step (bs : bytes) : bool * nat :=
  match bs with
  | [] => (true, 0%nat)
  | b0 :: r =>
      if b0 <? 128 then (true, 1%nat)
      else
        let '(lo, hi, need) :=
          if in_range 194 223 b0 then (128, 191, 1%nat)
          else if b0 =? 224 then (160, 191, 2%nat)
          else if in_range 225 236 b0 then (128, 191, 2%nat)
          else if b0 =? 237 then (128, 159, 2%nat)
          else if in_range 238 239 b0 then (128, 191, 2%nat)
          else if b0 =? 240 then (144, 191, 3%nat)
          else if in_range 241 243 b0 then (128, 191, 3%nat)
          else if b0 =? 244 then (128, 143, 3%nat)
          else (0, -1, 0%nat) in
        match need, r with
        | O, _ => (false, 1%nat)
        | S need', b1 :: r1 =>
            if in_range lo hi b1 then
              match need', r1 with
              | O, _ => (true, 2%nat)
              | S need'', b2 :: r2 =>
                  if in_range 128 191 b2 then
                    match need'', r2 with
                    | O, _ => (true, 3%nat)
                    | S _, b3 :: _ => if in_range 128 191 b3 then (true, 4%nat) else (false, 3%nat)
                    | S _, [] => (false, 3%nat)
                    end
                  else (false, 2%nat)
              | S _, [] => (false, 2%nat)
              end
            else (false, 1%nat)
        | S _, [] => (false, 1%nat)
        end
  end.

(** [bs.decode('utf-8', errors='ignore')], as UTF-8 bytes of the result. *)
Fixpoint utf8_ignore (fuel : nat) (bs : bytes) : bytes :=
  match fuel with
  | O => []
  | S f =>
      match bs with
      | [] => []
      | _ =>
          let '(ok, n) := utf8_step bs in
          (if ok then firstn n bs else []) ++ utf8_ignore f (skipn n bs)
      end
  end.

(** Well-formedness, i.e. [bs.decode('utf-8')] does not raise. *)
Fixpoint utf8_valid_fuel (fuel : nat) (bs : bytes) : bool :=
  match fuel with
  | O => true
  | S f =>
      match bs with
      | [] => true
      | _ => let '(ok, n) := utf8_step bs in ok && utf8_valid_fuel f (skipn n bs)
      end
  end.

Definition utf8_valid (bs : bytes) : bool := utf8_valid_fuel (length bs) bs.

(** [bs.decode('utf-8')] *)
Definition decode_utf8 (bs : bytes) : res pyval :=
  if utf8_valid bs then Ok (PStr bs) else Raise UnicodeDecodeError.

(** [len(s)] counts code points: the bytes that are not continuation bytes. *)
Definition str_len (s : bytes) : nat :=
  length (filter (fun b => negb (in_range 128 191 b)) s).

(** ** The [struct] module

    A format is its byte-order prefix ([std] is [true] for ['<'], which also
    selects the standard sizes) and its codes.  Without a prefix the native
    sizes apply; the only code whose native size differs is [l]/[L], whose
    width is that of a C [long].  No native format of this code needs
    alignment padding (['q q'], ['bb'], ['9h'] and single codes). *)

Inductive scode := Cb | CB | Ch | CH | Ci | CI | Cl | CL | Cq | Cf | Cd | Cs (n : nat).

(** Width of a C [long]: 4 on Windows (LLP64), the platform whose 32-bit
    counts the format describes; 8 on LP64 systems. *)
Definition native_long_size : nat := 4.

Definition code_size (std : bool) (c : scode) : nat :=
  match c with
  | Cb | CB => 1
  | Ch | CH => 2
  | Ci | CI | Cf => 4
  | Cl | CL => if std then 4 else native_long_size
  | Cq | Cd => 8
  | Cs n => n
  end.

Record sfmt := Fmt { f_std : bool; f_codes : list scode }.

Definition calcsize (f : sfmt) : nat :=
  fold_right (fun c acc => (code_size (f_std f) c + acc)%nat) O (f_codes f).

Definition unpack1 (std : bool) (c : scode) (bs : bytes) : pyval :=
  match c with
  | Cb | Ch | Ci | Cl | Cq => PInt (to_signed (code_size std c) (le_uint bs))
  | CB | CH | CI | CL => PInt (le_uint bs)
  | Cf => PFloat (widen32 (le_uint bs))
  | Cd => PFloat (le_uint bs)
  | Cs _ => PBytes bs
  end.

Fixpoint unpack_codes (std : bool) (cs : list scode) (bs : bytes) : list pyval :=
  match cs with
  | [] => []
  | c :: cs' =>
      let n := code_size std c in
      unpack1 std c (firstn n bs) :: unpack_codes std cs' (skipn n bs)
  end.

(** [struct.unpack_from(fmt, buffer, offset)] *)
Definition unpack_from (f : sfmt) (buf : bytes) (off : nat) : res (list pyval) :=
  if (off + calcsize f <=? List.length buf)%nat
  then Ok (unpack_codes (f_std f) (f_codes f) (skipn off buf))
  else Raise StructError.

Definition as_index (v : pyval) : res Z :=
  match v with
  | PInt z => Ok z
  | PBool b => Ok (if b then 1 else 0)
  | _ => Raise StructError
  end.

Definition pack_int (n : nat) (signed : bool) (v : pyval) : res bytes :=
  let* z := as_index v in
  let w := 8 * Z.of_nat n in
  let lo := if signed then - 2 ^ (w - 1) else 0 in
  let hi := if signed then 2 ^ (w - 1) else 2 ^ w in
  if (lo <=? z) && (z <? hi) then Ok (le_bytes n z) else Raise StructError.

Definition as_float (v : pyval) : res Z :=
  match v with
  | PFloat b => Ok b
  | PInt z => float_of_int z
  | PBool b => float_of_int (if b then 1 else 0)
  | _ => Raise StructError
  end.

Definition pack1 (std : bool) (c : scode) (v : pyval) : res bytes :=
  match c with
  | Cb | Ch | Ci | Cl | Cq => pack_int (code_size std c) true v
  | CB | CH | CI | CL => pack_int (code_size std c) false v
  | Cf => let* b := as_float v in let* u := narrow64 b in Ok (le_bytes 4 u)
  | Cd => let* b := as_float v in Ok (le_bytes 8 b)
  | Cs n =>
      match v with
      | PBytes bs => Ok (firstn n bs ++ repeat 0 (n - List.length bs))
      | _ => Raise StructError
      end
  end.

Fixpoint pack_codes (std : bool) (cs : list scode) (vs : list pyval) : res bytes :=
  match cs, vs with
  | [], [] => Ok []
  | c :: cs', v :: vs' =>
      let* b := pack1 std c v in
      let* r := pack_codes std cs' vs' in
      Ok (b ++ r)
  | _, _ => Raise StructError
  end.

(** [struct.pack(fmt, *values)] *)
Definition pack (f : sfmt) (vs : list pyval) : res bytes :=
  pack_codes (f_std f) (f_codes f) vs.

(** ** Booleans ([__parse_Bool], [__wrap_Bool]) *)

(** What a method decorated with [__check_offset] sees: it runs the body only
    for an [int] offset inside the buffer; [None] or an offset at or past the
    end makes the wrapper return [(None, None)]; comparing a tuple with an
    [int] raises [TypeError]. *)
Inductive checked (A : Type) :=
  | Skipped
  | Ran (a : A).
Arguments Skipped {A}.
Arguments Ran {A} a.

Definition check_offset {A} (buf : bytes) (off : pyoff) (body : nat -> A) : res (checked A) :=
  match off with
  | OffNone => Ok Skipped
  | OffPair => Raise TypeError
  | OffInt n => if (n <? List.length buf)%nat then Ok (Ran (body n)) else Ok Skipped
  end.

Definition parse_Bool_body (buf : bytes) (off : nat) : pyval * pyoff :=
  let buffer := slice buf off 2 in
  if list_eq_dec Z.eq_dec buffer [255; 255] then (PBool true, OffInt (off + 2))
  else if list_eq_dec Z.eq_dec buffer [0; 0] then (PBool false, OffInt (off + 2))
  else (PNone, OffNone).

(** [__parse_Bool]: a pair [(value, offset)]; an invalid sentinel makes the body
    raise [ValueError], which it catches and turns into [(None, None)]. *)
Definition parse_Bool (buf : bytes) (off : pyoff) : res (pyval * pyoff) :=
  let* r := check_offset buf off (parse_Bool_body buf) in
  match r with
  | Skipped => Ok (PNone, OffNone)
  | Ran p => Ok p
  end.

(** [__wrap_Bool]: a two-byte [bytearray] and its length. *)
Definition wrap_Bool (v : pyval) : res (bytes * nat) :=
  let* b := truthy v in
  Ok (if b then [255; 255] else [0; 0], 2%nat).

(** ** Dates and times

    [datetime.datetime] values carry whole seconds here: every one the code
    builds comes from integer fields or an integer timestamp.  The proleptic
    Gregorian ordinal is the one of CPython's [_ymd2ord]/[_ord2ymd].
    [fromtimestamp] and [timestamp] convert in local time; the model takes the
    local zone to be UTC and, as on Windows, refuses negative timestamps. *)

Definition is_leap (y : Z) : bool :=
  (y mod 4 =? 0) && (negb (y mod 100 =? 0) || (y mod 400 =? 0)).

Definition days_in_month (y m : Z) : Z :=
  if m =? 2 then (if is_leap y then 29 else 28)
  else if (m =? 4) || (m =? 6) || (m =? 9) || (m =? 11) then 30 else 31.

Definition days_before_year (y : Z) : Z :=
  let y1 := y - 1 in y1 * 365 + y1 / 4 - y1 / 100 + y1 / 400.

Definition days_before_month (y m : Z) : Z :=
  let cum := [0; 31; 59; 90; 120; 151; 181; 212; 243; 273; 304; 334] in
  nth (Z.to_nat (m - 1)) cum 0 + (if (2 <? m) && is_leap y then 1 else 0).

Definition ymd2ord (y m d : Z) : Z := days_before_year y + days_before_month y m + d.

(** [_ord2ymd]: ordinal -> (year, month, day). *)
Definition ord2ymd (n : Z) : Z * Z * Z :=
  let n0 := n - 1 in
  let n400 := n0 / 146097 in let r400 := n0 mod 146097 in
  let n100 := r400 / 36524 in let r100 := r400 mod 36524 in
  let n4 := r100 / 1461 in let r4 := r100 mod 1461 in
  let n1 := r4 / 365 in let r1 := r4 mod 365 in
  let year := n400 * 400 + 1 + n100 * 100 + n4 * 4 + n1 in
  if (n1 =? 4) || (n100 =? 4) then (year - 1, 12, 31)
  else
    let month0 := (r1 + 50) / 32 in
    let pre := days_before_month year month0 in
    let '(month, pre) :=
      if r1 <? pre then (month0 - 1, days_before_month year (month0 - 1)) else (month0, pre) in
    (year, month, r1 - pre + 1).

(** [datetime.datetime(year, month, day, hour, minute, second)] *)
Definition datetime_new (y mo d h mi s : Z) : res pyval :=
  if (1 <=? y) && (y <=? 9999) && (1 <=? mo) && (mo <=? 12)
     && (1 <=? d) && (d <=? days_in_month y mo)
     && (0 <=? h) && (h <=? 23) && (0 <=? mi) && (mi <=? 59) && (0 <=? s) && (s <=? 59)
  then Ok (PDatetime y mo d h mi s) else Raise ValueError.

(** [dt.weekday()], Monday = 0. *)
Definition weekday (y m d : Z) : Z := (ymd2ord y m d + 6) mod 7.

(** Ordinal of 1970-01-01. *)
Definition epoch_ord : Z := 719163.

Definition fromtimestamp (t : Z) : res pyval :=
  if t <? 0 then Raise OSError
  else
    let '(y, m, d) := ord2ymd (epoch_ord + t / 86400) in
    let s := t mod 86400 in
    datetime_new y m d (s / 3600) ((s / 60) mod 60) (s mod 60).

Definition timestamp (dt : pyval) : res Z :=
  match dt with
  | PDatetime y m d h mi s => Ok ((ymd2ord y m d - epoch_ord) * 86400 + h * 3600 + mi * 60 + s)
  | _ => Raise AttributeError
  end.

(** ** The [ASDFile] object

    An instance is its attribute dictionary, in insertion order; private
    attributes appear under their mangled names ([self.__bom] is
    [_ASDFile__bom]).  A method is a computation over the instance that may
    raise; attributes set before an exception stay set. *)

Definition obj := list (string * pyval).

Fixpoint obj_get (o : obj) (k : string) : option pyval :=
  match o with
  | [] => None
  | (k', v) :: r => if String.eqb k' k then Some v else obj_get r k
  end.

Fixpoint obj_set (o : obj) (k : string) (v : pyval) : obj :=
  match o with
  | [] => [(k, v)]
  | (k', v') :: r => if String.eqb k' k then (k', v) :: r else (k', v') :: obj_set r k v
  end.

Definition M (A : Type) := obj -> obj * res A.

Definition mret {A} (a : A) : M A := fun o => (o, Ok a).

Definition mbind {A B} (m : M A) (k : A -> M B) : M B :=
  fun o => let '(o', r) := m o in
           match r with Ok a => k a o' | Raise e => (o', Raise e) end.

Notation "x <- m ;; k" := (mbind m (fun x => k))
  (at level 61, m at next level, right associativity).

Definition mraise {A} (e : exc) : M A := fun o => (o, Raise e).
Definition lift {A} (r : res A) : M A := fun o => (o, r).
Definition setattr (k : string) (v : pyval) : M unit := fun o => (obj_set o k v, Ok tt).

(** [try: m  except Exception: h] *)
Definition try_except {A} (m : M A) (h : M A) : M A :=
  fun o => let '(o', r) := m o in
           match r with Ok a => (o', Ok a) | Raise _ => h o' end.

(** [ASDFile.__init__] *)
Definition init_obj : obj :=
  [("asdFileVersion", PInt 0); ("metadata", PNone); ("spectrumData", PNone);
   ("referenceFileHeader", PNone); ("referenceData", PNone); ("classifierData", PNone);
   ("dependants", PNone); ("calibrationHeader", PNone);
   ("calibrationSeriesABS", PNone); ("calibrationSeriesBSE", PNone);
   ("calibrationSeriesLMP", PNone); ("calibrationSeriesFO", PNone);
   ("auditLog", PNone); ("signature", PNone);
   ("_ASDFile__asdFileStream", PNone); ("_ASDFile__wavelengths", PNone)].

(** ** Numbers and arrays as the code combines them *)

Definition as_float_val (v : pyval) : res Z :=
  match v with
  | PFloat b => Ok b
  | PInt z => float_of_int z
  | PBool b => float_of_int (if b then 1 else 0)
  | _ => Raise TypeError
  end.

Definition is_number (v : pyval) : bool :=
  match v with PFloat _ | PInt _ | PBool _ => true | _ => false end.

(** A binary float operator [op] on Python numbers and numpy float arrays
    (scalar broadcast, elementwise on equal lengths); [iop] is the [int]
    result for two [int]s, when Python keeps [int]s.  Any other operand kind
    the code meets here ([None], a namedtuple) raises [TypeError]. *)
Definition py_arith (op : Z -> Z -> Z) (iop : option (Z -> Z -> Z)) (a b : pyval) : res pyval :=
  match a, b with
  | PArray xs, PArray ys =>
      if Nat.eqb (length xs) (length ys) then Ok (PArray (map (fun '(x, y) => op x y) (combine xs ys)))
      else Raise ValueError
  | PArray xs, _ => if is_number b then let* y := as_float_val b in Ok (PArray (map (fun x => op x y) xs))
                    else Raise TypeError
  | _, PArray ys => if is_number a then let* x := as_float_val a in Ok (PArray (map (fun y => op x y) ys))
                    else Raise TypeError
  | PInt x, PInt y => match iop with Some f => Ok (PInt (f x y))
                      | None => let* x' := float_of_int x in let* y' := float_of_int y in Ok (PFloat (op x' y')) end
  | _, _ => if is_number a && is_number b then
              let* x := as_float_val a in let* y := as_float_val b in Ok (PFloat (op x y))
            else Raise TypeError
  end.

Definition py_add := py_arith fadd (Some Z.add).
Definition py_mul := py_arith fmul (Some Z.mul).
Definition py_div := py_arith fdiv None.

Definition float_is_zero (b : Z) : bool := (b =? 0) || (b =? 2 ^ 63).

(** [np.arange(start, stop, step)]: the length is [ceil((stop - start) / step)]
    computed with Python floats ([ZeroDivisionError] for a zero step), an
    empty array when it is not positive.  Element 0 is [start], element 1 is
    [start + step], and element [i >= 2] is [start + i * delta] with
    [delta = (start + step) - start] ([DOUBLE_fill]).  The operands are taken
    as floats, as they are for every axis the code builds. *)
Definition arange_len (start stop step : Z) : res nat :=
  if float_is_zero step then Raise ZeroDivisionError
  else let* n := ceil_of_float (fdiv (fsub stop start) step) in
       Ok (if n <=? 0 then O else Z.to_nat n).

Definition arange (start stop step : pyval) : res pyval :=
  let* a := as_float_val start in
  let* b := as_float_val stop in
  let* s := as_float_val step in
  let* n := arange_len a b s in
  let delta := fsub (fadd a s) a in
  Ok (PArray (map (fun i => match i with
                            | O => a
                            | S O => fadd a s
                            | _ => match float_of_int (Z.of_nat i) with
                                   | Ok fi => fadd a (fmul fi delta)
                                   | Raise _ => a
                                   end
                            end) (seq 0 n))).

(** [int(v)] *)
Definition py_int (v : pyval) : res Z :=
  match v with
  | PInt z => Ok z
  | PBool b => Ok (if b then 1 else 0)
  | PFloat x => int_of_float x
  | _ => Raise TypeError
  end.

(** Bounds of the Python slice [a:b] of a sequence of length [n]. *)
Definition slice_index (n : nat) (a : Z) : nat :=
  if a <? 0 then Z.to_nat (Z.max (a + Z.of_nat n) 0) else Nat.min (Z.to_nat a) n.

(** [res[lo:hi] = f(spec[lo:hi])] for a numpy array [res] of the length of
    [spec]. *)
Definition assign_range (res spec : list Z) (lo hi : nat) (f : Z -> Z) : list Z :=
  map (fun '(i, r) => if (lo <=? i)%nat && (i <? hi)%nat then f (nth i spec 0) else r)
      (combine (seq 0 (length res)) res).

(** ** Byte-string helpers *)

(** The bytes of an ASCII literal. *)
Definition str_bytes (s : string) : bytes :=
  map (fun a => Z.of_N (N_of_ascii a)) (list_ascii_of_string s).

Fixpoint drop_nul (bs : bytes) : bytes :=
  match bs with
  | 0 :: r => drop_nul r
  | _ => bs
  end.

(** [bs.strip(b'\x00')] *)
Definition strip0 (bs : bytes) : bytes := rev (drop_nul (rev (drop_nul bs))).

(** [bs.ljust(n, b'\x00')] *)
Definition ljust0 (bs : bytes) (n : nat) : bytes := bs ++ repeat 0 (n - length bs).

(** [bs[a:b]], with [b] omitted when [None]. *)
Definition py_slice (bs : bytes) (a : Z) (b : option Z) : bytes :=
  let n := length bs in
  let lo := slice_index n a in
  let hi := match b with Some b => slice_index n b | None => n end in
  firstn (hi - lo) (skipn lo bs).

(** [offset + k] and [struct.unpack_from(fmt, buf, offset)] for an offset that
    may be [None]. *)
Definition off_add (o : pyoff) (k : nat) : res pyoff :=
  match o with
  | OffInt n => Ok (OffInt (n + k))
  | _ => Raise TypeError
  end.

Definition unpack_at (f : sfmt) (buf : bytes) (o : pyoff) : res (list pyval) :=
  match o with
  | OffInt n => unpack_from f buf n
  | _ => Raise TypeError
  end.

(** [x, = struct.unpack_from(fmt, ...)] for a one-code format. *)
Definition unpack_one (f : sfmt) (buf : bytes) (o : pyoff) : res pyval :=
  let* vs := unpack_at f buf o in
  match vs with
  | [v] => Ok v
  | _ => Raise ValueError
  end.

Definition off_end (o : pyoff) : option Z :=
  match o with
  | OffInt n => Some (Z.of_nat n)
  | _ => None
  end.

Definition pstd (cs : list scode) : sfmt := Fmt true cs.
Definition pnat (cs : list scode) : sfmt := Fmt false cs.

(** [v == k] for an integer constant [k]. *)
Definition py_eq_int (v : pyval) (k : Z) : bool :=
  match v with
  | PInt z => z =? k
  | PBool b => (if b then 1 else 0) =? k
  | PFloat x => match float_of_int k with
                | Ok y => (y =? x) || ((k =? 0) && float_is_zero x)
                | Raise _ => false
                end
  | _ => false
  end.

(** [v > 0] for the integer counts of the file. *)
Definition py_gt0 (v : pyval) : res bool :=
  match v with
  | PInt z => Ok (0 <? z)
  | PBool b => Ok b
  | PFloat x => Ok (match Prim2SF (f64_to_prim x) with
                    | S754_finite false _ _ | S754_infinity false => true
                    | _ => false
                    end)
  | _ => Raise TypeError
  end.

(** [seq[i]] *)
Definition py_getitem (v : pyval) (i : Z) : res pyval :=
  match v with
  | PTuple vs | PList vs | PNT _ vs =>
      let n := Z.of_nat (length vs) in
      if (- n <=? i) && (i <? n) then
        Ok (nth (Z.to_nat (if i <? 0 then i + n else i)) vs PNone)
      else Raise IndexError
  | PNone => Raise TypeError
  | _ => Raise TypeError
  end.

(** [x, y = v] *)
Definition unpack2 (v : pyval) : res (pyval * pyval) :=
  match v with
  | PTuple [a; b] | PList [a; b] => Ok (a, b)
  | PTuple _ | PList _ => Raise ValueError
  | _ => Raise TypeError
  end.

(** [a + b] on byte strings. *)
Definition py_concat (a b : pyval) : res pyval :=
  match a, b with
  | PBytes x, PBytes y => Ok (PBytes (x ++ y))
  | PStr x, PStr y => Ok (PStr (x ++ y))
  | _, _ => Raise TypeError
  end.

(** ** Field decoders on the buffer [self.__asdFileStream]

    These methods only read the buffer; each is decorated with
    [__check_offset] and catches its own exceptions as the source does. *)

(** [__parse_bstr]: a ['<h'] byte count then that many UTF-8 bytes.  Only
    [struct.error] is caught: a negative count fails in [struct.calcsize]; a
    decoding error propagates. *)
Definition parse_bstr_body (buf : bytes) (n : nat) : res (pyval * pyoff) :=
  match unpack_one (pstd [Ch]) buf (OffInt n) with
  | Raise _ => Ok (PNone, OffNone)
  | Ok sz =>
      let size := match sz with PInt z => z | _ => 0 end in
      let off1 := (n + 2)%nat in
      if 0 <=? size then
        match unpack_one (pstd [Cs (Z.to_nat size)]) buf (OffInt off1) with
        | Raise _ => Ok (PNone, OffNone)
        | Ok b =>
            let raw := match b with PBytes b => b | _ => [] end in
            let* s := decode_utf8 raw in
            Ok (s, OffInt (off1 + Z.to_nat size))
        end
      else Ok (PNone, OffNone)
  end.

Definition parse_bstr (buf : bytes) (off : pyoff) : res (pyval * pyoff) :=
  let* r := check_offset buf off (parse_bstr_body buf) in
  match r with
  | Skipped => Ok (PNone, OffNone)
  | Ran p => p
  end.

(** [n] successive [__parse_bstr] calls threading the offset. *)
Fixpoint parse_bstrs (k : nat) (buf : bytes) (off : pyoff) : res (list pyval * pyoff) :=
  match k with
  | O => Ok ([], off)
  | S k' =>
      let* '(s, off1) := parse_bstr buf off in
      let* '(ss, off2) := parse_bstrs k' buf off1 in
      Ok (s :: ss, off2)
  end.

Definition float_list (vs : list pyval) : list Z :=
  map (fun v => match v with PFloat b => b | _ => 0 end) vs.

(** [__parse_spectra]: [metadata.channels] little-endian doubles; any
    exception gives four [None]s. *)
Definition parse_spectra_body (buf : bytes) (md : pyval) (n : nat) : pyval * pyval * pyval * pyoff :=
  catch
    (let* ch := attr md "channels" in
     let* c := match ch with
               | PInt c => if 0 <=? c then Ok (Z.to_nat c) else Raise StructError
               | _ => Raise StructError
               end in
     let* vs := unpack_from (pstd (repeat Cd c)) buf n in
     let off' := (n + c * 8)%nat in
     let stream := slice buf off' (c * 8) in
     Ok (PArray (float_list vs), PBytes stream, PInt (Z.of_nat (length stream)), OffInt off'))
    (PNone, PNone, PNone, OffNone).

Definition parse_spectra (buf : bytes) (md : pyval) (off : pyoff)
  : res (checked (pyval * pyval * pyval * pyoff)) :=
  check_offset buf off (parse_spectra_body buf md).

Definition constituent_fields : list string :=
  ["constituentName"; "passFail"; "mDistance"; "mDistanceLimit"; "concentration";
   "concentrationLimit"; "fRatio"; "residual"; "residualLimit"; "scores"; "scoresLimit";
   "modelType"; "reserved1"; "reserved2"].

Definition constituent_fmt : sfmt := pstd [Cd; Cd; Cd; Cd; Cd; Cd; Cd; Cd; Cd; Cl; Cd; Cd].

(** [__parse_constituantType] *)
Definition parse_constituantType_body (buf : bytes) (n : nat) : pyval * pyoff :=
  catch
    (let* '(name, o1) := parse_bstr buf (OffInt n) in
     let* '(pf, o2) := parse_bstr buf o1 in
     let* vs := unpack_at constituent_fmt buf o2 in
     let* o3 := off_add o2 (calcsize constituent_fmt) in
     Ok (PNT constituent_fields (name :: pf :: vs), o3))
    (PNone, OffNone).

Definition parse_constituantType (buf : bytes) (off : pyoff) : res (pyval * pyoff) :=
  let* r := check_offset buf off (parse_constituantType_body buf) in
  match r with
  | Skipped => Ok (PNone, OffNone)
  | Ran p => Ok p
  end.

Fixpoint parse_constituants (k : nat) (buf : bytes) (off : pyoff) : res (list pyval * pyoff) :=
  match k with
  | O => Ok ([], off)
  | S k' =>
      let* '(item, off1) := parse_constituantType buf off in
      let* '(items, off2) := parse_constituants k' buf off1 in
      Ok (item :: items, off2)
  end.

(** *** Audit events

    [re.compile(r'<Audit_Event>(.*?)</Audit_Event>', re.DOTALL).findall(s)]
    on the text [s], here as its UTF-8 bytes: both delimiters are ASCII, so
    their occurrences in the bytes are their occurrences in the text.  The
    leftmost opening tag that a closing tag follows starts the next match,
    and the lazy group ends at the first closing tag after it. *)

Definition open_tag : bytes := str_bytes "<Audit_Event>".
Definition close_tag : bytes := str_bytes "</Audit_Event>".

Fixpoint is_prefix (p s : bytes) : bool :=
  match p, s with
  | [], _ => true
  | x :: p', y :: s' => (x =? y) && is_prefix p' s'
  | _ :: _, [] => false
  end.

Fixpoint find_sub (p s : bytes) : option nat :=
  match s with
  | [] => if is_prefix p [] then Some O else None
  | _ :: s' => if is_prefix p s then Some O else option_map S (find_sub p s')
  end.

Fixpoint audit_findall (fuel : nat) (s : bytes) : list bytes :=
  match fuel with
  | O => []
  | S f =>
      match find_sub open_tag s with
      | None => []
      | Some i =>
          let s1 := skipn (i + length open_tag) s in
          match find_sub close_tag s1 with
          | None => []
          | Some j => firstn j s1 :: audit_findall f (skipn (j + length close_tag) s1)
          end
      end
  end.

(** [__parse_auditEvents]: the events found in the rest of the buffer,
    decoded with [errors='ignore'], and the sum of their UTF-8 lengths plus
    two. *)
Definition parse_auditEvents_body (buf : bytes) (n : nat) : pyval * pyval :=
  let rest := skipn n buf in
  let text := utf8_ignore (length rest) rest in
  let evs := map (fun g => open_tag ++ g ++ close_tag) (audit_findall (S (length text)) text) in
  (PList (map PStr evs),
   PInt (fold_left (fun acc e => acc + Z.of_nat (length e) + 2) evs 0)).

Definition parse_auditEvents (buf : bytes) (off : pyoff) : res (pyval * pyval) :=
  let* r := check_offset buf off (parse_auditEvents_body buf) in
  match r with
  | Skipped => Ok (PNone, PNone)
  | Ran p => Ok p
  end.

(** ** Section parsers (methods that set attributes) *)

(** [self.name] for a name in the instance dictionary; a missing ordinary
    name goes through [__getattr__]'s last branch and is [None]. *)
Definition getd (k : string) : M pyval :=
  fun o => (o, Ok (match obj_get o k with Some v => v | None => PNone end)).

(** [self.__asdFileStream]; [len(None)] raises [TypeError]. *)
Definition stream : M bytes :=
  fun o => (o, match obj_get o "_ASDFile__asdFileStream" with
               | Some (PBytes b) => Ok b
               | _ => Raise TypeError
               end).

Definition check_offset_m {A} (off : pyoff) (body : nat -> M A) : M (checked A) :=
  buf <- stream ;;
  match off with
  | OffNone => mret Skipped
  | OffPair => mraise TypeError
  | OffInt n => if (n <? length buf)%nat then (a <- body n ;; mret (Ran a)) else mret Skipped
  end.

(** [offset = self.__parse_x(offset)]: the wrapper's [(None, None)] becomes
    the new offset. *)
Definition as_offset (c : checked pyoff) : pyoff :=
  match c with
  | Skipped => OffPair
  | Ran o => o
  end.

Definition metadata_fields : list string :=
  ["comments"; "when"; "daylighSavingsFlag"; "programVersion"; "fileVersion"; "iTime";
   "darkCorrected"; "darkTime"; "dataType"; "referenceTime"; "channel1Wavelength";
   "wavelengthStep"; "dataFormat"; "old_darkCurrentCount"; "old_refCount"; "old_sampleCount";
   "application"; "channels"; "appData_str"; "gpsData_str"; "intergrationTime_ms"; "fo";
   "darkCurrentCorrention"; "calibrationSeries"; "instrumentNum"; "yMin"; "yMax"; "xMin";
   "xMax"; "ipNumBits"; "xMode"; "flags1"; "flags2"; "flags3"; "flags4"; "darkCurrentCount";
   "refCount"; "sampleCount"; "instrument"; "calBulbID"; "swir1Gain"; "swir2Gain";
   "swir1Offset"; "swir2Offset"; "splice1_wavelength"; "splice2_wavelength";
   "smartDetectorType"; "spare1"; "spare2"; "spare3"; "spare4"; "spare5"; "byteStream";
   "byteStreamLength"].

(** ['<157s 18s b b b b l b l f f b b b b b H 128s 56s L h h H H f f f f h b 4b
    H H H b L H H H H f f 27s 5b'] *)
Definition metadata_fmt : sfmt :=
  pstd [Cs 157; Cs 18; Cb; Cb; Cb; Cb; Cl; Cb; Cl; Cf; Cf; Cb; Cb; Cb; Cb; Cb; CH;
        Cs 128; Cs 56; CL; Ch; Ch; CH; CH; Cf; Cf; Cf; Cf; Ch; Cb; Cb; Cb; Cb; Cb;
        CH; CH; CH; Cb; CL; CH; CH; CH; CH; Cf; Cf; Cs 27; Cb; Cb; Cb; Cb; Cb].

Definition int_at (vs : list pyval) (i : nat) : Z :=
  match nth i vs PNone with PInt z => z | _ => 0 end.

(** [__parse_ASDFilewhen] on the nine shorts of the [when] field. *)
Definition parse_ASDFilewhen (w : list pyval) : res (pyval * pyval) :=
  let seconds := int_at w 0 in
  let minutes := int_at w 1 in
  let hour := int_at w 2 in
  let day := int_at w 3 in
  let month := int_at w 4 in
  let year := int_at w 5 in
  let year := if year <? 1900 then year + 1900 else year in
  let* dt := datetime_new year (month + 1) day hour minutes seconds in
  Ok (dt, nth 8 w PNone).

Definition as_bytes (v : pyval) : bytes := match v with PBytes b => b | _ => [] end.

(** The body of [__parse_metadata]'s [try] once the format is unpacked. *)
Definition build_metadata (buf : bytes) (vals : list pyval) : res pyval :=
  match vals with
  | comments :: when :: programVersion :: fileVersion :: iTime :: darkCorrected
      :: darkTime :: dataType :: referenceTime :: rest =>
      let comments := PBytes (strip0 (as_bytes comments)) in
      let* w := unpack_from (pnat (repeat Ch 9)) (as_bytes when) 0 in
      let* '(when_datetime, daylighSavingsFlag) := parse_ASDFilewhen w in
      let* dk := py_int darkTime in
      let* darkTime := fromtimestamp dk in
      let* rt := py_int referenceTime in
      let* referenceTime := fromtimestamp rt in
      let ByteStream := firstn 484 buf in
      Ok (PNT metadata_fields
            ([comments; when_datetime; daylighSavingsFlag; programVersion; fileVersion;
              iTime; darkCorrected; darkTime; dataType; referenceTime] ++ rest ++
             [PBytes ByteStream; PInt (Z.of_nat (length ByteStream))]))
  | _ => Raise ValueError
  end.

Definition parse_metadata (off : pyoff) : M (checked pyoff) :=
  check_offset_m off (fun n =>
    try_except
      (buf <- stream ;;
       vals <- lift (unpack_from metadata_fmt buf n) ;;
       md <- lift (build_metadata buf vals) ;;
       _ <- setattr "metadata" md ;;
       mret (OffInt (n + 481)))
      (mret OffNone)).

Definition spectrum_fields : list string := ["spectra"; "byteStream"; "byteStreamLength"].

(** [__parse_spectrumData] and [__parse_referenceData]: the record is set even
    when [__parse_spectra] failed inside (its four [None]s). *)
Definition parse_spectrum_section (attr_name : string) (off : pyoff) : M (checked pyoff) :=
  check_offset_m off (fun n =>
    try_except
      (buf <- stream ;;
       md <- getd "metadata" ;;
       r <- lift (parse_spectra buf md (OffInt n)) ;;
       match r with
       | Skipped => mraise ValueError
       | Ran (sp, st, sl, off') =>
           _ <- setattr attr_name (PNT spectrum_fields [sp; st; sl]) ;;
           mret off'
       end)
      (mret OffNone)).

Definition parse_spectrumData := parse_spectrum_section "spectrumData".
Definition parse_referenceData := parse_spectrum_section "referenceData".

Definition referenceFileHeader_fields : list string :=
  ["referenceFlag"; "referenceTime"; "spectrumTime"; "referenceDescription"; "byteStream";
   "byteStreamLength"].

Definition parse_referenceFileHeader (off : pyoff) : M (checked pyoff) :=
  check_offset_m off (fun n =>
    try_except
      (buf <- stream ;;
       p <- lift (parse_Bool buf (OffInt n)) ;;
       let '(referenceFlag, o1) := p in
       ts <- lift (unpack_at (pnat [Cq; Cq]) buf o1) ;;
       o2 <- lift (off_add o1 16) ;;
       q <- lift (parse_bstr buf o2) ;;
       let '(referenceDescription, o3) := q in
       let bs := py_slice buf (Z.of_nat n) (off_end o3) in
       _ <- setattr "referenceFileHeader"
              (PNT referenceFileHeader_fields
                 ([referenceFlag] ++ ts ++ [referenceDescription; PBytes bs;
                  PInt (Z.of_nat (length bs))])) ;;
       mret o3)
      (mret OffNone)).

Definition classifierData_fields : list string :=
  ["yCode"; "yModelType"; "title"; "subtitle"; "productName"; "vendor"; "lotNumber";
   "sample"; "modelName"; "operator"; "dateTime"; "instrument"; "serialNumber";
   "displayMode"; "comments"; "units"; "filename"; "username"; "reserved1"; "reserved2";
   "reserved3"; "reserved4"; "constituantCount"; "constituantItems"; "byteStream";
   "byteStreamLength"].

(** [__parse_classifierData]; when the count is neither positive nor zero
    [constituantItems] is unbound. *)
Definition parse_classifierData (off : pyoff) : M (checked pyoff) :=
  check_offset_m off (fun n =>
    try_except
      (buf <- stream ;;
       yy <- lift (unpack_at (pnat [Cb; Cb]) buf (OffInt n)) ;;
       p <- lift (parse_bstrs 20 buf (OffInt (n + 2))) ;;
       let '(strs, o1) := p in
       cnt <- lift (unpack_one (pnat [CH]) buf o1) ;;
       o2 <- lift (off_add o1 2) ;;
       c <- lift (py_int cnt) ;;
       q <- (if 0 <? c then
               o3 <- lift (off_add o2 10) ;;
               r <- lift (parse_constituants (Z.to_nat c) buf o3) ;;
               let '(items, o4) := r in mret (Some (PList items), o4)
             else mret (None, o2)) ;;
       let '(items, o5) := q in
       q' <- (if c =? 0 then o6 <- lift (off_add o5 2) ;; mret (Some (PList []), o6)
              else mret (items, o5)) ;;
       let '(items, o7) := q' in
       match items with
       | None => mraise UnboundLocalError
       | Some its =>
           let bs := py_slice buf (Z.of_nat n) (off_end o7) in
           _ <- setattr "classifierData"
                  (PNT classifierData_fields
                     (yy ++ strs ++ [cnt; its; PBytes bs; PInt (Z.of_nat (length bs))])) ;;
           mret o7
       end)
      (mret OffNone)).

Definition dependants_fields : list string :=
  ["saveDependentVariables"; "dependentVariableCount"; "dependentVariableLabels";
   "dependentVariableValue"; "byteStream"; "byteStreamLength"].

Fixpoint parse_floats (k : nat) (buf : bytes) (off : pyoff) : res (list pyval * pyoff) :=
  match k with
  | O => Ok ([], off)
  | S k' =>
      let* v := unpack_one (pstd [Cf]) buf off in
      let* off1 := off_add off 4 in
      let* '(vs, off2) := parse_floats k' buf off1 in
      Ok (v :: vs, off2)
  end.

(** [__parse_dependentVariables]; a negative count sets no record. *)
Definition parse_dependentVariables (off : pyoff) : M (checked pyoff) :=
  check_offset_m off (fun n =>
    try_except
      (buf <- stream ;;
       p <- lift (parse_Bool buf (OffInt n)) ;;
       let '(save, o1) := p in
       cnt <- lift (unpack_one (pnat [Ch]) buf o1) ;;
       o2 <- lift (off_add o1 2) ;;
       c <- lift (py_int cnt) ;;
       o5 <- (if 0 <? c then
                o3 <- lift (off_add o2 10) ;;
                r <- lift (parse_bstrs (Z.to_nat c) buf o3) ;;
                let '(labels, o4) := r in
                o4' <- lift (off_add o4 10) ;;
                r' <- lift (parse_floats (Z.to_nat c) buf o4') ;;
                let '(vals, o5) := r' in
                let bs := py_slice buf (Z.of_nat n) (off_end o5) in
                _ <- setattr "dependants"
                       (PNT dependants_fields
                          [save; cnt; PList labels; PList vals; PBytes bs;
                           PInt (Z.of_nat (length bs))]) ;;
                mret o5
              else mret o2) ;;
       if c =? 0 then
         o6 <- lift (off_add o5 4) ;;
         let bs := py_slice buf (Z.of_nat n) (off_end o6) in
         _ <- setattr "dependants"
                (PNT dependants_fields
                   [save; cnt; PBytes []; PInt 0; PBytes bs; PInt (Z.of_nat (length bs))]) ;;
         mret o6
       else mret o5)
      (mret OffNone)).

Definition calibrationHeader_fields : list string :=
  ["calibrationNum"; "calibrationSeries"; "byteStream"; "byteStreamLength"].

(** ['<b 20s i h h'] *)
Definition calibration_entry_fmt : sfmt := pstd [Cb; Cs 20; Ci; Ch; Ch].

Fixpoint parse_calibration_entries (k : nat) (buf : bytes) (off : nat) : res (list pyval * nat) :=
  match k with
  | O => Ok ([], off)
  | S k' =>
      let* vs := unpack_from calibration_entry_fmt buf off in
      let* e := match vs with
                | [t; nm; it; g1; g2] => Ok (PTuple [t; PBytes (strip0 (as_bytes nm)); it; g1; g2])
                | _ => Raise ValueError
                end in
      let* '(es, off') := parse_calibration_entries k' buf (off + calcsize calibration_entry_fmt) in
      Ok (e :: es, off')
  end.

Definition parse_calibrationHeader (off : pyoff) : M (checked pyoff) :=
  check_offset_m off (fun n =>
    try_except
      (buf <- stream ;;
       cnt <- lift (unpack_one (pnat [Cb]) buf (OffInt n)) ;;
       c <- lift (py_int cnt) ;;
       let bs := py_slice buf (Z.of_nat n) (Some (Z.of_nat n + 1 + Z.of_nat (calcsize calibration_entry_fmt) * c)) in
       let hdr_tail := [PBytes bs; PInt (Z.of_nat (length bs))] in
       if 0 <? c then
         r <- lift (parse_calibration_entries (Z.to_nat c) buf (n + 1)) ;;
         let '(series, o1) := r in
         _ <- setattr "calibrationHeader" (PNT calibrationHeader_fields (cnt :: PList series :: hdr_tail)) ;;
         mret (OffInt o1)
       else
         _ <- setattr "calibrationHeader" (PNT calibrationHeader_fields (cnt :: PList [] :: hdr_tail)) ;;
         mret (OffInt (n + 1)))
      (mret OffNone)).

Definition auditLog_fields : list string := ["auditCount"; "auditEvents"; "byteStream"; "byteStreamLength"].

(** [__parse_auditLog]: a native [l] count; for a count that is not positive
    [auditEvents] is unbound. *)
Definition parse_auditLog (off : pyoff) : M (checked pyoff) :=
  check_offset_m off (fun n =>
    try_except
      (buf <- stream ;;
       cnt <- lift (unpack_one (pnat [Cl]) buf (OffInt n)) ;;
       let o1 := OffInt (n + native_long_size) in
       c <- lift (py_int cnt) ;;
       q <- (if 0 <? c then
               o2 <- lift (off_add o1 10) ;;
               r <- lift (parse_auditEvents buf o2) ;;
               let '(evs, evlen) := r in
               l <- lift (match evlen with PInt l => Ok l | _ => Raise TypeError end) ;;
               mret (Some evs, match o2 with OffInt k => OffInt (k + Z.to_nat l) | _ => o2 end)
             else mret (None, o1)) ;;
       let '(evs, o3) := q in
       match evs with
       | None => mraise UnboundLocalError
       | Some evs =>
           let bs := py_slice buf (Z.of_nat n) (off_end o3) in
           _ <- setattr "auditLog" (PNT auditLog_fields [cnt; evs; PBytes bs; PInt (Z.of_nat (length bs))]) ;;
           mret o3
       end)
      (mret OffNone)).

Definition signature_fields : list string :=
  ["signed"; "signatureTime"; "userDomain"; "userLogin"; "userName"; "source"; "reason";
   "notes"; "publicKey"; "signature"; "byteStream"; "byteStreamLength"].

Definition parse_signature (off : pyoff) : M (checked pyoff) :=
  check_offset_m off (fun n =>
    try_except
      (buf <- stream ;;
       signed <- lift (unpack_one (pnat [Cb]) buf (OffInt n)) ;;
       t <- lift (unpack_one (pnat [Cq]) buf (OffInt (n + 1))) ;;
       p <- lift (parse_bstrs 7 buf (OffInt (n + 9))) ;;
       let '(strs, o1) := p in
       sg <- lift (unpack_one (pnat [Cs 128]) buf o1) ;;
       o2 <- lift (off_add o1 128) ;;
       let bs := py_slice buf (Z.of_nat n) (off_end o2) in
       _ <- setattr "signature"
              (PNT signature_fields ([signed; t] ++ strs ++ [sg; PBytes bs; PInt (Z.of_nat (length bs))])) ;;
       mret o2)
      (mret OffNone)).

(** One iteration of [read]'s calibration loop:
    [self.calibrationSeriesXXX, _, _, offset = self.__parse_spectra(offset)]. *)
Definition calibration_step (hdr : pyval) (off : pyoff) : M pyoff :=
  t <- lift (py_getitem hdr 0) ;;
  let slot := if py_eq_int t 0 then Some "calibrationSeriesABS"
              else if py_eq_int t 1 then Some "calibrationSeriesBSE"
              else if py_eq_int t 2 then Some "calibrationSeriesLMP"
              else if py_eq_int t 3 then Some "calibrationSeriesFO"
              else None in
  match slot with
  | None => mret off
  | Some name =>
      buf <- stream ;;
      md <- getd "metadata" ;;
      r <- lift (parse_spectra buf md off) ;;
      match r with
      | Skipped => mraise ValueError
      | Ran (sp, _, _, off') => _ <- setattr name sp ;; mret off'
      end
  end.

(** The loop keeps the offset of the last completed iteration when one
    raises; the exception then leaves the loop. *)
Fixpoint calibration_loop (hdrs : list pyval) (off : pyoff) : M (pyoff * option exc) :=
  match hdrs with
  | [] => mret (off, None)
  | h :: r =>
      fun o => match calibration_step h off o with
               | (o', Ok off') => calibration_loop r off' o'
               | (o', Raise e) => (o', Ok (off, Some e))
               end
  end.

Definition as_list (v : pyval) : res (list pyval) :=
  match v with
  | PList vs | PTuple vs => Ok vs
  | _ => Raise TypeError
  end.

(** The second [try] of the [v >= 7] branch of [read]. *)
Definition read_calibration_series (off : pyoff) : M pyoff :=
  try_except
    (ch <- getd "calibrationHeader" ;;
     b <- lift (truthy ch) ;;
     go <- (if b then (num <- lift (attr ch "calibrationNum") ;; lift (py_gt0 num)) else mret false) ;;
     if go then
       hs <- lift (attr ch "calibrationSeries") ;;
       hdrs <- lift (as_list hs) ;;
       r <- calibration_loop hdrs off ;;
       mret (fst r)
     else mret off)
    (mret off).

(** ** [read] *)

Definition version_dict : list (string * Z) :=
  [("Invalid", 0); ("ASD", 1); ("as2", 2); ("as3", 3); ("as4", 4); ("as5", 5);
   ("as6", 6); ("as7", 7); ("as8", 8)].

Fixpoint version_lookup (d : list (string * Z)) (k : bytes) : option Z :=
  match d with
  | [] => None
  | (s, v) :: r => if list_eq_dec Z.eq_dec (str_bytes s) k then Some v else version_lookup r k
  end.

(** [__validate_fileVersion]: the version and the offset 3, or [-1] when the
    first three bytes do not decode or are not a key of [version_dict]. *)
Definition validate_fileVersion (buf : bytes) : Z * nat :=
  let head := firstn 3 buf in
  if utf8_valid head then
    match version_lookup version_dict head with
    | Some v => (v, 3%nat)
    | None => (-1, 3%nat)
    end
  else (-1, 3%nat).

Definition trailer : bytes := [255; 254; 253].

Definition section (p : pyoff -> M (checked pyoff)) (off : pyoff) : M pyoff :=
  try_except (c <- p off ;; mret (as_offset c)) (mret off).

(** [self.metadata.channel1Wavelength + self.metadata.channels *
    self.metadata.wavelengthStep] and the [np.arange] of the axis. *)
Definition wavelength_axis (md : pyval) : res pyval :=
  let* c1 := attr md "channel1Wavelength" in
  let* ch := attr md "channels" in
  let* st := attr md "wavelengthStep" in
  let* span := py_mul ch st in
  let* stop := py_add c1 span in
  arange c1 stop st.

(** [read(filePath)] on an existing file with contents [file]. *)
Definition read (file : bytes) : M bool :=
  _ <- (if list_eq_dec Z.eq_dec (py_slice file (-3) None) trailer then
          _ <- setattr "_ASDFile__bom" (PBytes (py_slice file (-3) None)) ;;
          setattr "_ASDFile__asdFileStream" (PBytes (py_slice file 0 (Some (-3))))
        else setattr "_ASDFile__asdFileStream" (PBytes file)) ;;
  buf <- stream ;;
  let '(v, off0) := validate_fileVersion buf in
  _ <- setattr "asdFileVersion" (PInt v) ;;
  if 0 <? v then
    off1 <- try_except
              (o1 <- parse_metadata (OffInt off0) ;;
               let o1 := as_offset o1 in
               try_except
                 (md <- getd "metadata" ;;
                  wl <- lift (wavelength_axis md) ;;
                  _ <- setattr "_ASDFile__wavelengths" wl ;;
                  o2 <- parse_spectrumData o1 ;;
                  mret (as_offset o2))
                 (mret o1))
              (mret (OffInt off0)) ;;
    _ <- (if 2 <=? v then
            off2 <- section parse_referenceFileHeader off1 ;;
            off3 <- section parse_referenceData off2 ;;
            off5 <- (if 6 <=? v then
                       off4 <- section parse_classifierData off3 ;;
                       section parse_dependentVariables off4
                     else mret off3) ;;
            off7 <- (if 7 <=? v then
                       off6 <- section parse_calibrationHeader off5 ;;
                       read_calibration_series off6
                     else mret off5) ;;
            if 8 <=? v then
              off8 <- section parse_auditLog off7 ;;
              _ <- section parse_signature off8 ;;
              mret tt
            else mret tt
          else mret tt) ;;
    mret true
  else mret false.

(** ** Encoders *)

(** [(bytes, n)] and [(None, None)] as the wrappers return them. *)
Definition pair_ok (bs : bytes) (n : Z) : pyval := PTuple [PBytes bs; PInt n].
Definition pair_none : pyval := PTuple [PNone; PNone].

Definition py_ljust (v : pyval) (n : nat) : res pyval :=
  match v with
  | PBytes b => Ok (PBytes (ljust0 b n))
  | _ => Raise AttributeError
  end.

Definition dt_fields (v : pyval) : res (Z * Z * Z * Z * Z * Z) :=
  match v with
  | PDatetime y mo d h mi s => Ok (y, mo, d, h, mi, s)
  | _ => Raise AttributeError
  end.

(** [__wrap_ASDFilewhen] *)
Definition wrap_ASDFilewhen (when isDaylightSaving : pyval) : res pyval :=
  let* '(y, mo, d, h, mi, s) := dt_fields when in
  let year := if 1900 <=? y then y - 1900 else y in
  let weekDay := (weekday y mo d + 1) mod 7 in
  let daysInYear := ymd2ord y mo d - ymd2ord y 1 1 in
  let* bs := pack (pnat (repeat Ch 9))
               [PInt s; PInt mi; PInt h; PInt d; PInt (mo - 1); PInt year; PInt weekDay;
                PInt daysInYear; isDaylightSaving] in
  Ok (PBytes bs).

Definition md_get (md : pyval) (k : string) : res pyval := attr md k.

(** The arguments of [__wrap_metadata]'s [struct.pack], in order. *)
Definition metadata_pack_values (md : pyval) : res (list pyval) :=
  let g := md_get md in
  let* comments := g "comments" in
  let* comments := py_ljust comments 157 in
  let* when := g "when" in
  let* dst := g "daylighSavingsFlag" in
  let* w := wrap_ASDFilewhen when dst in
  let* pv := g "programVersion" in
  let* fv := g "fileVersion" in
  let* itm := g "iTime" in
  let* dc := g "darkCorrected" in
  let* dk := g "darkTime" in
  let* dk := timestamp dk in
  let* dty := g "dataType" in
  let* rt := g "referenceTime" in
  let* rt := timestamp rt in
  let* plain1 := fold_right (fun k acc => let* v := g k in let* vs := acc in Ok (v :: vs))
                   (Ok []) ["channel1Wavelength"; "wavelengthStep"; "dataFormat";
                            "old_darkCurrentCount"; "old_refCount"; "old_sampleCount";
                            "application"; "channels"] in
  let* app := g "appData_str" in
  let* app := py_ljust app 128 in
  let* gps := g "gpsData_str" in
  let* gps := py_ljust gps 56 in
  let* plain2 := fold_right (fun k acc => let* v := g k in let* vs := acc in Ok (v :: vs))
                   (Ok []) ["intergrationTime_ms"; "fo"; "darkCurrentCorrention";
                            "calibrationSeries"; "instrumentNum"; "yMin"; "yMax"; "xMin";
                            "xMax"; "ipNumBits"; "xMode"; "flags1"; "flags2"; "flags3";
                            "flags4"; "darkCurrentCount"; "refCount"; "sampleCount";
                            "instrument"; "calBulbID"; "swir1Gain"; "swir2Gain";
                            "swir1Offset"; "swir2Offset"; "splice1_wavelength";
                            "splice2_wavelength"] in
  let* sdt := g "smartDetectorType" in
  let* sdt := py_ljust sdt 27 in
  let* spares := fold_right (fun k acc => let* v := g k in let* vs := acc in Ok (v :: vs))
                   (Ok []) ["spare1"; "spare2"; "spare3"; "spare4"; "spare5"] in
  Ok ([comments; w; pv; fv; itm; dc; PInt dk; dty; PInt rt] ++ plain1 ++ [app; gps]
      ++ plain2 ++ [sdt] ++ spares).

(** [__wrap_metadata]: [(bytes, 481)], [(None, None)] when the block is not
    481 bytes long, or a single [None] when packing raised. *)
Definition wrap_metadata (md : pyval) : pyval :=
  catch
    (let* vals := metadata_pack_values md in
     let* bs := pack metadata_fmt vals in
     Ok (if Nat.eqb (length bs) 481 then pair_ok bs 481 else pair_none))
    PNone.

(** [*seq] *)
Definition star_args (v : pyval) : res (list pyval) :=
  match v with
  | PArray xs => Ok (map PFloat xs)
  | PTuple vs | PList vs | PNT _ vs => Ok vs
  | PBytes bs => Ok (map PInt bs)
  | _ => Raise TypeError
  end.

(** [__wrap_spectra(spectra)] *)
Definition wrap_spectra (md spectra : pyval) : pyval :=
  catch
    (let* ch := attr md "channels" in
     let* c := match ch with
               | PInt c => if 0 <=? c then Ok c else Raise StructError
               | _ => Raise StructError
               end in
     let* args := star_args spectra in
     let* bs := pack (pstd (repeat Cd (Z.to_nat c))) args in
     Ok (pair_ok bs (c * 8)))
    pair_none.

(** [__wrap_bstr]: only [str] is encoded; for [bytes] the length variable and
    for anything else both results are unbound. *)
Definition wrap_bstr (v : pyval) : res pyval :=
  match v with
  | PStr s =>
      let size := Z.of_nat (length s) in
      match pack (pnat [Ch]) [PInt size] with
      | Raise _ => Ok pair_none
      | Ok hb => match pack (pstd [Cs (length s)]) [PBytes s] with
                 | Raise _ => Ok pair_none
                 | Ok sb => Ok (pair_ok (hb ++ sb) (Z.of_nat (length (hb ++ sb))))
                 end
      end
  | PBytes s =>
      match pack (pnat [Ch]) [PInt (Z.of_nat (length s))] with
      | Raise _ => Ok pair_none
      | Ok _ => Raise UnboundLocalError
      end
  | _ => Raise UnboundLocalError
  end.

(** [x, _ = self.__wrap_bstr(v)] *)
Definition bstr_bytes (v : pyval) : res pyval :=
  let* r := wrap_bstr v in
  let* '(x, _) := unpack2 r in
  Ok x.

Fixpoint concat_all (vs : list pyval) : res pyval :=
  match vs with
  | [] => Ok (PBytes [])
  | [v] => match v with PBytes _ => Ok v | _ => Raise TypeError end
  | v :: r => let* t := concat_all r in py_concat v t
  end.

Definition wrap_referenceFileHeader (rfh : pyval) : pyval :=
  catch
    (let* flag := attr rfh "referenceFlag" in
     let* '(fb, n) := wrap_Bool flag in
     let* rt := attr rfh "referenceTime" in
     let* st := attr rfh "spectrumTime" in
     let* tb := pack (pnat [Cq; Cq]) [rt; st] in
     let* desc := attr rfh "referenceDescription" in
     let* d := wrap_bstr desc in
     let* '(db, dl) := unpack2 d in
     let* bs := concat_all [PBytes fb; PBytes tb; db] in
     let* len := py_add (PInt (Z.of_nat n + 16)) dl in
     Ok (PTuple [bs; len]))
    pair_none.

Definition wrap_constituantType (item : pyval) : pyval :=
  catch
    (let* nm := attr item "constituentName" in
     let* nb := bstr_bytes nm in
     let* pf := attr item "passFail" in
     let* pb := bstr_bytes pf in
     let* vs := fold_right (fun k acc => let* v := attr item k in let* vs := acc in Ok (v :: vs))
                  (Ok []) (skipn 2 constituent_fields) in
     let* part := pack constituent_fmt vs in
     let* bs := concat_all [nb; pb; PBytes part] in
     match bs with
     | PBytes b => Ok (pair_ok b (Z.of_nat (length b)))
     | _ => Raise TypeError
     end)
    pair_none.

Fixpoint map_res {A B} (f : A -> res B) (xs : list A) : res (list B) :=
  match xs with
  | [] => Ok []
  | x :: r => let* y := f x in let* ys := map_res f r in Ok (y :: ys)
  end.

(** [for i in range(n): ... seq[i] ...] *)
Definition items_upto (n : Z) (v : pyval) : res (list pyval) :=
  map_res (fun i => py_getitem v (Z.of_nat i)) (seq 0 (Z.to_nat n)).

(** The array preamble [pack('H', 1) + pack('I', n) + pack('I', 0)]. *)
Definition array_preamble (n : pyval) : res bytes :=
  let* a := pack (pnat [CH]) [PInt 1] in
  let* b := pack (pnat [CI]) [n] in
  let* c := pack (pnat [CI]) [PInt 0] in
  Ok (a ++ b ++ c).

Definition wrap_classifierData (cd : pyval) : pyval :=
  catch
    (let* yc := attr cd "yCode" in
     let* ym := attr cd "yModelType" in
     let* head := pack (pnat [Cb; Cb]) [yc; ym] in
     let* strs := map_res (fun k => let* v := attr cd k in bstr_bytes v)
                    (firstn 20 (skipn 2 classifierData_fields)) in
     let* cnt := attr cd "constituantCount" in
     let* cb := pack (pnat [CH]) [cnt] in
     let* pos := py_gt0 cnt in
     let* cons := if pos then
                    let* pre := array_preamble cnt in
                    let* c := py_int cnt in
                    let* its := attr cd "constituantItems" in
                    let* items := items_upto c its in
                    let* packed := map_res (fun it => let* '(b, _) := unpack2 (wrap_constituantType it) in Ok b) items in
                    concat_all (PBytes pre :: packed)
                  else Ok (PBytes []) in
     let* cons := if py_eq_int cnt 0 then py_concat cons (PBytes [0; 0]) else Ok cons in
     let* bs := concat_all ([PBytes head] ++ strs ++ [PBytes cb; cons]) in
     match bs with
     | PBytes b => Ok (pair_ok b (Z.of_nat (length b)))
     | _ => Raise TypeError
     end)
    pair_none.

Definition wrap_dependentVariables (dp : pyval) : pyval :=
  catch
    (let* save := attr dp "saveDependentVariables" in
     let* '(bb, _) := wrap_Bool save in
     let* cnt := attr dp "dependentVariableCount" in
     let* cb := pack (pnat [Ch]) [cnt] in
     let* pos := py_gt0 cnt in
     let* body := if pos then
                    let* c := py_int cnt in
                    let* pre := array_preamble cnt in
                    let* labels := attr dp "dependentVariableLabels" in
                    let* ls := items_upto c labels in
                    let* lbs := map_res bstr_bytes ls in
                    let* vals := attr dp "dependentVariableValue" in
                    let* vs := items_upto c vals in
                    let* vbs := map_res (fun v => pack (pstd [Cf]) [v]) vs in
                    let* lpart := concat_all (PBytes pre :: lbs) in
                    let* all := concat_all [lpart; PBytes pre; PBytes (concat vbs)] in
                    Ok (as_bytes all)
                  else Ok [] in
     let tail := if py_eq_int cnt 0 then [0; 0; 0; 0] else [] in
     let b := bb ++ cb ++ body ++ tail in
     Ok (pair_ok b (Z.of_nat (length b))))
    pair_none.

Definition wrap_calibrationHeader (ch : pyval) : pyval :=
  catch
    (let* num := attr ch "calibrationNum" in
     let* nb := pack (pnat [Cb]) [num] in
     let* pos := py_gt0 num in
     let* entries := if pos then
                       let* ss := attr ch "calibrationSeries" in
                       let* ss := as_list ss in
                       map_res (fun e =>
                                  match e with
                                  | PTuple [t; nm; it; g1; g2] =>
                                      let* nm' := py_ljust nm 20 in
                                      pack calibration_entry_fmt [t; nm'; it; g1; g2]
                                  | _ => Raise ValueError
                                  end) ss
                     else Ok [] in
     let b := nb ++ concat entries in
     Ok (pair_ok b (Z.of_nat (length b))))
    pair_none.

(** [__wrap_auditEvents]: each event as a ['<h'] count of its characters and
    its UTF-8 bytes; an empty list leaves the length unbound. *)
Definition wrap_auditEvents (evs : pyval) : pyval :=
  catch
    (let* es := as_list evs in
     let* parts := map_res (fun e =>
                              match e with
                              | PStr s => let* h := pack (pstd [Ch]) [PInt (Z.of_nat (str_len s))] in Ok (h ++ s)
                              | _ => Raise AttributeError
                              end) es in
     match es with
     | [] => Raise UnboundLocalError
     | _ => let b := concat parts in Ok (pair_ok b (Z.of_nat (length b)))
     end)
    pair_none.

Definition wrap_auditLog (al : pyval) : pyval :=
  catch
    (let* cnt := attr al "auditCount" in
     let* cb := pack (pnat [Cl]) [cnt] in
     let* pos := py_gt0 cnt in
     let* ab := if pos then
                  let* pre := array_preamble cnt in
                  let* evs := attr al "auditEvents" in
                  let* '(eb, _) := unpack2 (wrap_auditEvents evs) in
                  py_concat (PBytes pre) eb
                else Ok (PBytes []) in
     let* b := py_concat (PBytes cb) ab in
     Ok (PTuple [b; PInt (Z.of_nat (length (as_bytes b)))]))
    pair_none.

Definition wrap_signature (sg : pyval) : pyval :=
  catch
    (let* s := attr sg "signed" in
     let* sb := pack (pnat [Cb]) [s] in
     let* t := attr sg "signatureTime" in
     let* tb := pack (pnat [Cq]) [t] in
     let* strs := map_res (fun k => let* v := attr sg k in bstr_bytes v)
                    ["userDomain"; "userLogin"; "userName"; "source"; "reason"; "notes"; "publicKey"] in
     let* sig := attr sg "signature" in
     let* gb := pack (pnat [Cs 128]) [sig] in
     let* bs := concat_all ([PBytes sb; PBytes tb] ++ strs ++ [PBytes gb]) in
     Ok (PTuple [bs; PInt (Z.of_nat (length (as_bytes bs)))]))
    pair_none.

(** Decimal digits of a non-negative integer, as [str(n)]. *)
Fixpoint dec_digits (fuel : nat) (n : Z) : bytes :=
  match fuel with
  | O => []
  | S f => (if n <? 10 then [] else dec_digits f (n / 10)) ++ [48 + n mod 10]
  end.

Definition dec_bytes (n : Z) : bytes := dec_digits (S (Z.to_nat (Z.log2 (Z.max n 1)))) n.

(** [__setFileVersion] *)
Definition setFileVersion (v : Z) : res bytes :=
  if v =? 1 then Ok (str_bytes "ASD")
  else if 1 <? v then Ok (str_bytes "as" ++ dec_bytes v)
  else Raise UnboundLocalError.

(** ** [write]

    The file is removed and reopened empty; what was written before an
    exception stays in it.  A computation of [write] sees the instance and
    the file contents written so far. *)

Definition W (A : Type) := bytes -> bytes * res A.

Definition wret {A} (a : A) : W A := fun f => (f, Ok a).
Definition wbind {A B} (m : W A) (k : A -> W B) : W B :=
  fun f => let '(f', r) := m f in
           match r with Ok a => k a f' | Raise e => (f', Raise e) end.

Notation "x <-- m ;;; k" := (wbind m (fun x => k))
  (at level 61, m at next level, right associativity).

Definition wlift {A} (r : res A) : W A := fun f => (f, r).

(** [fileHandle.write(v)] *)
Definition fwrite (v : pyval) : W unit :=
  fun f => match v with
           | PBytes b => (f ++ b, Ok tt)
           | _ => (f, Raise TypeError)
           end.

(** [offset = offset + n]; [offset] is unbound when no version was written. *)
Definition off_plus (off : option Z) (n : pyval) : res (option Z) :=
  match off with
  | None => Raise UnboundLocalError
  | Some k => match n with PInt m => Ok (Some (k + m)) | _ => Raise TypeError end
  end.

Definition len_of (v : pyval) : res pyval :=
  match v with
  | PBytes b => Ok (PInt (Z.of_nat (length b)))
  | _ => Raise TypeError
  end.

(** ** Derived spectra and attribute fallback *)

Definition spectra_type : list string :=
  ["RAW"; "REF"; "RAD"; "NOUNITS"; "IRRAD"; "QI"; "TRANS"; "UNKNOWN"; "ABS"].

(** [spectra_type[i]] *)
Definition spectra_type_at (v : pyval) : res string :=
  match v with
  | PInt i =>
      let n := Z.of_nat (length spectra_type) in
      if (- n <=? i) && (i <? n) then Ok (nth (Z.to_nat (if i <? 0 then i + n else i)) spectra_type "")
      else Raise IndexError
  | _ => Raise TypeError
  end.

(** [self.name] for a name absent from the instance dictionary and handled by
    the last branch of [__getattr__]. *)
Definition plain_attr (o : obj) (k : string) : pyval :=
  match obj_get o k with Some v => v | None => PNone end.

(** [math.pi] / [np.pi] *)
Definition pi_bits : Z := 4614256656552045848.

(** [get_radiance] *)
Definition get_radiance (o : obj) : res pyval :=
  let self := plain_attr o in
  let* dt := attr (self "metadata") "dataType" in
  let* st := spectra_type_at dt in
  if String.eqb st "RAD" then
    let* p1 := py_mul (self "calibrationSeries_lamp") (self "reference") in
    let* p2 := py_mul p1 (self "spectrumData") in
    let* it := attr (self "metadata") "intergrationTime_ms" in
    let* p3 := py_mul p2 it in
    let* d1 := py_mul (self "calibrationSeries_base") (PInt 500) in
    let* d2 := py_mul d1 (PInt 544) in
    let* d3 := py_mul d2 (PFloat pi_bits) in
    py_div p3 d3
  else Raise TypeError.

Definition f2048 : Z := 4656722014701092864.

(** [__normalise_spectrum(spec, metadata)] *)
Definition normalise_spectrum (spec md : pyval) : res pyval :=
  let* xs := match spec with PArray xs => Ok xs | _ => Raise AttributeError end in
  let* sw1 := attr md "splice1_wavelength" in
  let* splice1_index := py_int sw1 in
  let* sw2 := attr md "splice2_wavelength" in
  let* splice2_index := py_int sw2 in
  let n := length xs in
  let i1 := slice_index n splice1_index in
  let i2 := slice_index n splice2_index in
  let* itv := attr md "intergrationTime_ms" in
  let* it := as_float_val itv in
  let res1 := assign_range xs xs 0 i1 (fun x => fdiv x it) in
  let* g1v := attr md "swir1Gain" in
  let* g1 := as_float_val g1v in
  let res2 := assign_range res1 xs i1 i2 (fun x => fdiv (fmul x g1) f2048) in
  let* g1v' := attr md "swir1Gain" in
  let* g1' := as_float_val g1v' in
  let res3 := assign_range res2 xs i2 n (fun x => fdiv (fmul x g1') f2048) in
  Ok (PArray res3).

(** [__getattr__(item)]; the [reflectance] branch is shadowed by the class's
    [reflectance] property and is left out. *)
Definition dunder_getattr (o : obj) (item : string) : res pyval :=
  if String.eqb item "radiance" then get_radiance o
  else if String.eqb item "white_reference" then
    normalise_spectrum (plain_attr o "reference") (plain_attr o "metadata")
  else if String.eqb item "raw" then Ok (plain_attr o "spectrumData")
  else if String.eqb item "ref" then Ok (plain_attr o "reference")
  else Ok PNone.

(** [self.item] *)
Definition self_attr (o : obj) (item : string) : res pyval :=
  match obj_get o item with
  | Some v => Ok v
  | None => dunder_getattr o item
  end.

Fixpoint replace_field (fs : list string) (vs : list pyval) (k : string) (x : pyval) : list pyval :=
  match fs, vs with
  | f :: fs', v :: vs' => (if String.eqb f k then x else v) :: replace_field fs' vs' k x
  | _, _ => vs
  end.

(** [update(field_name, new_value)] *)
Definition update (field_name : string) (new_value : pyval) : M unit :=
  md <- getd "metadata" ;;
  _ <- match md with
       | PNone => mret tt
       | PNT fs vs =>
           if existsb (String.eqb field_name) fs
           then setattr "metadata" (PNT fs (replace_field fs vs field_name new_value))
           else mraise ValueError
       | _ => mraise ValueError
       end ;;
  if existsb (String.eqb field_name) ["channel1Wavelength"; "channels"; "wavelengthStep"] then
    md' <- getd "metadata" ;;
    wl <- lift (wavelength_axis md') ;;
    setattr "_ASDFile__wavelengths" wl
  else mret tt.

(** ** [write] *)

(** [x, n = r; offset = offset + n; fileHandle.write(x)], or in the other
    order ([before = false]). *)
Definition emit (r : pyval) (off : option Z) (before : bool) : W (option Z) :=
  p <-- wlift (unpack2 r) ;;;
  let '(x, n) := p in
  if before then
    off' <-- wlift (off_plus off n) ;;;
    _ <-- fwrite x ;;;
    wret off'
  else
    _ <-- fwrite x ;;;
    off' <-- wlift (off_plus off n) ;;;
    wret off'.

(** [x, _ = r; fileHandle.write(x); offset = offset + len(x)] *)
Definition emit_len (r : pyval) (off : option Z) : W (option Z) :=
  p <-- wlift (unpack2 r) ;;;
  let '(x, _) := p in
  _ <-- fwrite x ;;;
  n <-- wlift (len_of x) ;;;
  wlift (off_plus off n).

Definition py_ge (v : pyval) (k : Z) : res bool :=
  match v with
  | PInt z => Ok (k <=? z)
  | PBool b => Ok (k <=? (if b then 1 else 0))
  | _ => Raise TypeError
  end.

Definition wtruthy (o : obj) (k : string) : W (pyval * bool) :=
  v <-- wlift (self_attr o k) ;;;
  b <-- wlift (truthy v) ;;;
  wret (v, b).

(** [__wrap_spectrumData] / [__wrap_referenceData] *)
Definition wrap_spectrum_section (md sec : pyval) : pyval :=
  match attr sec "spectra" with
  | Ok sp => wrap_spectra md sp
  | Raise _ => pair_none
  end.

Definition calibration_slot_of (t : pyval) : option string :=
  if py_eq_int t 0 then Some "calibrationSeriesABS"
  else if py_eq_int t 1 then Some "calibrationSeriesBSE"
  else if py_eq_int t 2 then Some "calibrationSeriesLMP"
  else if py_eq_int t 3 then Some "calibrationSeriesFO"
  else None.

(** [for i in range(calibrationNum): ...] of [write]. *)
Fixpoint write_calibration_loop (o : obj) (md ss : pyval) (idx : list nat) (off : option Z) : W (option Z) :=
  match idx with
  | [] => wret off
  | i :: r =>
      e <-- wlift (py_getitem ss (Z.of_nat i)) ;;;
      t <-- wlift (py_getitem e 0) ;;;
      off' <-- (match calibration_slot_of t with
                | Some slot =>
                    sp <-- wlift (self_attr o slot) ;;;
                    emit (wrap_spectra md sp) off true
                | None => wret off
                end) ;;;
      write_calibration_loop o md ss r off'
  end.

Definition write_calibration_series (o : obj) (md ch : pyval) (off : option Z) : W (option Z) :=
  b <-- wlift (truthy ch) ;;;
  go <-- (if b then n <-- wlift (attr ch "calibrationNum") ;;; wlift (py_gt0 n) else wret false) ;;;
  if go then
    n <-- wlift (attr ch "calibrationNum") ;;;
    k <-- wlift (py_int n) ;;;
    ss <-- wlift (attr ch "calibrationSeries") ;;;
    write_calibration_loop o md ss (seq 0 (Z.to_nat k)) off
  else wret off.

(** Everything [write] does before the trailer check. *)
Definition write_body (o : obj) : W unit :=
  v <-- wlift (self_attr o "asdFileVersion") ;;;
  vpos <-- wlift (py_gt0 v) ;;;
  off <-- (if vpos then
             vz <-- wlift (py_int v) ;;;
             vb <-- wlift (setFileVersion vz) ;;;
             _ <-- fwrite (PBytes vb) ;;;
             wret (Some 3)
           else wret None) ;;;
  mdb <-- wtruthy o "metadata" ;;;
  let '(md, mt) := mdb in
  off <-- (if mt then emit (wrap_metadata md) off true else wret off) ;;;
  sdb <-- wtruthy o "spectrumData" ;;;
  let '(sd, st) := sdb in
  if st then
    off <-- emit (wrap_spectrum_section md sd) off true ;;;
    v2 <-- wlift (py_ge v 2) ;;;
    if v2 then
      x <-- wtruthy o "referenceFileHeader" ;;;
      off <-- (if snd x then emit (wrap_referenceFileHeader (fst x)) off true else wret off) ;;;
      x <-- wtruthy o "referenceData" ;;;
      off <-- (if snd x then emit (wrap_spectrum_section md (fst x)) off false else wret off) ;;;
      x <-- wtruthy o "classifierData" ;;;
      off <-- (if snd x then emit (wrap_classifierData (fst x)) off false else wret off) ;;;
      x <-- wtruthy o "dependants" ;;;
      off <-- (if snd x then emit (wrap_dependentVariables (fst x)) off true else wret off) ;;;
      v7 <-- wlift (py_ge v 7) ;;;
      if v7 then
        x <-- wtruthy o "calibrationHeader" ;;;
        off <-- (if snd x then emit (wrap_calibrationHeader (fst x)) off true else wret off) ;;;
        off <-- write_calibration_series o md (fst x) off ;;;
        v8 <-- wlift (py_ge v 8) ;;;
        if v8 then
          al <-- wlift (self_attr o "auditLog") ;;;
          off <-- emit_len (wrap_auditLog al) off ;;;
          sg <-- wlift (self_attr o "signature") ;;;
          _ <-- emit_len (wrap_signature sg) off ;;;
          wret tt
        else wret tt
      else wret tt
    else wret tt
  else wret tt.

(** [write(file)]: the file contents it leaves and its result. *)
Definition write (o : obj) : bytes * res bool :=
  (_ <-- write_body o ;;;
   b <-- wlift (self_attr o "_ASDFile__bom") ;;;
   t <-- wlift (truthy b) ;;;
   _ <-- (if t then fwrite b else wret tt) ;;;
   wret true) [].

(** [f = ASDFile(); f.read(path)]: the instance and [read]'s result. *)
Definition read_file (file : bytes) : obj * res bool := read file init_obj.

(** ** Sample inputs *)

Definition f_one : Z := 4607182418800017408.
Definition f_half : Z := 4602678819172646912.

(** Metadata fields read by [__normalise_spectrum]: both splices at channel 0,
    an integration time of 1 ms, [swir1Gain = 1024] and [swir2Gain = 2048]. *)
Definition md_gains : pyval :=
  PNT ["splice1_wavelength"; "splice2_wavelength"; "intergrationTime_ms"; "swir1Gain"; "swir2Gain"]
      [PFloat 0; PFloat 0; PInt 1; PInt 1024; PInt 2048].

(** A version-1 file whose metadata block is all zero bytes: its [when] field
    names day 0 of a month. *)
Definition asd_zero_file : bytes := str_bytes "ASD" ++ repeat 0 481.

(** An instance whose buffer holds [file], as [read] leaves it. *)
Definition with_stream (file : bytes) : obj :=
  obj_set init_obj "_ASDFile__asdFileStream" (PBytes file).

(** The three-byte version-1 file: a header and nothing else. *)
Definition asd_header_only : bytes := str_bytes "ASD".

Definition f_tenth : Z := 4591870180066957722.

(** An instance whose metadata has [channel1Wavelength = 1.0], three channels
    and [wavelengthStep = 0.1]. *)
Definition md_axis : pyval :=
  PNT ["channel1Wavelength"; "channels"; "wavelengthStep"] [PFloat f_one; PInt 3; PFloat f_tenth].

Definition obj_axis : obj := obj_set init_obj "metadata" md_axis.

(** A well-formed version-6 file of one channel: header "as6", metadata,
    spectrum, reference file header and reference spectrum, a classifier block
    (two bytes, twenty strings, no constituents) and an empty dependent
    variables block. *)
Definition v6_file : bytes :=
  [97; 115; 54; 104; 101; 108; 108; 111] ++
  repeat 0 152 ++
  [5; 0; 6; 0; 7; 0; 14; 0; 10; 0; 123; 0; 2; 0; 61; 1; 0; 0; 1; 8; 3; 1; 0; 241; 83; 101; 2; 100; 241; 83; 101; 0; 0; 175; 67; 0; 0; 128; 63; 2; 0; 0; 0; 5; 1; 0; 97; 112; 112] ++
  repeat 0 125 ++
  [103; 112; 115] ++
  repeat 0 53 ++
  [17; 0; 0; 0; 1; 0; 2; 0; 3; 0; 4; 0; 0; 0; 0; 63; 0; 0; 192; 63; 0; 0; 32; 64; 0; 0; 96; 64; 16; 0; 1; 0; 1; 2; 3; 10; 0; 11; 0; 12; 0; 4; 99; 0; 0; 0; 0; 8; 0; 4; 5; 0; 6; 0; 0; 0; 122; 68; 0; 0; 225; 68; 115; 100] ++
  repeat 0 36 ++
  [240; 63; 255; 255; 123; 0; 0; 0; 0; 0; 0; 0; 200; 1; 0; 0; 0; 0; 0; 0; 4; 0; 100; 101; 115; 99] ++
  repeat 0 8 ++
  [1; 2; 2; 0; 115; 48; 2; 0; 115; 49; 2; 0; 115; 50; 2; 0; 115; 51; 2; 0; 115; 52; 2; 0; 115; 53; 2; 0; 115; 54; 2; 0; 115; 55; 2; 0; 115; 56; 2; 0; 115; 57; 3; 0; 115; 49; 48; 3; 0; 115; 49; 49; 3; 0; 115; 49; 50; 3; 0; 115; 49; 51; 3; 0; 115; 49; 52; 3; 0; 115; 49; 53; 3; 0; 115; 49; 54; 3; 0; 115; 49; 55; 3; 0; 115; 49; 56; 3; 0; 115; 49; 57] ++
  repeat 0 12.

(** The attributes the section parsers of [read] assign. *)
Definition section_attr_names : list string :=
  ["metadata"; "_ASDFile__wavelengths"; "spectrumData"; "referenceFileHeader"; "referenceData";
   "classifierData"; "dependants"; "calibrationHeader"; "calibrationSeriesABS";
   "calibrationSeriesBSE"; "calibrationSeriesLMP"; "calibrationSeriesFO"; "auditLog"; "signature"].

(** A well-formed version-7 radiance file ([dataType = 2]) of one channel:
    the version-6 sections followed by a calibration header of three entries
    of types 0, 1 and 2 and their three spectra. *)
Definition v7_file : bytes :=
  [97; 115; 55; 104; 101; 108; 108; 111] ++
  repeat 0 152 ++
  [5; 0; 6; 0; 7; 0; 14; 0; 10; 0; 123; 0; 2; 0; 61; 1; 0; 0; 1; 8; 3; 1; 0; 241; 83; 101; 2; 100; 241; 83; 101; 0; 0; 175; 67; 0; 0; 128; 63; 2; 0; 0; 0; 5; 1; 0; 97; 112; 112] ++
  repeat 0 125 ++
  [103; 112; 115] ++
  repeat 0 53 ++
  [17; 0; 0; 0; 1; 0; 2; 0; 3; 0; 4; 0; 0; 0; 0; 63; 0; 0; 192; 63; 0; 0; 32; 64; 0; 0; 96; 64; 16; 0; 1; 0; 1; 2; 3; 10; 0; 11; 0; 12; 0; 4; 99; 0; 0; 0; 0; 8; 0; 4; 5; 0; 6; 0; 0; 0; 122; 68; 0; 0; 225; 68; 115; 100] ++
  repeat 0 36 ++
  [240; 63; 255; 255; 123; 0; 0; 0; 0; 0; 0; 0; 200; 1; 0; 0; 0; 0; 0; 0; 4; 0; 100; 101; 115; 99] ++
  repeat 0 8 ++
  [1; 2; 2; 0; 115; 48; 2; 0; 115; 49; 2; 0; 115; 50; 2; 0; 115; 51; 2; 0; 115; 52; 2; 0; 115; 53; 2; 0; 115; 54; 2; 0; 115; 55; 2; 0; 115; 56; 2; 0; 115; 57; 3; 0; 115; 49; 48; 3; 0; 115; 49; 49; 3; 0; 115; 49; 50; 3; 0; 115; 49; 51; 3; 0; 115; 49; 52; 3; 0; 115; 49; 53; 3; 0; 115; 49; 54; 3; 0; 115; 49; 55; 3; 0; 115; 49; 56; 3; 0; 115; 49; 57] ++
  repeat 0 12 ++
  [3; 0; 110; 48] ++
  repeat 0 18 ++
  [10; 0; 0; 0; 1; 0; 2; 0; 1; 110; 49] ++
  repeat 0 18 ++
  [11; 0; 0; 0; 1; 0; 2; 0; 2; 110; 50] ++
  repeat 0 18 ++
  [12; 0; 0; 0; 1; 0; 2] ++
  repeat 0 14 ++
  [128; 91; 64; 0; 0; 0; 0; 0; 128; 107; 64].

(** [v6_file] with the reference file header's Boolean (offset 492) replaced
    by the bytes 01 00, which are neither sentinel. *)
Definition v6_bad_bool : bytes := firstn 492 v6_file ++ [1; 0] ++ skipn 494 v6_file.

(** A version-7 file with one channel and two calibration entries of the
    same type (Base) holding different spectra. *)
Definition v7_dup_file : bytes :=
  [97; 115; 55; 104; 101; 108; 108; 111] ++
  repeat 0 152 ++
  [5; 0; 6; 0; 7; 0; 14; 0; 10; 0; 123; 0; 2; 0; 61; 1; 0; 0; 1; 8; 3; 1; 0; 241; 83; 101; 2; 100; 241; 83; 101; 0; 0; 175; 67; 0; 0; 128; 63; 2; 0; 0; 0; 5; 1; 0; 97; 112; 112] ++
  repeat 0 125 ++
  [103; 112; 115] ++
  repeat 0 53 ++
  [17; 0; 0; 0; 1; 0; 2; 0; 3; 0; 4; 0; 0; 0; 0; 63; 0; 0; 192; 63; 0; 0; 32; 64; 0; 0; 96; 64; 16; 0; 1; 0; 1; 2; 3; 10; 0; 11; 0; 12; 0; 4; 99; 0; 0; 0; 0; 8; 0; 4; 5; 0; 6; 0; 0; 0; 122; 68; 0; 0; 225; 68; 115; 100] ++
  repeat 0 36 ++
  [240; 63; 255; 255; 123; 0; 0; 0; 0; 0; 0; 0; 200; 1; 0; 0; 0; 0; 0; 0; 4; 0; 100; 101; 115; 99] ++
  repeat 0 8 ++
  [1; 2; 2; 0; 115; 48; 2; 0; 115; 49; 2; 0; 115; 50; 2; 0; 115; 51; 2; 0; 115; 52; 2; 0; 115; 53; 2; 0; 115; 54; 2; 0; 115; 55; 2; 0; 115; 56; 2; 0; 115; 57; 3; 0; 115; 49; 48; 3; 0; 115; 49; 49; 3; 0; 115; 49; 50; 3; 0; 115; 49; 51; 3; 0; 115; 49; 52; 3; 0; 115; 49; 53; 3; 0; 115; 49; 54; 3; 0; 115; 49; 55; 3; 0; 115; 49; 56; 3; 0; 115; 49; 57] ++
  repeat 0 12 ++
  [2; 1; 110; 49] ++
  repeat 0 18 ++
  [11; 0; 0; 0; 1; 0; 2; 0; 1; 110; 49] ++
  repeat 0 18 ++
  [11; 0; 0; 0; 1; 0; 2; 0; 0; 0; 0; 0; 0; 0; 36; 64; 0; 0; 0; 0; 0; 128; 91; 64].

(** A version-8 file with one channel, calibration types Absolute and Lamp,
    and an audit log with no events (audit count 0). *)
Definition v8_no_audit_file : bytes :=
  [97; 115; 56; 104; 101; 108; 108; 111] ++
  repeat 0 152 ++
  [5; 0; 6; 0; 7; 0; 14; 0; 10; 0; 123; 0; 2; 0; 61; 1; 0; 0; 1; 8; 3; 1; 0; 241; 83; 101; 2; 100; 241; 83; 101; 0; 0; 175; 67; 0; 0; 128; 63; 2; 0; 0; 0; 5; 1; 0; 97; 112; 112] ++
  repeat 0 125 ++
  [103; 112; 115] ++
  repeat 0 53 ++
  [17; 0; 0; 0; 1; 0; 2; 0; 3; 0; 4; 0; 0; 0; 0; 63; 0; 0; 192; 63; 0; 0; 32; 64; 0; 0; 96; 64; 16; 0; 1; 0; 1; 2; 3; 10; 0; 11; 0; 12; 0; 4; 99; 0; 0; 0; 0; 8; 0; 4; 5; 0; 6; 0; 0; 0; 122; 68; 0; 0; 225; 68; 115; 100] ++
  repeat 0 36 ++
  [240; 63; 255; 255; 123; 0; 0; 0; 0; 0; 0; 0; 200; 1; 0; 0; 0; 0; 0; 0; 4; 0; 100; 101; 115; 99] ++
  repeat 0 8 ++
  [1; 2; 2; 0; 115; 48; 2; 0; 115; 49; 2; 0; 115; 50; 2; 0; 115; 51; 2; 0; 115; 52; 2; 0; 115; 53; 2; 0; 115; 54; 2; 0; 115; 55; 2; 0; 115; 56; 2; 0; 115; 57; 3; 0; 115; 49; 48; 3; 0; 115; 49; 49; 3; 0; 115; 49; 50; 3; 0; 115; 49; 51; 3; 0; 115; 49; 52; 3; 0; 115; 49; 53; 3; 0; 115; 49; 54; 3; 0; 115; 49; 55; 3; 0; 115; 49; 56; 3; 0; 115; 49; 57] ++
  repeat 0 12 ++
  [2; 0; 110; 48] ++
  repeat 0 18 ++
  [10; 0; 0; 0; 1; 0; 2; 0; 2; 110; 50] ++
  repeat 0 18 ++
  [12; 0; 0; 0; 1; 0; 2] ++
  repeat 0 15 ++
  [94; 64; 0; 0; 0; 0; 1; 9; 3; 0; 0; 0; 0; 0; 0; 2; 0; 117; 48; 2; 0; 117; 49; 2; 0; 117; 50; 2; 0; 117; 51; 2; 0; 117; 52; 2; 0; 117; 53; 2; 0; 117; 54; 83; 73; 71] ++
  repeat 0 125.

(** ** The calibration slots as the spec describes them *)

(** [hdr[0]] of a calibration header entry as [read] stores it. *)
Definition entry_type (e : pyval) : Z :=
  match e with PTuple (PInt t :: _) => t | _ => -1 end.

(** An entry whose type tag is one of the four calibration types. *)
Definition valid_entry (e : pyval) : bool :=
  match e with PTuple (PInt t :: _) => (0 <=? t) && (t <=? 3) | _ => false end.

(** The slot of a type tag: Absolute = 0, Base = 1, Lamp = 2, FiberOptic = 3. *)
Definition spec_slot_name (t : Z) : string :=
  if t =? 0 then "calibrationSeriesABS"
  else if t =? 1 then "calibrationSeriesBSE"
  else if t =? 2 then "calibrationSeriesLMP"
  else "calibrationSeriesFO".

(** The block [__wrap_spectra] makes of the slot of type [t], with its length. *)
Definition slot_block (o : obj) (md : pyval) (t : Z) : option (bytes * Z) :=
  match self_attr o (spec_slot_name t) with
  | Ok sp => match wrap_spectra md sp with
             | PTuple [PBytes b; PInt n] => Some (b, n)
             | _ => None
             end
  | Raise _ => None
  end.

Definition has_slot_block (o : obj) (md : pyval) (e : pyval) : bool :=
  match slot_block o md (entry_type e) with Some _ => true | None => false end.

Definition slot_block_bytes (o : obj) (md : pyval) (e : pyval) : bytes :=
  match slot_block o md (entry_type e) with Some (b, _) => b | None => [] end.

Definition slot_block_len (o : obj) (md : pyval) (e : pyval) : Z :=
  match slot_block o md (entry_type e) with Some (_, n) => n | None => 0 end.

(** The spectrum [__parse_spectra] reads at offset [n]. *)
Definition spectrum_at (buf : bytes) (md : pyval) (n : nat) : pyval :=
  let '(sp, _, _, _) := parse_spectra_body buf md n in sp.

(** Routing as the spec states it: the blocks follow one another from offset
    [n], each [c * 8] bytes long; the block of each entry is stored in the slot
    of its type, in header order, so a later entry of the same type overwrites
    the slot. *)
Fixpoint spec_route_blocks (buf : bytes) (md : pyval) (c : nat) (hdrs : list pyval)
    (n : nat) (o : obj) : obj :=
  match hdrs with
  | [] => o
  | h :: r => spec_route_blocks buf md c r (n + c * 8)
                (obj_set o (spec_slot_name (entry_type h)) (spectrum_at buf md n))
  end.

(** ** Vocabulary of the further properties *)

(** The buffer [read] keeps: the file without a trailing [FF FE FD]. *)
Definition read_buffer (file : bytes) : bytes :=
  if list_eq_dec Z.eq_dec (py_slice file (-3) None) trailer
  then py_slice file 0 (Some (-3)) else file.

(** The keys of [version_dict] that map to a positive version. *)
Definition version_keys : list string :=
  ["ASD"; "as2"; "as3"; "as4"; "as5"; "as6"; "as7"; "as8"].

Definition is_version_prefix (h : bytes) : bool :=
  existsb (fun s => if list_eq_dec Z.eq_dec (str_bytes s) h then true else false) version_keys.

(** A double (64-bit pattern) that [struct.pack('<f')] narrows to a
    binary32 pattern which [struct.unpack('<f')] widens back to it. *)
Definition f32_exact (x : Z) : bool :=
  match narrow64 x with
  | Ok u => (0 <=? u) && (u <? 2 ^ 32) && (widen32 u =? x)
  | Raise _ => false
  end.

(** Values that [struct.pack] accepts for a code and [struct.unpack] gives
    back unchanged: integers in the code's range, doubles as 64-bit
    patterns, floats that survive the binary32 conversion, byte strings of
    the field's length. *)
Definition fits (std : bool) (c : scode) (v : pyval) : bool :=
  match c, v with
  | (Cb | Ch | Ci | Cl | Cq), PInt z =>
      let w := 8 * Z.of_nat (code_size std c) in (- 2 ^ (w - 1) <=? z) && (z <? 2 ^ (w - 1))
  | (CB | CH | CI | CL), PInt z => (0 <=? z) && (z <? 2 ^ (8 * Z.of_nat (code_size std c)))
  | Cd, PFloat x => (0 <=? x) && (x <? 2 ^ 64)
  | Cf, PFloat x => f32_exact x
  | Cs n, PBytes b => Nat.eqb (length b) n
  | _, _ => false
  end.

Fixpoint all_fit (std : bool) (cs : list scode) (vs : list pyval) : bool :=
  match cs, vs with
  | [], [] => true
  | c :: cs', v :: vs' => fits std c v && all_fit std cs' vs'
  | _, _ => false
  end.

(** A calibration entry that [__wrap_calibrationHeader] writes and
    [__parse_calibrationHeader] reads back unchanged: every field fits
    ['<b 20s i h h'] once the name is padded to 20 bytes, and the name has
    no NUL byte at either end, which the reader strips. *)
Definition cal_entry_ok (e : pyval) : bool :=
  match e with
  | PTuple [t; PBytes nm; it; g1; g2] =>
      all_fit true (f_codes calibration_entry_fmt) [t; PBytes (ljust0 nm 20); it; g1; g2]
      && (if list_eq_dec Z.eq_dec (strip0 nm) nm then true else false)
  | _ => false
  end.

(** A material-report item that [__wrap_constituantType] writes and
    [__parse_constituantType] reads back unchanged. *)
Definition constituent_ok (it : pyval) : bool :=
  match it with
  | PNT fs (PStr nm :: PStr pf :: vs) =>
      (if list_eq_dec string_dec fs constituent_fields then true else false)
      && utf8_valid nm && (Z.of_nat (length nm) <? 32768)
      && utf8_valid pf && (Z.of_nat (length pf) <? 32768)
      && all_fit true (f_codes constituent_fmt) vs
  | _ => false
  end.

(** * Properties *)

(** ** Booleans *)

Lemma concat_all_first (a b c v : pyval) (x : bytes) :
  a = PBytes x -> concat_all [a; b; c] = Ok v ->
  exists y, v = PBytes (x ++ y).
Proof.
  intros -> H. simpl in H.
  destruct c as [| | | | b' | | | | | |]; try discriminate H.
  destruct b; try discriminate H. simpl in H.
  injection H as <-. eauto.
Qed.

(** C8: at an offset inside the buffer, [__parse_Bool] reads the two bytes there
    and yields [True] for FF FF and [False] for 00 00, each with the offset
    advanced by two; any other two bytes (or a single last byte) give the error
    value [(None, None)].  [__wrap_Bool] only ever produces FF FF or 00 00 with
    length two, and so the reference file header, the one section holding a
    Boolean, is emitted starting with one of the two sentinels. *)
Theorem C8_bool_sentinels :
  (forall (buf : bytes) (n : nat), (n < length buf)%nat ->
     (slice buf n 2 = [255; 255] -> parse_Bool buf (OffInt n) = Ok (PBool true, OffInt (n + 2))) /\
     (slice buf n 2 = [0; 0] -> parse_Bool buf (OffInt n) = Ok (PBool false, OffInt (n + 2))) /\
     (slice buf n 2 <> [255; 255] -> slice buf n 2 <> [0; 0] ->
        parse_Bool buf (OffInt n) = Ok (PNone, OffNone))) /\
  (forall (v : pyval) (bs : bytes) (k : nat),
     wrap_Bool v = Ok (bs, k) -> k = 2%nat /\ (bs = [255; 255] \/ bs = [0; 0])) /\
  (forall (rfh : pyval) (bs : bytes) (len : pyval),
     wrap_referenceFileHeader rfh = PTuple [PBytes bs; len] ->
     firstn 2 bs = [255; 255] \/ firstn 2 bs = [0; 0]).
Proof.
  split; [|split].
  - intros buf n Hn.
    unfold parse_Bool, check_offset, parse_Bool_body.
    apply Nat.ltb_lt in Hn. rewrite Hn. simpl.
    repeat split; intros.
    + subst. rewrite H. reflexivity.
    + rewrite H. reflexivity.
    + destruct (list_eq_dec Z.eq_dec (slice buf n 2) [255; 255]); [contradiction|].
      destruct (list_eq_dec Z.eq_dec (slice buf n 2) [0; 0]); [contradiction|].
      reflexivity.
  - intros v bs k H. unfold wrap_Bool in H.
    destruct (truthy v) as [b|e]; simpl in H; [|discriminate].
    injection H as <- <-. split; [reflexivity|].
    destruct b; auto.
  - intros rfh bs len H. unfold wrap_referenceFileHeader, catch in H.
    destruct (attr rfh "referenceFlag") as [flag|]; cbn [bind] in H; [|discriminate].
    destruct (wrap_Bool flag) as [[fb k]|] eqn:Hw; cbn [bind] in H; [|discriminate].
    destruct (attr rfh "referenceTime"); cbn [bind] in H; [|discriminate].
    destruct (attr rfh "spectrumTime"); cbn [bind] in H; [|discriminate].
    destruct (pack _ _) as [tb|]; cbn [bind] in H; [|discriminate].
    destruct (attr rfh "referenceDescription"); cbn [bind] in H; [|discriminate].
    destruct (wrap_bstr _); cbn [bind] in H; [|discriminate].
    destruct (unpack2 _) as [[db dl]|]; cbn [bind] in H; [|discriminate].
    destruct (concat_all [PBytes fb; PBytes tb; db]) as [v|] eqn:Hc; cbn [bind] in H; [|discriminate].
    destruct (py_add _ _); cbn [bind] in H; [|discriminate].
    injection H as Hv _.
    destruct (concat_all_first _ _ _ _ fb eq_refl Hc) as [y ->].
    injection Hv as <-.
    unfold wrap_Bool in Hw. destruct (truthy flag) as [b|]; cbn [bind] in Hw; [|discriminate].
    injection Hw as <- _. destruct b; auto.
Qed.

Lemma C8_bool_sentinels_witness :
  parse_Bool [0; 255; 255; 7] (OffInt 1%nat) = Ok (PBool true, OffInt 3%nat) /\
  parse_Bool [1; 0] (OffInt 0%nat) = Ok (PNone, OffNone) /\
  wrap_Bool (PBool false) = Ok ([0; 0], 2%nat).
Proof.
  split; [|split].
  - apply (proj1 (proj1 C8_bool_sentinels [0; 255; 255; 7] 1%nat ltac:(simpl; lia))).
    reflexivity.
  - apply (proj2 (proj2 (proj1 C8_bool_sentinels [1; 0] 0%nat ltac:(simpl; lia))));
      simpl; discriminate.
  - reflexivity.
Defined.

(** ** Normalisation *)

Lemma assign_range_length (r s : list Z) (lo hi : nat) (f : Z -> Z) :
  length (assign_range r s lo hi f) = length r.
Proof.
  unfold assign_range. rewrite length_map, length_combine, length_seq. lia.
Qed.

Lemma assign_range_nth (r s : list Z) (lo hi : nat) (f : Z -> Z) (i : nat) :
  (i < length r)%nat ->
  nth i (assign_range r s lo hi f) 0 =
  if (lo <=? i)%nat && (i <? hi)%nat then f (nth i s 0) else nth i r 0.
Proof.
  intros Hi. unfold assign_range.
  set (g := fun '(i0, r0) => if (lo <=? i0)%nat && (i0 <? hi)%nat then f (nth i0 s 0) else r0).
  rewrite (nth_indep _ 0 (g (0%nat, 0)))
    by (rewrite length_map, length_combine, length_seq; lia).
  rewrite map_nth, combine_nth by (rewrite length_seq; reflexivity).
  rewrite seq_nth by exact Hi. reflexivity.
Qed.

(** C2: [__normalise_spectrum] returns an array of the input's length whose
    channel [i] is [x / intergrationTime_ms] below the first splice index,
    [x * swir1Gain / 2048] from the first splice index on, and again
    [x * swir1Gain / 2048] (not [swir2Gain]) from the second splice index to
    the end; the slice bounds are the truncated splice wavelengths clipped to
    the array as Python slicing does.  [swir2Gain] is never read. *)
Theorem C2_normalise_uses_swir1_gain_twice (xs : list Z) (md sw1 sw2 itv g1v : pyval) (s1 s2 it g1 : Z) :
  attr md "splice1_wavelength" = Ok sw1 -> py_int sw1 = Ok s1 ->
  attr md "splice2_wavelength" = Ok sw2 -> py_int sw2 = Ok s2 ->
  attr md "intergrationTime_ms" = Ok itv -> as_float_val itv = Ok it ->
  attr md "swir1Gain" = Ok g1v -> as_float_val g1v = Ok g1 ->
  exists ys,
    normalise_spectrum (PArray xs) md = Ok (PArray ys) /\
    length ys = length xs /\
    forall i, (i < length xs)%nat ->
      nth i ys 0 =
        (let x := nth i xs 0 in
         let i1 := slice_index (length xs) s1 in
         let i2 := slice_index (length xs) s2 in
         if (i2 <=? i)%nat then fdiv (fmul x g1) f2048
         else if (i1 <=? i)%nat then fdiv (fmul x g1) f2048
         else fdiv x it).
Proof.
  intros H1 H1' H2 H2' H3 H3' H4 H4'.
  unfold normalise_spectrum.
  rewrite H1; cbn [bind]; rewrite H1'; cbn [bind].
  rewrite H2; cbn [bind]; rewrite H2'; cbn [bind].
  rewrite H3; cbn [bind]; rewrite H3'; cbn [bind].
  rewrite H4; cbn [bind]; rewrite H4'; cbn [bind].
  cbn [bind].
  eexists; split; [reflexivity|].
  set (n := length xs).
  set (i1 := slice_index n s1). set (i2 := slice_index n s2).
  split.
  - rewrite !assign_range_length. reflexivity.
  - intros i Hi. cbv zeta.
    assert (Hn : (i2 <= n /\ i1 <= n)%nat).
    { unfold i1, i2, slice_index. destruct (Z.ltb_spec s1 0), (Z.ltb_spec s2 0); lia. }
    rewrite assign_range_nth by (rewrite !assign_range_length; exact Hi).
    rewrite assign_range_nth by (rewrite !assign_range_length; exact Hi).
    rewrite assign_range_nth by exact Hi.
    destruct (Nat.leb_spec i2 i); destruct (Nat.leb_spec i1 i);
      destruct (Nat.ltb_spec i n); destruct (Nat.ltb_spec i i2);
      destruct (Nat.ltb_spec i i1); destruct (Nat.leb_spec 0 i);
      simpl; try lia; reflexivity.
Qed.

Lemma C2_normalise_uses_swir1_gain_twice_witness :
  normalise_spectrum (PArray [f_one]) md_gains = Ok (PArray [f_half]).
Proof.
  destruct (C2_normalise_uses_swir1_gain_twice [f_one] md_gains (PFloat 0) (PFloat 0)
              (PInt 1) (PInt 1024) 0 0 f_one (prim_to_f64 1024%float)
              eq_refl eq_refl eq_refl eq_refl eq_refl ltac:(vm_compute; reflexivity)
              eq_refl ltac:(vm_compute; reflexivity))
    as [ys [E [L N]]].
  rewrite E. clear E.
  destruct ys as [|y [|y' ys]]; simpl in L; try discriminate L.
  specialize (N 0%nat ltac:(simpl; lia)). vm_compute in N. subst y.
  vm_compute. reflexivity.
Defined.

(** ** Metadata block size *)

(** C7: the metadata encoder returns a block only when it is 481 bytes long,
    paired with the length 481.  Given an offset inside the buffer, the
    metadata parser either decodes the block, stores it as [metadata] and
    advances the offset by exactly 481, or (when the block cannot be
    unpacked, the buffer being short, or a field cannot be interpreted)
    returns [None] and leaves the instance as it was; at or past the end of
    the buffer the wrapper's [(None, None)] comes back, again with nothing
    changed. *)
Theorem C7_metadata_block_size :
  (forall (md : pyval) (bs : bytes) (n : pyval),
     wrap_metadata md = PTuple [PBytes bs; n] -> length bs = 481%nat /\ n = PInt 481) /\
  (forall (o : obj) (buf : bytes) (n : nat),
     obj_get o "_ASDFile__asdFileStream" = Some (PBytes buf) ->
     let decoded := (let* vals := unpack_from metadata_fmt buf n in build_metadata buf vals) in
     ((n < length buf)%nat /\
      ((exists md, decoded = Ok md /\
          parse_metadata (OffInt n) o = (obj_set o "metadata" md, Ok (Ran (OffInt (n + 481))))) \/
       ((exists e, decoded = Raise e) /\ parse_metadata (OffInt n) o = (o, Ok (Ran OffNone))))) \/
     ((length buf <= n)%nat /\ parse_metadata (OffInt n) o = (o, Ok Skipped))).
Proof.
  split.
  - intros md bs n H. unfold wrap_metadata, catch in H.
    destruct (metadata_pack_values md) as [vals|]; cbn [bind] in H; [|discriminate].
    destruct (pack metadata_fmt vals) as [b|]; cbn [bind] in H; [|discriminate].
    destruct (Nat.eqb_spec (length b) 481); [|discriminate].
    injection H as -> <-. auto.
  - intros o buf n Hs. cbv zeta.
    cbv [parse_metadata check_offset_m mbind stream try_except lift setattr mret].
    rewrite Hs.
    destruct (Nat.ltb_spec n (length buf)); [left | right; split; [lia | reflexivity]].
    split; [assumption|]. rewrite ?Hs.
    destruct (unpack_from metadata_fmt buf n) as [vals|e]; cbn [bind];
      [|right; split; [exists e; reflexivity | reflexivity]].
    destruct (build_metadata buf vals) as [md|e];
      [left; exists md; split; reflexivity | right; split; [exists e; reflexivity | reflexivity]].
Qed.

(** C7, the parser's [None]: the all-zero metadata block of [asd_zero_file]
    lies wholly inside the buffer, yet the parser returns [None] instead of
    advancing by 481, because its [when] date is day 0. *)
Lemma C7_metadata_parse_none_counterexample :
  (3 + 481 <= length asd_zero_file)%nat /\
  snd (parse_metadata (OffInt 3) (with_stream asd_zero_file)) = Ok (Ran OffNone).
Proof. split; vm_compute; [lia | reflexivity]. Qed.

Lemma C7_metadata_block_size_witness :
  parse_metadata (OffInt 3) (with_stream asd_zero_file) =
    (with_stream asd_zero_file, Ok (Ran OffNone)) /\
  (3 < length asd_zero_file)%nat.
Proof.
  destruct (proj2 C7_metadata_block_size (with_stream asd_zero_file) asd_zero_file 3%nat
              ltac:(vm_compute; reflexivity)) as [[Hl [(md & Hd & _) | (_ & Hp)]] | [Hl _]].
  - exfalso. vm_compute in Hd. discriminate Hd.
  - split; [exact Hp | exact Hl].
  - vm_compute in Hl. lia.
Defined.

(** ** Attributes a method leaves alone *)

Definition keeps {A} (k : string) (m : M A) : Prop :=
  forall o, obj_get (fst (m o)) k = obj_get o k.

Lemma obj_get_set_other (o : obj) (k k' : string) (v : pyval) :
  k' <> k -> obj_get (obj_set o k' v) k = obj_get o k.
Proof.
  intros Hne. induction o as [|[k0 v0] r IH]; simpl.
  - destruct (String.eqb_spec k' k); [contradiction | reflexivity].
  - destruct (String.eqb_spec k0 k') as [->|Hk0]; simpl.
    + destruct (String.eqb_spec k' k); [contradiction | reflexivity].
    + destruct (String.eqb k0 k); [reflexivity | exact IH].
Qed.

Section Keeps.
Variable k : string.

Lemma keeps_ret {A} (a : A) : keeps k (mret a).
Proof. intro o. reflexivity. Qed.

Lemma keeps_raise {A} (e : exc) : keeps k (@mraise A e).
Proof. intro o. reflexivity. Qed.

Lemma keeps_lift {A} (r : res A) : keeps k (lift r).
Proof. intro o. reflexivity. Qed.

Lemma keeps_stream : keeps k stream.
Proof. intro o. reflexivity. Qed.

Lemma keeps_getd (k' : string) : keeps k (getd k').
Proof. intro o. reflexivity. Qed.

Lemma keeps_setattr (k' : string) (v : pyval) : k' <> k -> keeps k (setattr k' v).
Proof. intros Hne o. apply obj_get_set_other. exact Hne. Qed.

Lemma keeps_bind {A B} (m : M A) (f : A -> M B) :
  keeps k m -> (forall a, keeps k (f a)) -> keeps k (mbind m f).
Proof.
  intros Hm Hf o. unfold mbind.
  specialize (Hm o). destruct (m o) as [o' [a|e]]; simpl in *.
  - rewrite Hf. exact Hm.
  - exact Hm.
Qed.

Lemma keeps_try {A} (m h : M A) : keeps k m -> keeps k h -> keeps k (try_except m h).
Proof.
  intros Hm Hh o. unfold try_except.
  specialize (Hm o). destruct (m o) as [o' [a|e]]; simpl in *.
  - exact Hm.
  - rewrite Hh. exact Hm.
Qed.

Lemma keeps_check_offset_m {A} (off : pyoff) (body : nat -> M A) :
  (forall n, keeps k (body n)) -> keeps k (check_offset_m off body).
Proof.
  intros Hb. unfold check_offset_m. apply keeps_bind; [apply keeps_stream|].
  intros buf. destruct off as [n| |].
  - destruct (n <? length buf)%nat.
    + apply keeps_bind; [apply Hb | intro; apply keeps_ret].
    + apply keeps_ret.
  - apply keeps_ret.
  - apply keeps_raise.
Qed.

Lemma keeps_section (p : pyoff -> M (checked pyoff)) (off : pyoff) :
  keeps k (p off) -> keeps k (section p off).
Proof.
  intros Hp. unfold section. apply keeps_try.
  - apply keeps_bind; [exact Hp | intro; apply keeps_ret].
  - apply keeps_ret.
Qed.

End Keeps.

Ltac keeps_tac_with solve_ne :=
  repeat (cbv beta iota zeta;
          match goal with
          | |- keeps _ (mbind _ _) => apply keeps_bind; [|intro]
          | |- keeps _ (try_except _ _) => apply keeps_try
          | |- keeps _ (check_offset_m _ _) => apply keeps_check_offset_m; intro
          | |- keeps _ (section _ _) => apply keeps_section
          | |- keeps _ (mret _) => apply keeps_ret
          | |- keeps _ (mraise _) => apply keeps_raise
          | |- keeps _ (lift _) => apply keeps_lift
          | |- keeps _ stream => apply keeps_stream
          | |- keeps _ (getd _) => apply keeps_getd
          | |- keeps _ (setattr _ _) => apply keeps_setattr; solve_ne
          | |- keeps _ (match ?x with _ => _ end) =>
              match x with
              | context [if ?b then _ else _] => destruct b
              | _ => destruct x
              end
          | |- keeps _ (if ?b then _ else _) => destruct b
          end).

Section KeepsRead.
Variable k : string.
Hypothesis Hk : existsb (String.eqb k) section_attr_names = false.

Ltac name_ne :=
  let Heq := fresh in
  intro Heq; rewrite <- Heq in Hk; vm_compute in Hk; discriminate Hk.

Lemma keeps_calibration_step (hdr : pyval) (off : pyoff) :
  keeps k (calibration_step hdr off).
Proof. unfold calibration_step. keeps_tac_with name_ne. Qed.

Lemma keeps_calibration_loop (hdrs : list pyval) (off : pyoff) :
  keeps k (calibration_loop hdrs off).
Proof.
  revert off. induction hdrs as [|h r IH]; intros off o; simpl.
  - reflexivity.
  - pose proof (keeps_calibration_step h off o) as Hs.
    destruct (calibration_step h off o) as [o' [off'|e]]; simpl in *.
    + rewrite IH. exact Hs.
    + exact Hs.
Qed.

Lemma keeps_read_calibration_series (off : pyoff) :
  keeps k (read_calibration_series off).
Proof.
  unfold read_calibration_series. keeps_tac_with name_ne.
  all: try apply keeps_calibration_loop.
Qed.

Lemma keeps_sections (off : pyoff) :
  keeps k (parse_metadata off) /\
  keeps k (parse_spectrumData off) /\
  keeps k (parse_referenceFileHeader off) /\
  keeps k (parse_referenceData off) /\
  keeps k (parse_classifierData off) /\
  keeps k (parse_dependentVariables off) /\
  keeps k (parse_calibrationHeader off) /\
  keeps k (parse_auditLog off) /\
  keeps k (parse_signature off).
Proof.
  unfold parse_metadata, parse_spectrumData, parse_referenceData, parse_spectrum_section,
    parse_referenceFileHeader, parse_classifierData, parse_dependentVariables,
    parse_calibrationHeader, parse_auditLog, parse_signature.
  repeat split; keeps_tac_with name_ne.
Qed.

(** Everything [read] does once the buffer and the version are set. *)
Lemma keeps_read_tail :
  k <> "_ASDFile__asdFileStream" -> k <> "asdFileVersion" ->
  keeps k (buf <- stream ;;
           let '(v, off0) := validate_fileVersion buf in
           _ <- setattr "asdFileVersion" (PInt v) ;;
           if 0 <? v then
             off1 <- try_except
                       (o1 <- parse_metadata (OffInt off0) ;;
                        let o1 := as_offset o1 in
                        try_except
                          (md <- getd "metadata" ;;
                           wl <- lift (wavelength_axis md) ;;
                           _ <- setattr "_ASDFile__wavelengths" wl ;;
                           o2 <- parse_spectrumData o1 ;;
                           mret (as_offset o2))
                          (mret o1))
                       (mret (OffInt off0)) ;;
             _ <- (if 2 <=? v then
                     off2 <- section parse_referenceFileHeader off1 ;;
                     off3 <- section parse_referenceData off2 ;;
                     off5 <- (if 6 <=? v then
                                off4 <- section parse_classifierData off3 ;;
                                section parse_dependentVariables off4
                              else mret off3) ;;
                     off7 <- (if 7 <=? v then
                                off6 <- section parse_calibrationHeader off5 ;;
                                read_calibration_series off6
                              else mret off5) ;;
                     if 8 <=? v then
                       off8 <- section parse_auditLog off7 ;;
                       _ <- section parse_signature off8 ;;
                       mret tt
                     else mret tt
                   else mret tt) ;;
             mret true
           else mret false).
Proof.
  intros Hs Hv. pose proof keeps_sections as HS.
  keeps_tac_with ltac:(first [name_ne | congruence]);
    try apply keeps_read_calibration_series;
    match goal with
    | |- keeps _ (?p _) => first [apply (HS _) | apply (proj1 (HS _))
                                 | apply (proj1 (proj2 (HS _)))]
    end.
Qed.

End KeepsRead.

(** [read] sets [__bom] only in its trailer branch. *)
Lemma read_no_trailer_no_bom (file : bytes) :
  py_slice file (-3) None <> trailer ->
  obj_get (fst (read_file file)) "_ASDFile__bom" = None.
Proof.
  intros Hnt. unfold read_file, read.
  destruct (list_eq_dec Z.eq_dec (py_slice file (-3) None) trailer) as [E|_];
    [contradiction|].
  match goal with
  | |- obj_get (fst (?m init_obj)) _ = None =>
      assert (Hk : keeps "_ASDFile__bom" m); [|rewrite Hk; reflexivity]
  end.
  apply keeps_bind; [apply keeps_setattr; discriminate | intros _].
  apply keeps_read_tail; [reflexivity | discriminate | discriminate].
Qed.

(** Names that neither [__init__] nor [read] assigns stay unset. *)
Lemma read_leaves_unset (file : bytes) (k : string) :
  existsb (String.eqb k) section_attr_names = false ->
  k <> "_ASDFile__bom" -> k <> "_ASDFile__asdFileStream" -> k <> "asdFileVersion" ->
  obj_get init_obj k = None ->
  obj_get (fst (read_file file)) k = None.
Proof.
  intros Hk Hb Hs Hv Hi. unfold read_file, read.
  match goal with
  | |- obj_get (fst (?m init_obj)) _ = None =>
      assert (Hm : keeps k m); [|rewrite Hm; exact Hi]
  end.
  apply keeps_bind; [|intros _; apply keeps_read_tail; assumption].
  destruct (list_eq_dec _ _ _).
  - apply keeps_bind; [apply keeps_setattr; congruence | intros _].
    apply keeps_setattr; congruence.
  - apply keeps_setattr; congruence.
Qed.

(** ** The trailer check of [write] *)

(** C10: after [read] of a file that does not end with FF FE FD, [__bom] is not
    an attribute of the instance, so [self.__bom] in [write] goes to
    [__getattr__], which answers [None] for that name: the trailer check
    raises nothing, no trailer is written, and [write] ends exactly as its
    section-writing part did, returning [True] when that part raised
    nothing. *)
Theorem C10_missing_bom_is_none (file : bytes) :
  py_slice file (-3) None <> trailer ->
  let o := fst (read_file file) in
  obj_get o "_ASDFile__bom" = None /\
  self_attr o "_ASDFile__bom" = Ok PNone /\
  write o = (fst (write_body o []),
             match snd (write_body o []) with Ok _ => Ok true | Raise e => Raise e end).
Proof.
  intros Hnt o.
  assert (Hb : obj_get o "_ASDFile__bom" = None) by (apply read_no_trailer_no_bom; exact Hnt).
  assert (Hs : self_attr o "_ASDFile__bom" = Ok PNone)
    by (unfold self_attr; rewrite Hb; reflexivity).
  split; [exact Hb | split; [exact Hs|]].
  unfold write, wbind, wlift, wret.
  destruct (write_body o []) as [f [u|e]]; simpl; [|reflexivity].
  rewrite Hs. reflexivity.
Qed.

Lemma C10_missing_bom_is_none_witness :
  obj_get (fst (read_file asd_header_only)) "_ASDFile__bom" = None.
Proof.
  exact (proj1 (C10_missing_bom_is_none asd_header_only ltac:(vm_compute; discriminate))).
Defined.

(** C10, a concrete run: reading the bare header "ASD" and writing the
    instance back writes "ASD", with no trailer, and returns [True] instead of
    raising [AttributeError]. *)
Lemma C10_missing_bom_counterexample :
  write (fst (read_file asd_header_only)) = (asd_header_only, Ok true).
Proof. vm_compute. reflexivity. Qed.

(** ** The wavelength axis after [update] *)

Lemma obj_get_set_same (o : obj) (k : string) (v : pyval) :
  obj_get (obj_set o k v) k = Some v.
Proof.
  induction o as [|[k0 v0] r IH]; simpl.
  - rewrite String.eqb_refl. reflexivity.
  - destruct (String.eqb_spec k0 k) as [->|Hk]; simpl.
    + rewrite String.eqb_refl. reflexivity.
    + apply String.eqb_neq in Hk. rewrite Hk. exact IH.
Qed.

Lemma existsb_eqb_in (x : string) (l : list string) :
  In x l -> existsb (String.eqb x) l = true.
Proof.
  intros H. apply existsb_exists. exists x. split; [exact H | apply String.eqb_refl].
Qed.

Lemma arange_spec (start stop step : pyval) (a s : Z) (ys : list Z) :
  as_float_val start = Ok a -> as_float_val step = Ok s ->
  arange start stop step = Ok (PArray ys) ->
  exists b, as_float_val stop = Ok b /\ arange_len a b s = Ok (length ys) /\
            (ys <> [] -> nth 0 ys 0 = a).
Proof.
  intros Ha Hs H. unfold arange in H. rewrite Ha in H. cbn [bind] in H.
  destruct (as_float_val stop) as [b|]; cbn [bind] in H; [|discriminate].
  rewrite Hs in H. cbn [bind] in H.
  destruct (arange_len a b s) as [n|] eqn:En; cbn [bind] in H; [|discriminate].
  injection H as <-. exists b. split; [reflexivity|]. split.
  - rewrite length_map, length_seq. exact En.
  - intros Hne. destruct n; [contradiction|reflexivity].
Qed.

(** C9: when the metadata is a record holding the updated field and the field
    is [channel1Wavelength], [channels] or [wavelengthStep], [update] stores
    the record with that field replaced and recomputes the axis from it; the
    axis is [np.arange(c1, c1 + channels * step, step)], whose length is the
    float ceiling [ceil(((c1 + channels * step) - c1) / step)], not
    [channels], and whose first element, when there is one, is [c1]. *)
Theorem C9_update_axis_is_arange (o : obj) (fs : list string) (vs : list pyval)
    (field : string) (x : pyval) :
  obj_get o "metadata" = Some (PNT fs vs) ->
  In field fs ->
  In field ["channel1Wavelength"; "channels"; "wavelengthStep"] ->
  let md' := PNT fs (replace_field fs vs field x) in
  obj_get (fst (update field x o)) "metadata" = Some md' /\
  (forall wl, wavelength_axis md' = Ok wl ->
     snd (update field x o) = Ok tt /\
     obj_get (fst (update field x o)) "_ASDFile__wavelengths" = Some wl) /\
  (forall e, wavelength_axis md' = Raise e -> snd (update field x o) = Raise e) /\
  (forall c1 ch st chf ys,
     attr md' "channel1Wavelength" = Ok (PFloat c1) ->
     attr md' "channels" = Ok (PInt ch) ->
     attr md' "wavelengthStep" = Ok (PFloat st) ->
     float_of_int ch = Ok chf ->
     wavelength_axis md' = Ok (PArray ys) ->
     arange_len c1 (fadd c1 (fmul chf st)) st = Ok (length ys) /\
     (ys <> [] -> nth 0 ys 0 = c1)).
Proof.
  intros Hmd Hin Hthree md'.
  assert (Hu : update field x o =
               (fun o1 => match wavelength_axis md' with
                          | Ok wl => (obj_set o1 "_ASDFile__wavelengths" wl, Ok tt)
                          | Raise e => (o1, Raise e)
                          end) (obj_set o "metadata" md')).
  { unfold md', update, getd, mbind, setattr, lift, mret. rewrite Hmd.
    rewrite (existsb_eqb_in _ _ Hin), (existsb_eqb_in _ _ Hthree).
    rewrite obj_get_set_same.
    destruct (wavelength_axis (PNT fs (replace_field fs vs field x))); reflexivity. }
  rewrite Hu. cbv beta.
  split; [|split; [|split]].
  - destruct (wavelength_axis md'); simpl; [|apply obj_get_set_same].
    rewrite obj_get_set_other by discriminate. apply obj_get_set_same.
  - intros wl E. rewrite E. split; [reflexivity | apply obj_get_set_same].
  - intros e E. rewrite E. reflexivity.
  - intros c1 ch st chf ys H1 H2 H3 Hc E.
    unfold wavelength_axis in E. rewrite H1, H2, H3 in E. cbn [bind] in E.
    unfold py_mul, py_arith in E. cbn [is_number andb as_float_val bind] in E.
    rewrite Hc in E. cbn [bind] in E.
    unfold py_add, py_arith in E. cbn [is_number andb as_float_val bind] in E.
    destruct (arange_spec (PFloat c1) _ (PFloat st) c1 st ys eq_refl eq_refl E) as [b [Hb [Hl H0]]].
    injection Hb as <-. split; assumption.
Qed.

Lemma C9_update_axis_is_arange_witness :
  exists ys, obj_get (fst (update "channel1Wavelength" (PFloat f_one) obj_axis)) "_ASDFile__wavelengths"
             = Some (PArray ys) /\ length ys = 4%nat.
Proof.
  destruct (C9_update_axis_is_arange obj_axis ["channel1Wavelength"; "channels"; "wavelengthStep"]
              [PFloat f_one; PInt 3; PFloat f_tenth] "channel1Wavelength" (PFloat f_one)
              ltac:(vm_compute; reflexivity) ltac:(simpl; auto) ltac:(simpl; auto))
    as [_ [Hok _]].
  set (md' := PNT _ (replace_field _ _ _ _)) in Hok.
  set (ys0 := match wavelength_axis md' with Ok (PArray l) => l | _ => [] end).
  assert (E : wavelength_axis md' = Ok (PArray ys0)) by (vm_compute; reflexivity).
  exists ys0. split; [exact (proj2 (Hok _ E)) | vm_compute; reflexivity].
Defined.

(** ** Version gates of [write] *)

(** C3: [write] puts the classifier and dependent variables blocks under its
    [asdFileVersion >= 2] test only.  The instance read from [v6_file] with
    its version then set to 3 is written as "as3" followed by the whole
    version-6 body, classifier block (96 bytes at offset 524) and dependent
    variables block included. *)
Theorem C3_classifier_written_below_v6 :
  let o := obj_set (fst (read_file v6_file)) "asdFileVersion" (PInt 3) in
  write o = (str_bytes "as3" ++ skipn 3 v6_file, Ok true) /\
  exists cb, wrap_classifierData (plain_attr o "classifierData") = pair_ok cb 96 /\
             length cb = 96%nat /\
             firstn 96 (skipn 524 (fst (write o))) = cb.
Proof.
  cbv zeta. split; [vm_compute; reflexivity|].
  eexists. split; [vm_compute; reflexivity|].
  split; vm_compute; reflexivity.
Qed.

(** ** Radiance *)

(** C5: on every instance [read] produces whose metadata has [dataType = 2]
    (["RAD"]), [get_radiance], and with it the [radiance] attribute served by
    [__getattr__], raises [TypeError]: neither [calibrationSeries_lamp] nor
    [reference] is ever assigned, both read as [None], and [None * None] is
    the first operation. *)
Theorem C5_radiance_raises (file : bytes) (md : pyval) :
  obj_get (fst (read_file file)) "metadata" = Some md ->
  attr md "dataType" = Ok (PInt 2) ->
  get_radiance (fst (read_file file)) = Raise TypeError /\
  dunder_getattr (fst (read_file file)) "radiance" = Raise TypeError.
Proof.
  intros Hmd Hdt.
  assert (Hl : obj_get (fst (read_file file)) "calibrationSeries_lamp" = None)
    by (apply read_leaves_unset; first [reflexivity | discriminate]).
  assert (Hr : obj_get (fst (read_file file)) "reference" = None)
    by (apply read_leaves_unset; first [reflexivity | discriminate]).
  assert (Hg : get_radiance (fst (read_file file)) = Raise TypeError).
  { unfold get_radiance, plain_attr. rewrite Hmd, Hdt, Hl, Hr. reflexivity. }
  split; [exact Hg|].
  unfold dunder_getattr. exact Hg.
Qed.

Lemma C5_radiance_raises_witness :
  get_radiance (fst (read_file v7_file)) = Raise TypeError.
Proof.
  exact (proj1 (C5_radiance_raises v7_file
                  (match obj_get (fst (read_file v7_file)) "metadata" with
                   | Some m => m | None => PNone end)
                  ltac:(vm_compute; reflexivity) ltac:(vm_compute; reflexivity))).
Defined.

(** ** Helpers on [read] *)

Lemma mbind_step {A B} (m : M A) (k : A -> M B) (o o' : obj) (a : A) :
  m o = (o', Ok a) -> mbind m k o = k a o'.
Proof. intros H. unfold mbind. rewrite H. reflexivity. Qed.

Lemma ret_no_raise {A} (x : A) : forall o, exists a, snd (mret x o) = Ok a.
Proof. intros o. exists x. reflexivity. Qed.

Lemma try_no_raise {A} (m : M A) (h : M A) :
  (forall o, exists a, snd (h o) = Ok a) -> forall o, exists a, snd (try_except m h o) = Ok a.
Proof.
  intros Hh o. unfold try_except. destruct (m o) as [o' [a|e]]; [exists a; reflexivity | apply Hh].
Qed.

Lemma bind_no_raise {A B} (m : M A) (k : A -> M B) :
  (forall o, exists a, snd (m o) = Ok a) -> (forall a o, exists b, snd (k a o) = Ok b) ->
  forall o, exists b, snd (mbind m k o) = Ok b.
Proof.
  intros Hm Hk o. unfold mbind. specialize (Hm o).
  destruct (m o) as [o' [a|e]]; [apply Hk | destruct Hm as [? H]; discriminate H].
Qed.

Lemma bind_returns {A B} (m : M A) (k : A -> M B) (b : B) :
  (forall o, exists a, snd (m o) = Ok a) -> (forall a o, snd (k a o) = Ok b) ->
  forall o, snd (mbind m k o) = Ok b.
Proof.
  intros Hm Hk o. unfold mbind. specialize (Hm o).
  destruct (m o) as [o' [a|e]]; [apply Hk | destruct Hm as [? H]; discriminate H].
Qed.

Lemma section_no_raise (p : pyoff -> M (checked pyoff)) (off : pyoff) :
  forall o, exists a, snd (section p off o) = Ok a.
Proof. apply try_no_raise, ret_no_raise. Qed.

Lemma read_calibration_series_no_raise (off : pyoff) :
  forall o, exists a, snd (read_calibration_series off o) = Ok a.
Proof. apply try_no_raise, ret_no_raise. Qed.

Ltac no_raise_tac :=
  repeat first
    [ apply bind_no_raise; [|intros ?]
    | apply section_no_raise
    | apply read_calibration_series_no_raise
    | apply ret_no_raise
    | match goal with |- forall o, exists a, snd ((if ?b then _ else _) o) = Ok a => destruct b end ].

Lemma version_lookup_some (d : list (string * Z)) (h : bytes) (v : Z) :
  version_lookup d h = Some v -> exists s, In (s, v) d /\ str_bytes s = h.
Proof.
  induction d as [|[s w] r IH]; simpl; [discriminate|].
  destruct (list_eq_dec Z.eq_dec (str_bytes s) h) as [E|_].
  - intros H; injection H as <-. eauto.
  - intros H. destruct (IH H) as (s' & Hin & Hs). eauto.
Qed.

Lemma validate_fileVersion_lookup (buf : bytes) :
  validate_fileVersion buf =
    (match version_lookup version_dict (firstn 3 buf) with Some v => v | None => -1 end, 3%nat).
Proof.
  unfold validate_fileVersion.
  destruct (utf8_valid (firstn 3 buf)) eqn:U;
    [destruct (version_lookup version_dict (firstn 3 buf)); reflexivity|].
  destruct (version_lookup version_dict (firstn 3 buf)) eqn:L; [|reflexivity].
  exfalso. destruct (version_lookup_some _ _ _ L) as (s & Hin & Hs). rewrite <- Hs in U.
  simpl in Hin. repeat destruct Hin as [Hin|Hin]; try injection Hin as <- <-; try contradiction;
    vm_compute in U; discriminate U.
Qed.

Lemma version_lookup_positive (h : bytes) :
  match version_lookup version_dict h with Some v => 0 <? v | None => false end =
  is_version_prefix h.
Proof.
  unfold is_version_prefix, version_keys, version_dict. cbn [version_lookup existsb].
  repeat match goal with
         | |- context [list_eq_dec Z.eq_dec ?a h] => destruct (list_eq_dec Z.eq_dec a h)
         end; subst; try reflexivity; vm_compute in *; congruence.
Qed.

Lemma read_file_shape (file : bytes) :
  let s := read_buffer file in
  let pre := if list_eq_dec Z.eq_dec (py_slice file (-3) None) trailer
             then obj_set (obj_set init_obj "_ASDFile__bom" (PBytes trailer))
                          "_ASDFile__asdFileStream" (PBytes s)
             else obj_set init_obj "_ASDFile__asdFileStream" (PBytes s) in
  let v := fst (validate_fileVersion s) in
  (v <= 0 -> read_file file = (obj_set pre "asdFileVersion" (PInt v), Ok false)) /\
  (0 < v -> snd (read_file file) = Ok true).
Proof.
  cbv zeta. unfold read_file, read.
  assert (Hs : exists s, read_buffer file = s) by eauto. destruct Hs as [s Hs].
  unfold read_buffer in Hs |- *.
  destruct (list_eq_dec Z.eq_dec (py_slice file (-3) None) trailer) as [E|E];
    [rewrite E|]; subst s;
    (rewrite (mbind_step _ _ _ _ tt) by reflexivity;
     erewrite mbind_step by reflexivity);
    cbv beta;
    [ destruct (validate_fileVersion (py_slice file 0 (Some (-3)))) as [v off0]
    | destruct (validate_fileVersion file) as [v off0] ]; cbn [fst];
    rewrite (mbind_step _ _ _ _ tt) by reflexivity;
    (split; intros Hv;
     [ assert ((0 <? v) = false) as -> by (apply Z.ltb_ge; lia); reflexivity
     | assert ((0 <? v) = true) as -> by (apply Z.ltb_lt; lia);
       apply bind_returns; [apply try_no_raise, ret_no_raise | intros ? ?];
       apply bind_returns; [no_raise_tac | reflexivity] ]).
Qed.

Lemma calcsize_repeat_Cd (c : nat) : calcsize (pstd (repeat Cd c)) = (c * 8)%nat.
Proof.
  unfold calcsize, pstd; cbn [f_codes f_std].
  induction c as [|c IH]; [reflexivity|].
  cbn [repeat fold_right code_size]. rewrite IH. lia.
Qed.

(** ** A failed section *)

Lemma section_check_offset (body : nat -> M pyoff) (o : obj) (buf : bytes) :
  obj_get o "_ASDFile__asdFileStream" = Some (PBytes buf) ->
  section (fun off => check_offset_m off body) OffNone o = (o, Ok OffPair) /\
  section (fun off => check_offset_m off body) OffPair o = (o, Ok OffPair).
Proof.
  intros Hs. unfold section, check_offset_m, try_except, mbind, stream, mret, mraise.
  rewrite Hs. split; reflexivity.
Qed.

(** C4: a section that fails to decode does not let [read] go on at the
    same offset.  The reference-file header with a Boolean that is neither
    sentinel returns [None] and changes nothing, so the header keeps its
    value; the two spectrum sections, when the buffer is too short for
    their spectrum, return [None] after storing a record of three [None]s.
    The next parser receives [None], its [__check_offset] wrapper hands back
    [(None, None)], and every parser given [(None, None)] raises [TypeError]
    in the comparison [offset < len(...)], which [read]'s [try] swallows: so
    each later section changes nothing and passes [(None, None)] on, and
    the calibration loop does nothing while the calibration header is
    [None].  [read] still returns [True] for a recognised version. *)
Theorem C4_failed_section_skips_the_rest :
  (forall (o : obj) (buf : bytes) (n : nat),
     obj_get o "_ASDFile__asdFileStream" = Some (PBytes buf) -> (n < length buf)%nat ->
     slice buf n 2 <> [255; 255] -> slice buf n 2 <> [0; 0] ->
     parse_referenceFileHeader (OffInt n) o = (o, Ok (Ran OffNone))) /\
  (forall (p : pyoff -> M (checked pyoff)) (a : string) (o : obj) (buf : bytes) (n : nat)
          (md : pyval) (c : Z),
     In (p, a) [(parse_spectrumData, "spectrumData"); (parse_referenceData, "referenceData")] ->
     obj_get o "_ASDFile__asdFileStream" = Some (PBytes buf) ->
     obj_get o "metadata" = Some md -> attr md "channels" = Ok (PInt c) -> 0 <= c ->
     (n < length buf < n + Z.to_nat c * 8)%nat ->
     p (OffInt n) o = (obj_set o a (PNT spectrum_fields [PNone; PNone; PNone]), Ok (Ran OffNone))) /\
  (forall (p : pyoff -> M (checked pyoff)) (o : obj) (buf : bytes),
     In p [parse_metadata; parse_spectrumData; parse_referenceFileHeader; parse_referenceData;
           parse_classifierData; parse_dependentVariables; parse_calibrationHeader;
           parse_auditLog; parse_signature] ->
     obj_get o "_ASDFile__asdFileStream" = Some (PBytes buf) ->
     section p OffNone o = (o, Ok OffPair) /\ section p OffPair o = (o, Ok OffPair)) /\
  (forall (o : obj) (off : pyoff),
     obj_get o "calibrationHeader" = Some PNone ->
     read_calibration_series off o = (o, Ok off)) /\
  (forall file : bytes,
     is_version_prefix (firstn 3 (read_buffer file)) = true -> snd (read_file file) = Ok true).
Proof.
  split; [|split; [|split; [|split]]].
  - intros o buf n Hs Hn H1 H2.
    assert (HB : parse_Bool buf (OffInt n) = Ok (PNone, OffNone)).
    { unfold parse_Bool, check_offset. rewrite (proj2 (Nat.ltb_lt _ _) Hn). cbn [bind].
      unfold parse_Bool_body.
      destruct (list_eq_dec Z.eq_dec (slice buf n 2) [255; 255]); [contradiction|].
      destruct (list_eq_dec Z.eq_dec (slice buf n 2) [0; 0]); [contradiction|]. reflexivity. }
    unfold parse_referenceFileHeader, check_offset_m, try_except, mbind, stream, lift, mret.
    cbv beta iota. rewrite Hs. cbv beta iota. rewrite (proj2 (Nat.ltb_lt _ _) Hn). cbv beta iota.
    rewrite Hs. cbv beta iota. rewrite HB. reflexivity.
  - intros p a o buf n md c Hin Hs Hm Hc Hc0 [Hn Hlt].
    assert (HP : parse_spectra buf md (OffInt n) = Ok (Ran (PNone, PNone, PNone, OffNone))).
    { unfold parse_spectra, check_offset. rewrite (proj2 (Nat.ltb_lt _ _) Hn). cbn [bind].
      unfold parse_spectra_body, catch. rewrite Hc. cbn [bind].
      rewrite (proj2 (Z.leb_le 0 c) Hc0). cbn [bind]. unfold unpack_from.
      rewrite calcsize_repeat_Cd, (proj2 (Nat.leb_gt _ _) Hlt). reflexivity. }
    assert (Hsec : forall a', parse_spectrum_section a' (OffInt n) o =
                     (obj_set o a' (PNT spectrum_fields [PNone; PNone; PNone]), Ok (Ran OffNone))).
    { intros a'. unfold parse_spectrum_section, check_offset_m, try_except, mbind, stream, getd,
        lift, setattr, mret.
      cbv beta iota. rewrite Hs. cbv beta iota. rewrite (proj2 (Nat.ltb_lt _ _) Hn). cbv beta iota.
      rewrite Hs. cbv beta iota. rewrite Hm. cbv beta iota. rewrite HP. reflexivity. }
    simpl in Hin. destruct Hin as [E | [E | []]]; injection E as <- <-; apply Hsec.
  - intros p o buf Hin Hs.
    simpl in Hin.
    repeat (destruct Hin as [<- | Hin]; [apply (section_check_offset _ o buf Hs)|]).
    contradiction.
  - intros o off Hc.
    unfold read_calibration_series, try_except, mbind, getd, lift, mret.
    rewrite Hc. reflexivity.
  - intros file Hv. destruct (read_file_shape file) as [_ Hgt]. apply Hgt.
    rewrite validate_fileVersion_lookup. cbn [fst].
    rewrite <- version_lookup_positive in Hv.
    destruct (version_lookup version_dict (firstn 3 (read_buffer file))) as [v|]; [|discriminate].
    apply Z.ltb_lt, Hv.
Qed.

Lemma C4_failed_section_skips_the_rest_witness :
  parse_referenceFileHeader (OffInt 492) (with_stream v6_bad_bool) =
    (with_stream v6_bad_bool, Ok (Ran OffNone)) /\
  snd (read_file v6_bad_bool) = Ok true.
Proof.
  split.
  - apply (proj1 C4_failed_section_skips_the_rest (with_stream v6_bad_bool) v6_bad_bool 492%nat);
      [vm_compute; reflexivity | vm_compute; lia | vm_compute; congruence | vm_compute; congruence].
  - apply (proj2 (proj2 (proj2 (proj2 C4_failed_section_skips_the_rest))) v6_bad_bool).
    vm_compute. reflexivity.
Defined.

(** C4, a concrete run: in [v6_bad_bool] only the reference Boolean differs
    from [v6_file], and the reference spectrum after it is intact.  [read]
    still returns [True], but it leaves the reference file header, the
    reference data, the classifier data and the dependent variables all
    [None], while the same sections of [v6_file] are decoded. *)
Lemma C4_failed_section_counterexample :
  skipn 494 v6_bad_bool = skipn 494 v6_file /\
  firstn 492 v6_bad_bool = firstn 492 v6_file /\
  snd (read_file v6_bad_bool) = Ok true /\
  obj_get (fst (read_file v6_bad_bool)) "referenceFileHeader" = Some PNone /\
  obj_get (fst (read_file v6_bad_bool)) "referenceData" = Some PNone /\
  obj_get (fst (read_file v6_bad_bool)) "classifierData" = Some PNone /\
  obj_get (fst (read_file v6_bad_bool)) "dependants" = Some PNone /\
  obj_get (fst (read_file v6_file)) "referenceData" <> Some PNone /\
  obj_get (fst (read_file v6_file)) "classifierData" <> Some PNone.
Proof.
  repeat split; vm_compute; first [reflexivity | discriminate].
Qed.

(** ** Calibration routing *)

Lemma valid_entry_shape (e : pyval) :
  valid_entry e = true ->
  exists t rest, e = PTuple (PInt t :: rest) /\ entry_type e = t /\ 0 <= t <= 3.
Proof.
  intros H. destruct e; try discriminate. destruct vs as [|x rest]; try discriminate.
  destruct x as [| |t| | | | | | | |]; try discriminate. simpl in H |- *.
  apply andb_true_iff in H as [H1 H2].
  apply Z.leb_le in H1. apply Z.leb_le in H2.
  exists t, rest. repeat split; lia.
Qed.

Lemma calibration_slot_of_valid (t : Z) :
  0 <= t <= 3 -> calibration_slot_of (PInt t) = Some (spec_slot_name t).
Proof.
  intros Ht. assert (t = 0 \/ t = 1 \/ t = 2 \/ t = 3) as [E|[E|[E|E]]] by lia; subst t;
    reflexivity.
Qed.

Lemma py_getitem_head (x : pyval) (r : list pyval) :
  py_getitem (PTuple (x :: r)) 0 = Ok x.
Proof.
  unfold py_getitem.
  assert ((- Z.of_nat (length (x :: r)) <=? 0) && (0 <? Z.of_nat (length (x :: r))) = true) as ->.
  { apply andb_true_iff; split; [apply Z.leb_le | apply Z.ltb_lt]; simpl length; lia. }
  reflexivity.
Qed.

Lemma py_getitem_middle (pre r : list pyval) (e : pyval) :
  py_getitem (PList (pre ++ e :: r)) (Z.of_nat (length pre)) = Ok e.
Proof.
  unfold py_getitem. rewrite length_app. simpl length.
  assert ((- Z.of_nat (length pre + S (length r)) <=? Z.of_nat (length pre)) &&
          (Z.of_nat (length pre) <? Z.of_nat (length pre + S (length r))) = true) as ->.
  { apply andb_true_iff; split; [apply Z.leb_le | apply Z.ltb_lt]; lia. }
  assert ((Z.of_nat (length pre) <? 0) = false) as -> by (apply Z.ltb_ge; lia).
  rewrite Nat2Z.id, nth_middle. reflexivity.
Qed.

Lemma write_calibration_loop_blocks (o : obj) (md : pyval) (es pre : list pyval) (k : Z) (f : bytes) :
  forallb (fun e => valid_entry e && has_slot_block o md e) es = true ->
  write_calibration_loop o md (PList (pre ++ es)) (seq (length pre) (length es)) (Some k) f =
    (f ++ concat (map (slot_block_bytes o md) es),
     Ok (Some (k + fold_right Z.add 0 (map (slot_block_len o md) es)))).
Proof.
  revert pre k f. induction es as [|e r IH]; intros pre k f H.
  - simpl. rewrite app_nil_r, Z.add_0_r. reflexivity.
  - simpl in H. apply andb_true_iff in H as [He Hr]. apply andb_true_iff in He as [Hv Hs].
    destruct (valid_entry_shape e Hv) as (t & rest & -> & Ht & Hrange).
    unfold has_slot_block in Hs. rewrite Ht in Hs.
    destruct (slot_block o md t) as [[b n]|] eqn:Eb; [|discriminate].
    assert (Bb : slot_block_bytes o md (PTuple (PInt t :: rest)) = b)
      by (unfold slot_block_bytes; rewrite Ht, Eb; reflexivity).
    assert (Bn : slot_block_len o md (PTuple (PInt t :: rest)) = n)
      by (unfold slot_block_len; rewrite Ht, Eb; reflexivity).
    cbn [map concat fold_right]. rewrite Bb, Bn.
    unfold slot_block in Eb.
    destruct (self_attr o (spec_slot_name t)) as [sp|] eqn:Esp; [|discriminate].
    destruct (wrap_spectra md sp) eqn:Ew; cbn in Eb; try discriminate Eb.
    repeat match type of Eb with
           | context [match ?x with _ => _ end] => destruct x; cbn in Eb; try discriminate Eb
           end.
    injection Eb as <- <-.
    simpl seq. cbn [write_calibration_loop]. unfold wbind at 1, wlift at 1.
    rewrite py_getitem_middle. unfold wbind at 1, wlift at 1.
    rewrite py_getitem_head. unfold wbind at 1.
    rewrite (calibration_slot_of_valid t Hrange).
    unfold wbind at 1, wlift at 1. rewrite Esp.
    unfold emit. rewrite Ew. cbn.
    replace (pre ++ PTuple (PInt t :: rest) :: r) with ((pre ++ [PTuple (PInt t :: rest)]) ++ r)
      by (rewrite <- app_assoc; reflexivity).
    replace (S (length pre)) with (length (pre ++ [PTuple (PInt t :: rest)]))
      by (rewrite length_app; simpl; lia).
    rewrite (IH _ _ _ Hr). rewrite <- app_assoc. f_equal. f_equal. f_equal. lia.
Qed.

Lemma parse_spectra_body_ok (buf : bytes) (md : pyval) (c n : nat) :
  attr md "channels" = Ok (PInt (Z.of_nat c)) -> (n + c * 8 <= length buf)%nat ->
  parse_spectra_body buf md n =
    (PArray (float_list (unpack_codes true (repeat Cd c) (skipn n buf))),
     PBytes (slice buf (n + c * 8) (c * 8)),
     PInt (Z.of_nat (length (slice buf (n + c * 8) (c * 8)))),
     OffInt (n + c * 8)).
Proof.
  intros Hc Hlen. unfold parse_spectra_body. rewrite Hc. cbn [bind].
  assert ((0 <=? Z.of_nat c) = true) as -> by (apply Z.leb_le; lia).
  rewrite Nat2Z.id. cbn [bind]. unfold unpack_from. rewrite calcsize_repeat_Cd.
  assert ((n + c * 8 <=? length buf)%nat = true) as -> by (apply Nat.leb_le; lia).
  reflexivity.
Qed.

Lemma calibration_step_route (h : pyval) (n : nat) (o : obj) (buf : bytes) (md : pyval) (c : nat) :
  valid_entry h = true ->
  obj_get o "_ASDFile__asdFileStream" = Some (PBytes buf) ->
  obj_get o "metadata" = Some md ->
  attr md "channels" = Ok (PInt (Z.of_nat c)) -> (0 < c)%nat ->
  (n + c * 8 <= length buf)%nat ->
  calibration_step h (OffInt n) o =
    (obj_set o (spec_slot_name (entry_type h)) (spectrum_at buf md n), Ok (OffInt (n + c * 8))).
Proof.
  intros Hv Hs Hm Hc Hc0 Hlen.
  destruct (valid_entry_shape h Hv) as (t & rest & -> & Ht & Hrange). rewrite Ht.
  unfold calibration_step, mbind, lift. rewrite py_getitem_head.
  change (if py_eq_int (PInt t) 0 then Some "calibrationSeriesABS"
          else if py_eq_int (PInt t) 1 then Some "calibrationSeriesBSE"
          else if py_eq_int (PInt t) 2 then Some "calibrationSeriesLMP"
          else if py_eq_int (PInt t) 3 then Some "calibrationSeriesFO"
          else None) with (calibration_slot_of (PInt t)).
  rewrite (calibration_slot_of_valid t Hrange).
  unfold stream, getd. rewrite Hs, Hm.
  unfold parse_spectra, check_offset.
  assert ((n <? length buf)%nat = true) as -> by (apply Nat.ltb_lt; lia).
  unfold spectrum_at. rewrite (parse_spectra_body_ok buf md c n Hc Hlen).
  reflexivity.
Qed.

Lemma calibration_loop_route (hdrs : list pyval) (n : nat) (o : obj) (buf : bytes) (md : pyval) (c : nat) :
  forallb valid_entry hdrs = true ->
  obj_get o "_ASDFile__asdFileStream" = Some (PBytes buf) ->
  obj_get o "metadata" = Some md ->
  attr md "channels" = Ok (PInt (Z.of_nat c)) -> (0 < c)%nat ->
  (n + length hdrs * (c * 8) <= length buf)%nat ->
  calibration_loop hdrs (OffInt n) o =
    (spec_route_blocks buf md c hdrs n o, Ok (OffInt (n + length hdrs * (c * 8)), None)).
Proof.
  revert n o. induction hdrs as [|h r IH]; intros n o Hv Hs Hm Hc Hc0 Hlen.
  - simpl. rewrite Nat.add_0_r. reflexivity.
  - simpl in Hv. apply andb_true_iff in Hv as [Hh Hr]. simpl length in Hlen.
    cbn [calibration_loop spec_route_blocks].
    rewrite (calibration_step_route h n o buf md c Hh Hs Hm Hc Hc0) by nia.
    destruct (valid_entry_shape h Hh) as (t & rest & -> & Ht & Hrange).
    assert (Hne : forall k, k = "_ASDFile__asdFileStream" \/ k = "metadata" ->
                  obj_get (obj_set o (spec_slot_name (entry_type (PTuple (PInt t :: rest)))) (spectrum_at buf md n)) k
                  = obj_get o k).
    { intros k Hk. apply obj_get_set_other. rewrite Ht. unfold spec_slot_name.
      destruct Hk as [-> | ->];
        destruct (t =? 0), (t =? 1), (t =? 2); discriminate. }
    rewrite IH; [| exact Hr | rewrite Hne; auto | rewrite Hne; auto | exact Hc | exact Hc0 | nia].
    assert (E : (n + c * 8 + length r * (c * 8) =
                 n + length (PTuple (PInt t :: rest) :: r) * (c * 8))%nat) by (simpl length; nia).
    rewrite E. reflexivity.
Qed.

(** C6: [write] emits, for the [calibrationNum] entries of the calibration
    header, one block per entry in header order, each block the one
    [__wrap_spectra] makes of the slot of the entry's type tag (Absolute = 0,
    Base = 1, Lamp = 2, FiberOptic = 3); and [read]'s calibration loop reads
    one [channels]-double spectrum per entry, in header order, and stores it
    in the slot of the entry's type, a later entry of a type overwriting the
    slot ([spec_route_blocks]). *)
Theorem C6_calibration_routing :
  (forall (o : obj) (md ch : pyval) (es : list pyval) (k : Z) (f : bytes),
     truthy ch = Ok true ->
     attr ch "calibrationNum" = Ok (PInt (Z.of_nat (length es))) ->
     attr ch "calibrationSeries" = Ok (PList es) ->
     (0 < length es)%nat ->
     forallb (fun e => valid_entry e && has_slot_block o md e) es = true ->
     write_calibration_series o md ch (Some k) f =
       (f ++ concat (map (slot_block_bytes o md) es),
        Ok (Some (k + fold_right Z.add 0 (map (slot_block_len o md) es))))) /\
  (forall (hdrs : list pyval) (n : nat) (o : obj) (buf : bytes) (md : pyval) (c : nat),
     forallb valid_entry hdrs = true ->
     obj_get o "_ASDFile__asdFileStream" = Some (PBytes buf) ->
     obj_get o "metadata" = Some md ->
     attr md "channels" = Ok (PInt (Z.of_nat c)) -> (0 < c)%nat ->
     (n + length hdrs * (c * 8) <= length buf)%nat ->
     calibration_loop hdrs (OffInt n) o =
       (spec_route_blocks buf md c hdrs n o, Ok (OffInt (n + length hdrs * (c * 8)), None))).
Proof.
  split.
  - intros o md ch es k f Ht Hn Hs Hpos Hes.
    unfold write_calibration_series, wbind, wlift. rewrite Ht, Hn. cbn [py_gt0 py_int].
    assert ((0 <? Z.of_nat (length es)) = true) as -> by (apply Z.ltb_lt; lia).
    rewrite Hs, Nat2Z.id.
    exact (write_calibration_loop_blocks o md es [] k f Hes).
  - exact calibration_loop_route.
Qed.

Lemma C6_calibration_routing_witness :
  let o := fst (read_file v7_file) in
  let md := match obj_get o "metadata" with Some m => m | None => PNone end in
  let ch := match obj_get o "calibrationHeader" with Some h => h | None => PNone end in
  let es := match attr ch "calibrationSeries" with Ok (PList es) => es | _ => [] end in
  let hdrs := [PTuple [PInt 0]; PTuple [PInt 2]; PTuple [PInt 0]] in
  write_calibration_series o md ch (Some 0) [] =
    ([] ++ concat (map (slot_block_bytes o md) es),
     Ok (Some (0 + fold_right Z.add 0 (map (slot_block_len o md) es)))) /\
  calibration_loop hdrs (OffInt 716) o =
    (spec_route_blocks v7_file md 1 hdrs 716 o, Ok (OffInt (716 + length hdrs * (1 * 8)), None)).
Proof.
  intros o md ch es hdrs. split.
  - apply (proj1 C6_calibration_routing); subst o md ch es; vm_compute; first [reflexivity | lia].
  - apply (proj2 C6_calibration_routing); subst o md ch es hdrs; vm_compute; first [reflexivity | lia].
Defined.

(** C1, on concrete files: [write] after [read] gives back the version-6 and
    version-7 samples byte for byte, the latter also with the trailer
    [FF FE FD]; but on a version-8 file whose audit log has no events
    [__parse_auditLog] reads [auditEvents] before assigning it, so [read]
    leaves the audit log [None] and [write] raises [TypeError] after 703 of
    the 872 bytes; and a version-7 file with two calibration entries of one
    type is read and written without error but not reproduced, the second
    spectrum having replaced the first. *)
Theorem C1_round_trip_breaks_without_audit_events :
  write (fst (read_file v6_file)) = (v6_file, Ok true) /\
  write (fst (read_file v7_file)) = (v7_file, Ok true) /\
  write (fst (read_file (v7_file ++ trailer))) = (v7_file ++ trailer, Ok true) /\
  snd (read_file v8_no_audit_file) = Ok true /\
  snd (write (fst (read_file v8_no_audit_file))) = Raise TypeError /\
  length (fst (write (fst (read_file v8_no_audit_file)))) = 703%nat /\
  length v8_no_audit_file = 872%nat /\
  snd (read_file v7_dup_file) = Ok true /\
  snd (write (fst (read_file v7_dup_file))) = Ok true /\
  fst (write (fst (read_file v7_dup_file))) <> v7_dup_file.
Proof.
  repeat split; vm_compute; first [reflexivity | discriminate].
Qed.

(** * Further properties of the code *)

(** ** [read] never raises *)

(** [read] never raises: it returns [True] exactly when the first three
    bytes of the file, after a trailing [FF FE FD] is cut off, are one of
    the version prefixes [ASD], [as2], ..., [as8], and [False] otherwise,
    whatever follows. *)
Theorem read_returns_version_known (file : bytes) :
  snd (read_file file) = Ok (is_version_prefix (firstn 3 (read_buffer file))).
Proof.
  destruct (read_file_shape file) as [Hle Hgt].
  rewrite <- version_lookup_positive.
  rewrite validate_fileVersion_lookup in Hle, Hgt. cbn [fst] in Hle, Hgt.
  destruct (version_lookup version_dict (firstn 3 (read_buffer file))) as [v|].
  - destruct (Z.ltb_spec 0 v).
    + apply Hgt; lia.
    + rewrite Hle by lia. reflexivity.
  - rewrite Hle by lia. reflexivity.
Qed.

(** When [read] returns [False], the instance holds no metadata, no
    spectrum and no other section record (each is still the [None] of
    [__init__]), and [write] then produces a file holding only the trailer
    [FF FE FD] if the input ended with one, and nothing otherwise, and
    returns [True]. *)
Theorem write_after_failed_read (file : bytes) :
  snd (read_file file) = Ok false ->
  (forall k, In k ["metadata"; "spectrumData"; "referenceFileHeader"; "referenceData";
                   "classifierData"; "dependants"; "calibrationHeader"; "auditLog"; "signature"] ->
             obj_get (fst (read_file file)) k = Some PNone) /\
  write (fst (read_file file)) =
    ((if list_eq_dec Z.eq_dec (py_slice file (-3) None) trailer then trailer else []), Ok true).
Proof.
  intros Hf. destruct (read_file_shape file) as [Hle Hgt]. cbv zeta in Hle, Hgt.
  destruct (Z.ltb_spec 0 (fst (validate_fileVersion (read_buffer file)))) as [Hv|Hv].
  { rewrite (Hgt Hv) in Hf. discriminate Hf. }
  rewrite (Hle Hv). clear Hf Hle Hgt.
  revert Hv. generalize (fst (validate_fileVersion (read_buffer file))) as v. intros v Hv.
  assert (Hv' : (0 <? v) = false) by (apply Z.ltb_ge; lia).
  split.
  - intros k Hk. cbn [fst].
    repeat (destruct Hk as [<- | Hk];
            [destruct (list_eq_dec Z.eq_dec (py_slice file (-3) None) trailer); reflexivity|]).
    contradiction.
  - destruct (list_eq_dec Z.eq_dec (py_slice file (-3) None) trailer);
      unfold write, write_body, wbind, wlift, wtruthy, wret; cbn; rewrite Hv'; reflexivity.
Qed.

Lemma write_after_failed_read_witness :
  snd (read_file [120; 121; 122; 255; 254; 253]) = Ok false /\
  (forall k, In k ["metadata"; "spectrumData"; "referenceFileHeader"; "referenceData";
                   "classifierData"; "dependants"; "calibrationHeader"; "auditLog"; "signature"] ->
             obj_get (fst (read_file [120; 121; 122; 255; 254; 253])) k = Some PNone) /\
  write (fst (read_file [120; 121; 122; 255; 254; 253])) =
    ((if list_eq_dec Z.eq_dec (py_slice [120; 121; 122; 255; 254; 253] (-3) None) trailer
      then trailer else []), Ok true).
Proof.
  split; [vm_compute; reflexivity|].
  apply write_after_failed_read. vm_compute. reflexivity.
Defined.

(** ** Version prefixes *)

(** For every version 1 to 8, [__setFileVersion] gives a three-byte prefix
    that [__validate_fileVersion] maps back to the same version, at offset
    3, whatever bytes follow. *)
Theorem setFileVersion_validate_roundtrip (v : Z) (rest : bytes) :
  1 <= v <= 8 ->
  exists b, setFileVersion v = Ok b /\ length b = 3%nat /\
            validate_fileVersion (b ++ rest) = (v, 3%nat).
Proof.
  intros Hv.
  assert (v = 1 \/ v = 2 \/ v = 3 \/ v = 4 \/ v = 5 \/ v = 6 \/ v = 7 \/ v = 8) by lia.
  repeat match goal with H : _ \/ _ |- _ => destruct H as [H|H] end; subst v;
    (eexists; split; [reflexivity|]; split; [reflexivity|]);
    rewrite validate_fileVersion_lookup; reflexivity.
Qed.

Lemma setFileVersion_validate_roundtrip_witness :
  1 <= 7 <= 8 /\
  exists b, setFileVersion 7 = Ok b /\ length b = 3%nat /\
            validate_fileVersion (b ++ [0; 1]) = (7, 3%nat).
Proof.
  split; [lia|]. apply setFileVersion_validate_roundtrip. lia.
Defined.

(** ** Little-endian fields *)

Lemma length_le_bytes (n : nat) (z : Z) : length (le_bytes n z) = n.
Proof. revert z. induction n as [|n IH]; intros z; simpl; [reflexivity|]. rewrite IH. reflexivity. Qed.

Lemma le_uint_le_bytes (n : nat) (z : Z) : le_uint (le_bytes n z) = z mod 2 ^ (8 * Z.of_nat n).
Proof.
  revert z. induction n as [|n IH]; intros z.
  - simpl. rewrite Z.mod_1_r. reflexivity.
  - cbn [le_bytes le_uint]. rewrite IH.
    replace (2 ^ (8 * Z.of_nat (S n))) with (256 * 2 ^ (8 * Z.of_nat n)).
    + rewrite Z.rem_mul_r by lia. reflexivity.
    + rewrite Nat2Z.inj_succ, Z.mul_succ_r, Z.pow_add_r by lia. lia.
Qed.

Lemma skipn_length_app {A} (pre xs : list A) : skipn (length pre) (pre ++ xs) = xs.
Proof. induction pre as [|x pre IH]; simpl; auto. Qed.

Lemma firstn_length_app {A} (xs ys : list A) : firstn (length xs) (xs ++ ys) = xs.
Proof. induction xs as [|x xs IH]; simpl; [reflexivity|]. rewrite IH. reflexivity. Qed.

(** ** Booleans and strings *)

Lemma Bool_codec (v : pyval) (b : bool) (pre rest : bytes) :
  truthy v = Ok b ->
  exists bs, wrap_Bool v = Ok (bs, 2%nat) /\
             parse_Bool (pre ++ bs ++ rest) (OffInt (length pre)) =
               Ok (PBool b, OffInt (length pre + 2)).
Proof.
  intros Ht. unfold wrap_Bool. rewrite Ht. cbn [bind].
  eexists; split; [reflexivity|].
  unfold parse_Bool, check_offset.
  assert (Hlt : (length pre <? length (pre ++ (if b then [255%Z; 255%Z] else [0%Z; 0%Z]) ++ rest))%nat = true).
  { apply Nat.ltb_lt. rewrite !length_app. destruct b; simpl; lia. }
  rewrite Hlt. cbn [bind]. unfold parse_Bool_body, slice. rewrite skipn_length_app.
  destruct b; reflexivity.
Qed.

(** [__wrap_Bool] followed by [__parse_Bool] at the same position gives back
    the truth value of what was wrapped, and the offset just past the two
    bytes, whatever surrounds them. *)
Theorem Bool_roundtrip (v : pyval) (b : bool) (pre rest : bytes) :
  truthy v = Ok b ->
  exists bs, wrap_Bool v = Ok (bs, 2%nat) /\
             parse_Bool (pre ++ bs ++ rest) (OffInt (length pre)) =
               Ok (PBool b, OffInt (length pre + 2)).
Proof. exact (Bool_codec v b pre rest). Qed.

Lemma Bool_roundtrip_witness :
  truthy (PInt 5) = Ok true /\
  exists bs, wrap_Bool (PInt 5) = Ok (bs, 2%nat) /\
             parse_Bool ([1; 2] ++ bs ++ [3]) (OffInt (length [1; 2])) =
               Ok (PBool true, OffInt (length [1; 2] + 2)).
Proof. split; [reflexivity|]. apply Bool_roundtrip. reflexivity. Defined.

Lemma pack_Ch_int (std : bool) (z : Z) :
  pack (Fmt std [Ch]) [PInt z] =
    if (-32768 <=? z) && (z <? 32768) then Ok (le_bytes 2 z) else Raise StructError.
Proof.
  unfold pack. cbn.
  destruct ((-32768 <=? z) && (z <? 32768)); reflexivity.
Qed.

Lemma pack_Cs_bytes (std : bool) (n : nat) (s : bytes) :
  pack (Fmt std [Cs n]) [PBytes s] = Ok (firstn n s ++ repeat 0 (n - length s)).
Proof. unfold pack. cbn. rewrite app_nil_r. reflexivity. Qed.

Lemma unpack_one_at (std : bool) (c : scode) (buf : bytes) (n : nat) :
  unpack_one (Fmt std [c]) buf (OffInt n) =
    if (n + code_size std c <=? length buf)%nat
    then Ok (unpack1 std c (firstn (code_size std c) (skipn n buf)))
    else Raise StructError.
Proof.
  unfold unpack_one, unpack_at, unpack_from, calcsize. cbn [f_std f_codes fold_right unpack_codes].
  rewrite Nat.add_0_r. destruct (n + code_size std c <=? length buf)%nat; reflexivity.
Qed.

Lemma bstr_codec (s pre rest : bytes) :
  utf8_valid s = true -> Z.of_nat (length s) < 32768 ->
  wrap_bstr (PStr s) =
    Ok (pair_ok (le_bytes 2 (Z.of_nat (length s)) ++ s)
                (Z.of_nat (length (le_bytes 2 (Z.of_nat (length s)) ++ s)))) /\
  parse_bstr (pre ++ le_bytes 2 (Z.of_nat (length s)) ++ s ++ rest) (OffInt (length pre)) =
    Ok (PStr s, OffInt (length pre + 2 + length s)).
Proof.
  intros Hu Hl. split.
  - unfold wrap_bstr, pnat, pstd. rewrite pack_Ch_int.
    assert ((-32768 <=? Z.of_nat (length s)) && (Z.of_nat (length s) <? 32768) = true) as ->.
    { apply andb_true_iff; split; [apply Z.leb_le | apply Z.ltb_lt]; lia. }
    rewrite pack_Cs_bytes, firstn_all, Nat.sub_diag, app_nil_r. reflexivity.
  - remember (le_bytes 2 (Z.of_nat (length s))) as hb eqn:Ehb.
    assert (Hhb : length hb = 2%nat) by (subst hb; apply length_le_bytes).
    assert (Hv : le_uint hb = Z.of_nat (length s)).
    { subst hb. rewrite le_uint_le_bytes. apply Z.mod_small. simpl. lia. }
    clear Ehb.
    unfold parse_bstr, check_offset.
    assert ((length pre <? length (pre ++ hb ++ s ++ rest))%nat = true) as ->.
    { apply Nat.ltb_lt. rewrite !length_app. lia. }
    cbn [bind]. unfold parse_bstr_body, pstd. rewrite unpack_one_at. cbn [code_size].
    assert ((length pre + 2 <=? length (pre ++ hb ++ s ++ rest))%nat = true) as ->.
    { apply Nat.leb_le. rewrite !length_app. lia. }
    rewrite skipn_length_app, <- Hhb, firstn_length_app. cbn [unpack1 code_size].
    rewrite Hhb. unfold to_signed. rewrite Hv.
    assert ((Z.of_nat (length s) <? 2 ^ (8 * Z.of_nat 2 - 1)) = true) as -> by (apply Z.ltb_lt; simpl; lia).
    assert ((0 <=? Z.of_nat (length s)) = true) as -> by (apply Z.leb_le; lia).
    rewrite unpack_one_at. cbn [code_size]. rewrite Nat2Z.id.
    replace (length pre + 2)%nat with (length (pre ++ hb)) by (rewrite length_app; lia).
    rewrite (app_assoc pre hb (s ++ rest)).
    assert ((length (pre ++ hb) + length s <=? length ((pre ++ hb) ++ s ++ rest))%nat = true) as ->.
    { apply Nat.leb_le. rewrite !length_app. lia. }
    rewrite skipn_length_app, firstn_length_app.
    cbn [unpack1]. unfold decode_utf8. rewrite Hu. cbn [bind]. reflexivity.
Qed.

(** [__wrap_bstr] followed by [__parse_bstr] at the same position gives back
    a well-formed UTF-8 string of fewer than 32768 bytes, and the offset just
    past its two-byte count and its bytes, whatever surrounds them. *)
Theorem bstr_roundtrip (s pre rest : bytes) :
  utf8_valid s = true -> Z.of_nat (length s) < 32768 ->
  exists hb, length hb = 2%nat /\
             wrap_bstr (PStr s) = Ok (pair_ok (hb ++ s) (Z.of_nat (length (hb ++ s)))) /\
             parse_bstr (pre ++ hb ++ s ++ rest) (OffInt (length pre)) =
               Ok (PStr s, OffInt (length pre + 2 + length s)).
Proof.
  intros Hu Hl. exists (le_bytes 2 (Z.of_nat (length s))).
  split; [apply length_le_bytes|]. exact (bstr_codec s pre rest Hu Hl).
Qed.

Lemma bstr_roundtrip_witness :
  utf8_valid (str_bytes "desc") = true /\ Z.of_nat (length (str_bytes "desc")) < 32768 /\
  exists hb, length hb = 2%nat /\
             wrap_bstr (PStr (str_bytes "desc")) =
               Ok (pair_ok (hb ++ str_bytes "desc") (Z.of_nat (length (hb ++ str_bytes "desc")))) /\
             parse_bstr ([] ++ hb ++ str_bytes "desc" ++ [0]) (OffInt (length ([] : bytes))) =
               Ok (PStr (str_bytes "desc"), OffInt (length ([] : bytes) + 2 + length (str_bytes "desc"))).
Proof.
  split; [vm_compute; reflexivity|]. split; [vm_compute; reflexivity|].
  apply bstr_roundtrip; vm_compute; reflexivity.
Defined.

(** [__wrap_bstr] does not encode a string of 32768 bytes or more: its
    two-byte signed count cannot hold the length, and it returns
    [(None, None)]. *)
Theorem bstr_too_long (s : bytes) :
  32768 <= Z.of_nat (length s) -> wrap_bstr (PStr s) = Ok pair_none.
Proof.
  intros Hl. unfold wrap_bstr, pnat. rewrite pack_Ch_int.
  assert ((-32768 <=? Z.of_nat (length s)) && (Z.of_nat (length s) <? 32768) = false) as ->.
  { apply andb_false_iff; right. apply Z.ltb_ge. lia. }
  reflexivity.
Qed.

Lemma bstr_too_long_witness :
  32768 <= Z.of_nat (length (repeat 97 (Z.to_nat 32768))) /\
  wrap_bstr (PStr (repeat 97 (Z.to_nat 32768))) = Ok pair_none.
Proof.
  split; [rewrite repeat_length; lia|].
  apply bstr_too_long. rewrite repeat_length. lia.
Defined.

(** ** Spectra *)

Lemma pack_repeat_Cd (xs : list Z) :
  pack (pstd (repeat Cd (length xs))) (map PFloat xs) = Ok (concat (map (le_bytes 8) xs)).
Proof.
  unfold pack, pstd. cbn [f_std f_codes].
  induction xs as [|x xs IH]; [reflexivity|].
  cbn [length repeat map pack_codes pack1 as_float bind]. rewrite IH. reflexivity.
Qed.

Lemma unpack_repeat_Cd (xs : list Z) (rest : bytes) :
  Forall (fun x => 0 <= x < 2 ^ 64) xs ->
  unpack_codes true (repeat Cd (length xs)) (concat (map (le_bytes 8) xs) ++ rest) = map PFloat xs.
Proof.
  induction 1 as [|x xs Hx Hxs IH]; [reflexivity|].
  cbn [length repeat map concat unpack_codes code_size]. rewrite <- app_assoc.
  pose proof (firstn_length_app (le_bytes 8 x) (concat (map (le_bytes 8) xs) ++ rest)) as F.
  pose proof (skipn_length_app (le_bytes 8 x) (concat (map (le_bytes 8) xs) ++ rest)) as S.
  rewrite length_le_bytes in F, S. rewrite F, S, IH. cbn [unpack1].
  rewrite le_uint_le_bytes, Z.mod_small by (simpl; lia). reflexivity.
Qed.

Lemma float_list_map_PFloat (xs : list Z) : float_list (map PFloat xs) = xs.
Proof. induction xs as [|x xs IH]; simpl; [reflexivity|]. rewrite IH. reflexivity. Qed.

Lemma length_concat_le_bytes (xs : list Z) :
  length (concat (map (le_bytes 8) xs)) = (length xs * 8)%nat.
Proof.
  induction xs as [|x xs IH]; [reflexivity|].
  cbn [map concat length]. rewrite length_app, length_le_bytes, IH. lia.
Qed.

(** [__wrap_spectra] followed by [__parse_spectra] at the same position gives
    back a spectrum of [metadata.channels] values (64-bit patterns), and the
    offset just past its [8 * channels] bytes; the byte string
    [__parse_spectra] returns beside the spectrum is not the spectrum's own
    bytes but the [8 * channels] bytes that follow it, fewer at the end of
    the buffer. *)
Theorem spectra_roundtrip (md : pyval) (xs pre rest : list Z) :
  attr md "channels" = Ok (PInt (Z.of_nat (length xs))) -> (0 < length xs)%nat ->
  Forall (fun x => 0 <= x < 2 ^ 64) xs ->
  exists bs, wrap_spectra md (PArray xs) = pair_ok bs (Z.of_nat (length xs) * 8) /\
             length bs = (length xs * 8)%nat /\
             parse_spectra (pre ++ bs ++ rest) md (OffInt (length pre)) =
               Ok (Ran (PArray xs,
                        PBytes (firstn (length xs * 8) rest),
                        PInt (Z.of_nat (length (firstn (length xs * 8) rest))),
                        OffInt (length pre + length xs * 8))).
Proof.
  intros Hc Hpos Hr. exists (concat (map (le_bytes 8) xs)).
  assert (Hl := length_concat_le_bytes xs).
  split; [|split; [exact Hl|]].
  - unfold wrap_spectra. rewrite Hc. cbn [bind].
    assert ((0 <=? Z.of_nat (length xs)) = true) as -> by (apply Z.leb_le; lia).
    cbn [bind star_args]. rewrite Nat2Z.id, pack_repeat_Cd. reflexivity.
  - unfold parse_spectra, check_offset.
    assert ((length pre <? length (pre ++ concat (map (le_bytes 8) xs) ++ rest))%nat = true) as ->.
    { apply Nat.ltb_lt. rewrite !length_app. lia. }
    rewrite (parse_spectra_body_ok _ md (length xs)) by first [exact Hc | rewrite !length_app; lia].
    rewrite skipn_length_app, unpack_repeat_Cd, float_list_map_PFloat by exact Hr.
    unfold slice.
    replace (length pre + length xs * 8)%nat with (length (pre ++ concat (map (le_bytes 8) xs)))
      by (rewrite length_app; lia).
    rewrite app_assoc, skipn_length_app. reflexivity.
Qed.

Lemma spectra_roundtrip_witness :
  attr md_axis "channels" = Ok (PInt (Z.of_nat (length [f_one; f_half; f_tenth]))) /\
  (0 < length [f_one; f_half; f_tenth])%nat /\
  Forall (fun x => 0 <= x < 2 ^ 64) [f_one; f_half; f_tenth] /\
  exists bs, wrap_spectra md_axis (PArray [f_one; f_half; f_tenth]) =
               pair_ok bs (Z.of_nat (length [f_one; f_half; f_tenth]) * 8) /\
             length bs = (length [f_one; f_half; f_tenth] * 8)%nat /\
             parse_spectra ([7] ++ bs ++ [1; 2]) md_axis (OffInt (length [7])) =
               Ok (Ran (PArray [f_one; f_half; f_tenth],
                        PBytes (firstn (length [f_one; f_half; f_tenth] * 8) [1; 2]),
                        PInt (Z.of_nat (length (firstn (length [f_one; f_half; f_tenth] * 8) [1; 2]))),
                        OffInt (length [7] + length [f_one; f_half; f_tenth] * 8))).
Proof.
  assert (H1 : attr md_axis "channels" = Ok (PInt (Z.of_nat (length [f_one; f_half; f_tenth]))))
    by (vm_compute; reflexivity).
  assert (H2 : (0 < length [f_one; f_half; f_tenth])%nat) by (simpl; lia).
  assert (H3 : Forall (fun x => 0 <= x < 2 ^ 64) [f_one; f_half; f_tenth])
    by (repeat constructor; unfold f_one, f_half, f_tenth; lia).
  split; [exact H1|]. split; [exact H2|]. split; [exact H3|].
  exact (spectra_roundtrip md_axis [f_one; f_half; f_tenth] [7] [1; 2] H1 H2 H3).
Defined.

(** ** [update] *)

Lemma assoc_replace_same (fs : list string) (vs : list pyval) (k : string) (x : pyval) :
  length fs = length vs -> existsb (String.eqb k) fs = true ->
  assoc_get fs (replace_field fs vs k x) k = Some x.
Proof.
  revert vs. induction fs as [|f fs IH]; intros vs Hl Hin; [discriminate|].
  destruct vs as [|v vs]; [discriminate|]. simpl in Hl, Hin |- *.
  destruct (String.eqb_spec f k) as [->|Hne].
  - reflexivity.
  - rewrite String.eqb_sym in Hin. apply String.eqb_neq in Hne. rewrite Hne in Hin.
    apply IH; [lia | exact Hin].
Qed.

Lemma assoc_replace_other (fs : list string) (vs : list pyval) (k g : string) (x : pyval) :
  g <> k -> assoc_get fs (replace_field fs vs k x) g = assoc_get fs vs g.
Proof.
  intros Hgk. revert vs. induction fs as [|f fs IH]; intros vs; [reflexivity|].
  destruct vs as [|v vs]; [reflexivity|]. simpl.
  destruct (String.eqb_spec f g) as [->|Hne].
  - apply String.eqb_neq in Hgk. rewrite Hgk. reflexivity.
  - apply IH.
Qed.

(** [update(field, x)] on a field of the metadata other than
    [channel1Wavelength], [channels] and [wavelengthStep] replaces the
    metadata by a copy in which that field reads [x] and every other field
    reads as before, and changes nothing else. *)
Theorem update_replaces_field (o : obj) (fs : list string) (vs : list pyval) (field : string) (x : pyval) :
  obj_get o "metadata" = Some (PNT fs vs) -> length fs = length vs ->
  existsb (String.eqb field) fs = true ->
  existsb (String.eqb field) ["channel1Wavelength"; "channels"; "wavelengthStep"] = false ->
  update field x o = (obj_set o "metadata" (PNT fs (replace_field fs vs field x)), Ok tt) /\
  attr (PNT fs (replace_field fs vs field x)) field = Ok x /\
  (forall g, g <> field -> attr (PNT fs (replace_field fs vs field x)) g = attr (PNT fs vs) g).
Proof.
  intros Hm Hl Hin Hax. split; [|split].
  - unfold update, mbind, getd. rewrite Hm. cbn iota beta. rewrite Hin.
    unfold setattr. cbn iota beta. rewrite Hax. reflexivity.
  - unfold attr. rewrite assoc_replace_same by assumption. reflexivity.
  - intros g Hg. unfold attr. rewrite assoc_replace_other by exact Hg. reflexivity.
Qed.

Lemma update_replaces_field_witness :
  let md := PNT ["comments"; "channels"] [PStr []; PInt 3] in
  obj_get (obj_set init_obj "metadata" md) "metadata" = Some md /\
  length ["comments"; "channels"] = length [PStr []; PInt 3] /\
  existsb (String.eqb "comments") ["comments"; "channels"] = true /\
  existsb (String.eqb "comments") ["channel1Wavelength"; "channels"; "wavelengthStep"] = false /\
  (update "comments" (PStr [97]) (obj_set init_obj "metadata" md) =
     (obj_set (obj_set init_obj "metadata" md) "metadata"
        (PNT ["comments"; "channels"] (replace_field ["comments"; "channels"] [PStr []; PInt 3] "comments" (PStr [97]))), Ok tt) /\
   attr (PNT ["comments"; "channels"] (replace_field ["comments"; "channels"] [PStr []; PInt 3] "comments" (PStr [97]))) "comments" = Ok (PStr [97]) /\
   (forall g, g <> "comments" ->
      attr (PNT ["comments"; "channels"] (replace_field ["comments"; "channels"] [PStr []; PInt 3] "comments" (PStr [97]))) g =
      attr (PNT ["comments"; "channels"] [PStr []; PInt 3]) g)).
Proof.
  intros md. split; [reflexivity|]. split; [reflexivity|]. split; [reflexivity|]. split; [reflexivity|].
  exact (update_replaces_field (obj_set init_obj "metadata" md) ["comments"; "channels"] [PStr []; PInt 3]
           "comments" (PStr [97]) eq_refl eq_refl eq_refl eq_refl).
Defined.

(** [update(field, x)] on a name that is not a field of the metadata raises
    [ValueError] and leaves the instance as it was. *)
Theorem update_unknown_field (o : obj) (fs : list string) (vs : list pyval) (field : string) (x : pyval) :
  obj_get o "metadata" = Some (PNT fs vs) -> existsb (String.eqb field) fs = false ->
  update field x o = (o, Raise ValueError).
Proof.
  intros Hm Hin. unfold update, mbind, getd. rewrite Hm. cbn iota beta. rewrite Hin. reflexivity.
Qed.

Lemma update_unknown_field_witness :
  obj_get (obj_set init_obj "metadata" (PNT ["channels"] [PInt 3])) "metadata" =
    Some (PNT ["channels"] [PInt 3]) /\
  existsb (String.eqb "colour") ["channels"] = false /\
  update "colour" PNone (obj_set init_obj "metadata" (PNT ["channels"] [PInt 3])) =
    (obj_set init_obj "metadata" (PNT ["channels"] [PInt 3]), Raise ValueError).
Proof.
  split; [reflexivity|]. split; [reflexivity|].
  apply (update_unknown_field _ ["channels"] [PInt 3]); reflexivity.
Defined.

(** Without metadata ([None]), [update] accepts any field name and does
    nothing, except for [channel1Wavelength], [channels] and
    [wavelengthStep], where recomputing the wavelength axis reads an
    attribute of [None] and raises [AttributeError], again leaving the
    instance as it was. *)
Theorem update_without_metadata (o : obj) (field : string) (x : pyval) :
  obj_get o "metadata" = Some PNone ->
  update field x o =
    (o, if existsb (String.eqb field) ["channel1Wavelength"; "channels"; "wavelengthStep"]
        then Raise AttributeError else Ok tt).
Proof.
  intros Hm. unfold update, mbind, getd, mret. rewrite Hm. cbn iota beta.
  destruct (existsb (String.eqb field) ["channel1Wavelength"; "channels"; "wavelengthStep"]);
    [|reflexivity].
  rewrite Hm. reflexivity.
Qed.

Lemma update_without_metadata_witness :
  obj_get init_obj "metadata" = Some PNone /\
  update "channels" (PInt 4) init_obj =
    (init_obj, if existsb (String.eqb "channels") ["channel1Wavelength"; "channels"; "wavelengthStep"]
               then Raise AttributeError else Ok tt).
Proof. split; [reflexivity|]. apply update_without_metadata. reflexivity. Defined.

(** ** Dates ([__wrap_ASDFilewhen], [__parse_ASDFilewhen]) *)

Lemma to_signed_short (z : Z) : -32768 <= z < 32768 -> to_signed 2 (z mod 2 ^ 16) = z.
Proof.
  intros Hz. unfold to_signed. change (8 * Z.of_nat 2 - 1) with 15. change (8 * Z.of_nat 2) with 16.
  change (2 ^ 15) with 32768. change (2 ^ 16) with 65536.
  destruct (Z_lt_le_dec z 0) as [Hn|Hp].
  - assert (E : z mod 65536 = z + 65536).
    { symmetry. apply (Z.mod_unique _ _ (-1)); lia. }
    rewrite E. destruct (Z.ltb_spec (z + 65536) 32768); lia.
  - rewrite Z.mod_small by lia. destruct (Z.ltb_spec z 32768); lia.
Qed.

Lemma pack_repeat_Ch (std : bool) (zs : list Z) :
  Forall (fun z => -32768 <= z < 32768) zs ->
  pack_codes std (repeat Ch (length zs)) (map PInt zs) = Ok (concat (map (le_bytes 2) zs)).
Proof.
  induction 1 as [|z zs Hz Hzs IH]; [reflexivity|].
  cbn [length repeat map concat pack_codes pack1 pack_int as_index code_size bind].
  change (8 * Z.of_nat 2) with 16. change (2 ^ (16 - 1)) with 32768.
  rewrite (proj2 (Z.leb_le (- (32768)) z)) by lia.
  rewrite (proj2 (Z.ltb_lt z 32768)) by lia.
  cbn [andb bind]. rewrite IH. reflexivity.
Qed.

Lemma unpack_repeat_Ch (std : bool) (zs : list Z) (rest : bytes) :
  Forall (fun z => -32768 <= z < 32768) zs ->
  unpack_codes std (repeat Ch (length zs)) (concat (map (le_bytes 2) zs) ++ rest) = map PInt zs.
Proof.
  induction 1 as [|z zs Hz Hzs IH]; [reflexivity|].
  cbn [length repeat map concat unpack_codes code_size]. rewrite <- app_assoc.
  pose proof (firstn_length_app (le_bytes 2 z) (concat (map (le_bytes 2) zs) ++ rest)) as F.
  pose proof (skipn_length_app (le_bytes 2 z) (concat (map (le_bytes 2) zs) ++ rest)) as S.
  rewrite length_le_bytes in F, S. rewrite F, S, IH. cbn [unpack1 code_size].
  rewrite le_uint_le_bytes. change (8 * Z.of_nat 2) with 16.
  rewrite to_signed_short by exact Hz. reflexivity.
Qed.

Lemma length_concat_le_bytes2 (zs : list Z) :
  length (concat (map (le_bytes 2) zs)) = (length zs * 2)%nat.
Proof.
  induction zs as [|z zs IH]; [reflexivity|].
  cbn [map concat length]. rewrite length_app, length_le_bytes, IH. lia.
Qed.

Lemma days_in_year_bound (y mo d : Z) :
  1 <= mo <= 12 -> 1 <= d <= 31 -> 0 <= ymd2ord y mo d - ymd2ord y 1 1 <= 366.
Proof.
  intros Hm Hd. unfold ymd2ord, days_before_month.
  assert (Hc : mo = 1 \/ mo = 2 \/ mo = 3 \/ mo = 4 \/ mo = 5 \/ mo = 6 \/ mo = 7 \/ mo = 8
               \/ mo = 9 \/ mo = 10 \/ mo = 11 \/ mo = 12) by lia.
  destruct (is_leap y);
    repeat match goal with H : _ \/ _ |- _ => destruct H end; subst mo;
    match goal with |- context [Z.to_nat ?k] =>
      let v := eval vm_compute in (Z.to_nat k) in change (Z.to_nat k) with v end;
    cbn; lia.
Qed.

(** What [__parse_metadata] makes of the bytes [__wrap_ASDFilewhen] writes:
    it unpacks the nine shorts and rebuilds the date from them. *)
Lemma ASDFilewhen_decode (y mo d h mi s f : Z) (dt : pyval) :
  datetime_new y mo d h mi s = Ok dt -> -32768 <= f < 32768 ->
  exists bs, wrap_ASDFilewhen dt (PInt f) = Ok (PBytes bs) /\ length bs = 18%nat /\
    (let* w := unpack_from (pnat (repeat Ch 9)) bs 0 in parse_ASDFilewhen w) =
    (let stored := if 1900 <=? y then y - 1900 else y in
     let* dt' := datetime_new (if stored <? 1900 then stored + 1900 else stored) mo d h mi s in
     Ok (dt', PInt f)).
Proof.
  intros Hdt Hf. pose proof Hdt as Hv. unfold datetime_new in Hv.
  destruct ((1 <=? y) && (y <=? 9999) && (1 <=? mo) && (mo <=? 12)
     && (1 <=? d) && (d <=? days_in_month y mo)
     && (0 <=? h) && (h <=? 23) && (0 <=? mi) && (mi <=? 59) && (0 <=? s) && (s <=? 59)) eqn:Hc;
    [|discriminate].
  injection Hv as <-. rewrite !Bool.andb_true_iff, !Z.leb_le in Hc.
  assert (Hdm : days_in_month y mo <= 31).
  { unfold days_in_month. destruct (mo =? 2); [destruct (is_leap y); lia|].
    destruct ((mo =? 4) || (mo =? 6) || (mo =? 9) || (mo =? 11)); lia. }
  pose proof (days_in_year_bound y mo d ltac:(lia) ltac:(lia)) as Hdy.
  set (stored := if 1900 <=? y then y - 1900 else y).
  assert (Hst : 0 <= stored <= 8099) by (subst stored; destruct (Z.leb_spec 1900 y); lia).
  set (zs := [s; mi; h; d; mo - 1; stored; (weekday y mo d + 1) mod 7;
              ymd2ord y mo d - ymd2ord y 1 1; f]).
  assert (Hr : Forall (fun z => -32768 <= z < 32768) zs).
  { pose proof (Z.mod_pos_bound (weekday y mo d + 1) 7 ltac:(lia)).
    subst zs; repeat constructor; lia. }
  exists (concat (map (le_bytes 2) zs)). split; [|split].
  - unfold wrap_ASDFilewhen. cbn [dt_fields bind]. unfold pack, pnat. cbn [f_std f_codes].
    change (repeat Ch 9) with (repeat Ch (length zs)).
    change [PInt s; PInt mi; PInt h; PInt d; PInt (mo - 1); PInt stored;
            PInt ((weekday y mo d + 1) mod 7); PInt (ymd2ord y mo d - ymd2ord y 1 1); PInt f]
      with (map PInt zs).
    rewrite pack_repeat_Ch by exact Hr. reflexivity.
  - rewrite length_concat_le_bytes2. reflexivity.
  - assert (Hle : (0 + calcsize (pnat (repeat Ch 9)) <=? length (concat (map (le_bytes 2) zs)))%nat = true)
      by (rewrite length_concat_le_bytes2; reflexivity).
    unfold unpack_from. rewrite Hle. cbn [skipn f_std f_codes pnat bind].
    change (repeat Ch 9) with (repeat Ch (length zs)).
    rewrite <- (app_nil_r (concat (map (le_bytes 2) zs))).
    rewrite unpack_repeat_Ch by exact Hr. cbn [bind].
    subst zs. cbn [map]. unfold parse_ASDFilewhen, int_at. cbn [nth].
    replace (mo - 1 + 1) with mo by lia. reflexivity.
Qed.

(** A date of the years 1900 to 3799 written by [__wrap_ASDFilewhen] (with
    a daylight-saving flag that fits a short) is read back by
    [__parse_metadata] and [__parse_ASDFilewhen] as the same date and flag,
    from eighteen bytes. *)
Theorem ASDFilewhen_roundtrip (y mo d h mi s f : Z) (dt : pyval) :
  datetime_new y mo d h mi s = Ok dt -> 1900 <= y < 3800 -> -32768 <= f < 32768 ->
  exists bs, wrap_ASDFilewhen dt (PInt f) = Ok (PBytes bs) /\ length bs = 18%nat /\
    (let* w := unpack_from (pnat (repeat Ch 9)) bs 0 in parse_ASDFilewhen w) = Ok (dt, PInt f).
Proof.
  intros Hdt Hy Hf. destruct (ASDFilewhen_decode y mo d h mi s f dt Hdt Hf) as (bs & Hw & Hl & Hr).
  exists bs. split; [exact Hw|]. split; [exact Hl|]. rewrite Hr.
  replace (1900 <=? y) with true by (symmetry; apply Z.leb_le; lia). cbv beta iota zeta.
  replace (y - 1900 <? 1900) with true by (symmetry; apply Z.ltb_lt; lia). cbv beta iota.
  replace (y - 1900 + 1900) with y by lia. rewrite Hdt. reflexivity.
Qed.

Lemma ASDFilewhen_roundtrip_witness :
  datetime_new 2024 2 29 13 5 59 = Ok (PDatetime 2024 2 29 13 5 59) /\
  (1900 <= 2024 < 3800) /\ (-32768 <= 1 < 32768) /\
  exists bs, wrap_ASDFilewhen (PDatetime 2024 2 29 13 5 59) (PInt 1) = Ok (PBytes bs) /\
    length bs = 18%nat /\
    (let* w := unpack_from (pnat (repeat Ch 9)) bs 0 in parse_ASDFilewhen w) =
      Ok (PDatetime 2024 2 29 13 5 59, PInt 1).
Proof.
  split; [vm_compute; reflexivity|]. split; [lia|]. split; [lia|].
  apply (ASDFilewhen_roundtrip 2024 2 29 13 5 59 1); [vm_compute; reflexivity | lia | lia].
Defined.

(** Outside the years 1900 to 3799 the date read back is not the date
    written: a year [y] before 1900 is written as [y] and read as
    [y + 1900], a year [y] from 3800 on is written as [y - 1900] and read as
    that, with the other fields kept (so that the read raises [ValueError]
    when the day does not exist in the new year, as 29 February 1600 read as
    3500). *)
Theorem ASDFilewhen_year_shift (y mo d h mi s f : Z) (dt : pyval) :
  datetime_new y mo d h mi s = Ok dt -> -32768 <= f < 32768 ->
  exists bs, wrap_ASDFilewhen dt (PInt f) = Ok (PBytes bs) /\
    (y < 1900 ->
       (let* w := unpack_from (pnat (repeat Ch 9)) bs 0 in parse_ASDFilewhen w) =
       (let* dt' := datetime_new (y + 1900) mo d h mi s in Ok (dt', PInt f))) /\
    (3800 <= y ->
       (let* w := unpack_from (pnat (repeat Ch 9)) bs 0 in parse_ASDFilewhen w) =
       (let* dt' := datetime_new (y - 1900) mo d h mi s in Ok (dt', PInt f))).
Proof.
  intros Hdt Hf. destruct (ASDFilewhen_decode y mo d h mi s f dt Hdt Hf) as (bs & Hw & _ & Hr).
  exists bs. split; [exact Hw|]. split; intros Hy; rewrite Hr.
  - replace (1900 <=? y) with false by (symmetry; apply Z.leb_gt; lia). cbv beta iota zeta.
    replace (y <? 1900) with true by (symmetry; apply Z.ltb_lt; lia). reflexivity.
  - replace (1900 <=? y) with true by (symmetry; apply Z.leb_le; lia). cbv beta iota zeta.
    replace (y - 1900 <? 1900) with false by (symmetry; apply Z.ltb_ge; lia). reflexivity.
Qed.

Lemma ASDFilewhen_year_shift_witness :
  datetime_new 1600 2 29 0 0 0 = Ok (PDatetime 1600 2 29 0 0 0) /\ (-32768 <= 0 < 32768) /\
  exists bs, wrap_ASDFilewhen (PDatetime 1600 2 29 0 0 0) (PInt 0) = Ok (PBytes bs) /\
    (1600 < 1900 ->
       (let* w := unpack_from (pnat (repeat Ch 9)) bs 0 in parse_ASDFilewhen w) =
       (let* dt' := datetime_new (1600 + 1900) 2 29 0 0 0 in Ok (dt', PInt 0))) /\
    (3800 <= 1600 ->
       (let* w := unpack_from (pnat (repeat Ch 9)) bs 0 in parse_ASDFilewhen w) =
       (let* dt' := datetime_new (1600 - 1900) 2 29 0 0 0 in Ok (dt', PInt 0))).
Proof.
  split; [vm_compute; reflexivity|]. split; [lia|].
  apply (ASDFilewhen_year_shift 1600 2 29 0 0 0 0); [vm_compute; reflexivity | lia].
Defined.

(** ** Reference file header *)

Lemma to_signed_mod (n : nat) (z : Z) :
  (0 < n)%nat -> - 2 ^ (8 * Z.of_nat n - 1) <= z < 2 ^ (8 * Z.of_nat n - 1) ->
  to_signed n (z mod 2 ^ (8 * Z.of_nat n)) = z.
Proof.
  intros Hn Hz. unfold to_signed.
  assert (Hw : 2 ^ (8 * Z.of_nat n) = 2 * 2 ^ (8 * Z.of_nat n - 1)).
  { rewrite <- Z.pow_succ_r by lia. f_equal. lia. }
  assert (Hp : 0 < 2 ^ (8 * Z.of_nat n - 1)) by (apply Z.pow_pos_nonneg; lia).
  rewrite Hw. destruct (Z_lt_le_dec z 0) as [Hneg|Hpos].
  - assert (E : z mod (2 * 2 ^ (8 * Z.of_nat n - 1)) = z + 2 * 2 ^ (8 * Z.of_nat n - 1)).
    { symmetry. apply (Z.mod_unique _ _ (-1)); lia. }
    rewrite E. destruct (Z.ltb_spec (z + 2 * 2 ^ (8 * Z.of_nat n - 1)) (2 ^ (8 * Z.of_nat n - 1))); lia.
  - rewrite Z.mod_small by lia. destruct (Z.ltb_spec z (2 ^ (8 * Z.of_nat n - 1))); lia.
Qed.

Lemma pack_qq (rt st : Z) :
  - 2 ^ 63 <= rt < 2 ^ 63 -> - 2 ^ 63 <= st < 2 ^ 63 ->
  pack (pnat [Cq; Cq]) [PInt rt; PInt st] = Ok (le_bytes 8 rt ++ le_bytes 8 st).
Proof.
  intros Hr Hs. unfold pack, pnat.
  cbn [f_std f_codes pack_codes pack1 pack_int as_index code_size bind].
  change (8 * Z.of_nat 8) with 64. change (64 - 1) with 63.
  rewrite (proj2 (Z.leb_le (- 2 ^ 63) rt)), (proj2 (Z.ltb_lt rt (2 ^ 63))) by lia.
  rewrite (proj2 (Z.leb_le (- 2 ^ 63) st)), (proj2 (Z.ltb_lt st (2 ^ 63))) by lia.
  cbn [andb bind]. rewrite app_nil_r. reflexivity.
Qed.

Lemma unpack_qq (rt st : Z) (pre rest : bytes) :
  - 2 ^ 63 <= rt < 2 ^ 63 -> - 2 ^ 63 <= st < 2 ^ 63 ->
  unpack_at (pnat [Cq; Cq]) (pre ++ le_bytes 8 rt ++ le_bytes 8 st ++ rest) (OffInt (length pre)) =
    Ok [PInt rt; PInt st].
Proof.
  intros Hr Hs. unfold unpack_at, unpack_from, calcsize, pnat.
  cbn [f_std f_codes fold_right code_size].
  rewrite (proj2 (Nat.leb_le _ _)) by (rewrite !length_app, !length_le_bytes; lia).
  rewrite skipn_length_app. cbn [unpack_codes code_size].
  pose proof (firstn_length_app (le_bytes 8 rt) (le_bytes 8 st ++ rest)) as F1.
  pose proof (skipn_length_app (le_bytes 8 rt) (le_bytes 8 st ++ rest)) as S1.
  pose proof (firstn_length_app (le_bytes 8 st) rest) as F2.
  rewrite length_le_bytes in F1, S1, F2. rewrite F1, S1, F2. cbn [unpack1 code_size].
  rewrite !le_uint_le_bytes, !to_signed_mod by (simpl; lia). reflexivity.
Qed.

Lemma py_slice_inner (buf : bytes) (a b : nat) :
  (a <= b <= length buf)%nat ->
  py_slice buf (Z.of_nat a) (Some (Z.of_nat b)) = firstn (b - a) (skipn a buf).
Proof.
  intros H. unfold py_slice, slice_index.
  rewrite (proj2 (Z.ltb_ge (Z.of_nat a) 0)), (proj2 (Z.ltb_ge (Z.of_nat b) 0)) by lia.
  rewrite !Nat2Z.id, !Nat.min_l by lia. reflexivity.
Qed.

(** [__wrap_referenceFileHeader] writes the Boolean sentinel of the
    reference flag, the two times as signed 64-bit integers, and the
    description as a counted string; [__parse_referenceFileHeader] reading
    those bytes back at the same position stores a header with the flag as
    a [bool], the same times and description, and exactly the bytes written
    as its [byteStream], and returns the offset just past them. *)
Theorem referenceFileHeader_roundtrip (rfh flag : pyval) (b : bool) (rt st : Z)
    (s pre rest : bytes) (o : obj) :
  attr rfh "referenceFlag" = Ok flag -> truthy flag = Ok b ->
  attr rfh "referenceTime" = Ok (PInt rt) -> attr rfh "spectrumTime" = Ok (PInt st) ->
  - 2 ^ 63 <= rt < 2 ^ 63 -> - 2 ^ 63 <= st < 2 ^ 63 ->
  attr rfh "referenceDescription" = Ok (PStr s) ->
  utf8_valid s = true -> Z.of_nat (length s) < 32768 ->
  let bs := (if b then [255; 255] else [0; 0]) ++ le_bytes 8 rt ++ le_bytes 8 st ++
            le_bytes 2 (Z.of_nat (length s)) ++ s in
  obj_get o "_ASDFile__asdFileStream" = Some (PBytes (pre ++ bs ++ rest)) ->
  wrap_referenceFileHeader rfh = pair_ok bs (Z.of_nat (length bs)) /\
  parse_referenceFileHeader (OffInt (length pre)) o =
    (obj_set o "referenceFileHeader"
       (PNT referenceFileHeader_fields
          [PBool b; PInt rt; PInt st; PStr s; PBytes bs; PInt (Z.of_nat (length bs))]),
     Ok (Ran (OffInt (length pre + length bs)))).
Proof.
  intros Hf Ht Hrt Hst Hr Hs Hd Hu Hl bs Ho.
  destruct (bstr_codec s (pre ++ (if b then [255; 255] else [0; 0]) ++ le_bytes 8 rt ++ le_bytes 8 st)
              rest Hu Hl) as [Hw Hp].
  split.
  - unfold wrap_referenceFileHeader. rewrite Hf. cbn [bind]. unfold wrap_Bool. rewrite Ht.
    cbn [bind]. rewrite Hrt, Hst. cbn [bind]. rewrite pack_qq by assumption. cbn [bind].
    rewrite Hd. cbn [bind]. rewrite Hw. unfold pair_ok.
    cbn [bind unpack2 concat_all py_concat py_add py_arith catch].
    subst bs. rewrite !length_app, !length_le_bytes.
    replace (Z.of_nat 2) with 2 by reflexivity.
    destruct b; cbn [length]; repeat f_equal; lia.
  - set (fb := if b then [255; 255] else [0; 0]) in *.
    assert (HB : parse_Bool (pre ++ bs ++ rest) (OffInt (length pre)) =
                 Ok (PBool b, OffInt (length pre + 2))).
    { destruct (Bool_codec flag b pre (le_bytes 8 rt ++ le_bytes 8 st ++
                  le_bytes 2 (Z.of_nat (length s)) ++ s ++ rest) Ht) as (bs0 & Hw0 & Hp0).
      unfold wrap_Bool in Hw0. rewrite Ht in Hw0. cbn [bind] in Hw0. injection Hw0 as <-.
      rewrite <- Hp0. subst bs. f_equal. rewrite <- !app_assoc. reflexivity. }
    assert (HQ : unpack_at (pnat [Cq; Cq]) (pre ++ bs ++ rest) (OffInt (length pre + 2)) =
                 Ok [PInt rt; PInt st]).
    { replace (length pre + 2)%nat with (length (pre ++ fb)) by
        (rewrite length_app; subst fb; destruct b; reflexivity).
      rewrite <- (unpack_qq rt st (pre ++ fb) (le_bytes 2 (Z.of_nat (length s)) ++ s ++ rest) Hr Hs).
      subst bs. rewrite <- !app_assoc. reflexivity. }
    assert (HS : parse_bstr (pre ++ bs ++ rest) (OffInt (length pre + 2 + 16)) =
                 Ok (PStr s, OffInt (length pre + length bs))).
    { replace (length pre + 2 + 16)%nat
        with (length (pre ++ fb ++ le_bytes 8 rt ++ le_bytes 8 st)) by
        (rewrite !length_app, !length_le_bytes; subst fb; destruct b; cbn [length]; lia).
      replace (length pre + length bs)%nat
        with (length (pre ++ fb ++ le_bytes 8 rt ++ le_bytes 8 st) + 2 + length s)%nat by
        (subst bs; rewrite !length_app, !length_le_bytes; lia).
      rewrite <- Hp. subst bs. rewrite <- !app_assoc. reflexivity. }
    assert (HL : (length pre <? length (pre ++ bs ++ rest))%nat = true).
    { apply Nat.ltb_lt. subst bs fb. rewrite !length_app. destruct b; cbn [length]; lia. }
    assert (HSl : py_slice (pre ++ bs ++ rest) (Z.of_nat (length pre))
                    (off_end (OffInt (length pre + length bs))) = bs).
    { cbn [off_end]. rewrite py_slice_inner by (rewrite !length_app; lia).
      replace (length pre + length bs - length pre)%nat with (length bs) by lia.
      rewrite skipn_length_app, firstn_length_app. reflexivity. }
    unfold parse_referenceFileHeader, check_offset_m, try_except, mbind, stream, lift, setattr, mret.
    cbv beta iota. rewrite Ho. cbv beta iota. rewrite HL. cbv beta iota. rewrite Ho.
    cbv beta iota. rewrite HB. cbv beta iota. rewrite HQ. cbn [off_add]. rewrite HS.
    cbv beta iota. rewrite HSl. reflexivity.
Qed.

Lemma referenceFileHeader_roundtrip_witness :
  let rfh := PNT referenceFileHeader_fields
               [PBool true; PInt 5; PInt (-3); PStr [119]; PBytes []; PInt 0] in
  let bs := (if true then [255; 255] else [0; 0]) ++ le_bytes 8 5 ++ le_bytes 8 (-3) ++
            le_bytes 2 (Z.of_nat (length [119])) ++ [119] in
  let o := obj_set init_obj "_ASDFile__asdFileStream" (PBytes ([9] ++ bs ++ [1])) in
  attr rfh "referenceFlag" = Ok (PBool true) /\ truthy (PBool true) = Ok true /\
  attr rfh "referenceTime" = Ok (PInt 5) /\ attr rfh "spectrumTime" = Ok (PInt (-3)) /\
  attr rfh "referenceDescription" = Ok (PStr [119]) /\ utf8_valid [119] = true /\
  obj_get o "_ASDFile__asdFileStream" = Some (PBytes ([9] ++ bs ++ [1])) /\
  wrap_referenceFileHeader rfh = pair_ok bs (Z.of_nat (length bs)) /\
  parse_referenceFileHeader (OffInt (length [9])) o =
    (obj_set o "referenceFileHeader"
       (PNT referenceFileHeader_fields
          [PBool true; PInt 5; PInt (-3); PStr [119]; PBytes bs; PInt (Z.of_nat (length bs))]),
     Ok (Ran (OffInt (length [9] + length bs)))).
Proof.
  intros rfh bs o.
  do 7 (split; [vm_compute; reflexivity|]).
  apply (referenceFileHeader_roundtrip rfh (PBool true) true 5 (-3) [119] [9] [1] o);
    first [vm_compute; reflexivity | lia].
Defined.

(** ** Constituents *)

Lemma pack1_fits (std : bool) (c : scode) (v : pyval) :
  fits std c v = true ->
  exists bs, pack1 std c v = Ok bs /\ length bs = code_size std c /\ unpack1 std c bs = v.
Proof.
  intros H.
  assert (Hsig : forall n z, (0 < n)%nat ->
            (- 2 ^ (8 * Z.of_nat n - 1) <=? z) && (z <? 2 ^ (8 * Z.of_nat n - 1)) = true ->
            pack_int n true (PInt z) = Ok (le_bytes n z) /\
            to_signed n (le_uint (le_bytes n z)) = z).
  { intros n z Hn Hz. unfold pack_int. cbn [as_index bind]. rewrite Hz.
    split; [reflexivity|]. apply andb_true_iff in Hz as [H1 H2].
    apply Z.leb_le in H1. apply Z.ltb_lt in H2.
    rewrite le_uint_le_bytes. apply to_signed_mod; lia. }
  assert (Huns : forall n z, (0 <=? z) && (z <? 2 ^ (8 * Z.of_nat n)) = true ->
            pack_int n false (PInt z) = Ok (le_bytes n z) /\ le_uint (le_bytes n z) = z).
  { intros n z Hz. unfold pack_int. cbn [as_index bind]. rewrite Hz.
    split; [reflexivity|]. apply andb_true_iff in Hz as [H1 H2].
    apply Z.leb_le in H1. apply Z.ltb_lt in H2.
    rewrite le_uint_le_bytes. apply Z.mod_small; lia. }
  destruct c, v as [| | z | x | bs | | | | | |]; cbn [fits] in H; try discriminate;
    try (match goal with |- context [pack1 std ?c (PInt _)] =>
           destruct (Hsig (code_size std c) z ltac:(unfold code_size, native_long_size; destruct std; lia) H) as [E1 E2] end;
         cbn [pack1 unpack1]; rewrite E1; eexists; split; [reflexivity|];
         rewrite E2, length_le_bytes; split; reflexivity);
    try (match goal with |- context [pack1 std ?c (PInt _)] =>
           destruct (Huns (code_size std c) z H) as [E1 E2] end;
         cbn [pack1 unpack1]; rewrite E1; eexists; split; [reflexivity|];
         rewrite E2, length_le_bytes; split; reflexivity).
  - (* Cf *)
    unfold f32_exact in H. destruct (narrow64 x) as [u|] eqn:En; [|discriminate].
    apply andb_true_iff in H as [H H3]. apply andb_true_iff in H as [H1 H2].
    apply Z.leb_le in H1. apply Z.ltb_lt in H2. apply Z.eqb_eq in H3.
    exists (le_bytes 4 u). cbn [pack1 as_float bind unpack1 code_size]. rewrite En.
    cbn [bind]. rewrite length_le_bytes, le_uint_le_bytes, Z.mod_small by (simpl; lia).
    rewrite H3. auto.
  - (* Cd *)
    exists (le_bytes 8 x). cbn [pack1 as_float bind unpack1 code_size].
    apply andb_true_iff in H as [H1 H2]. apply Z.leb_le in H1. apply Z.ltb_lt in H2.
    rewrite length_le_bytes, le_uint_le_bytes, Z.mod_small by (simpl; lia). auto.
  - (* Cs *)
    apply Nat.eqb_eq in H. exists bs. cbn [pack1 unpack1 code_size].
    rewrite <- H, firstn_all, Nat.sub_diag, app_nil_r. auto.
Qed.

Lemma pack_unpack_codes (std : bool) (cs : list scode) (vs : list pyval) :
  all_fit std cs vs = true ->
  exists bs, pack_codes std cs vs = Ok bs /\ length bs = calcsize (Fmt std cs) /\
             forall rest, unpack_codes std cs (bs ++ rest) = vs.
Proof.
  revert vs. induction cs as [|c cs IH]; intros vs H; destruct vs as [|v vs]; try discriminate.
  - exists []. repeat split.
  - cbn [all_fit] in H. apply andb_true_iff in H as [H1 H2].
    destruct (pack1_fits std c v H1) as (b & Eb & Lb & Ub).
    destruct (IH vs H2) as (r & Er & Lr & Ur).
    exists (b ++ r). cbn [pack_codes]. rewrite Eb. cbn [bind]. rewrite Er.
    split; [reflexivity|]. split.
    + unfold calcsize in *. cbn [f_std f_codes fold_right] in *. rewrite length_app. lia.
    + intros rest. cbn [unpack_codes]. rewrite <- app_assoc, <- Lb.
      rewrite firstn_length_app, skipn_length_app, Ub, Ur. reflexivity.
Qed.

Lemma all_fit_length (std : bool) (cs : list scode) (vs : list pyval) :
  all_fit std cs vs = true -> length vs = length cs.
Proof.
  revert vs. induction cs as [|c cs IH]; intros [|v vs] H; try discriminate; [reflexivity|].
  cbn [all_fit] in H. apply andb_true_iff in H as [_ H]. cbn [length]. f_equal. apply IH, H.
Qed.

Lemma unpack_from_at (f : sfmt) (pre bs rest : bytes) :
  length bs = calcsize f ->
  unpack_from f (pre ++ bs ++ rest) (length pre) = Ok (unpack_codes (f_std f) (f_codes f) (bs ++ rest)).
Proof.
  intros Hl. unfold unpack_from.
  rewrite (proj2 (Nat.leb_le _ _)) by (rewrite !length_app; lia).
  rewrite skipn_length_app. reflexivity.
Qed.

Lemma constituant_codec (nm pf : bytes) (vs : list pyval) (pre rest : bytes) :
  utf8_valid nm = true -> Z.of_nat (length nm) < 32768 ->
  utf8_valid pf = true -> Z.of_nat (length pf) < 32768 ->
  all_fit true (f_codes constituent_fmt) vs = true ->
  exists bs,
    wrap_constituantType (PNT constituent_fields (PStr nm :: PStr pf :: vs)) =
      pair_ok bs (Z.of_nat (length bs)) /\
    parse_constituantType (pre ++ bs ++ rest) (OffInt (length pre)) =
      Ok (PNT constituent_fields (PStr nm :: PStr pf :: vs), OffInt (length pre + length bs)).
Proof.
  intros Hun Hln Hup Hlp Hfit.
  destruct (pack_unpack_codes true (f_codes constituent_fmt) vs Hfit) as (pb & Ep & Lp & Up).
  pose proof (all_fit_length _ _ _ Hfit) as Hvl. cbn in Hvl.
  set (hn := le_bytes 2 (Z.of_nat (length nm))) in *.
  set (hp := le_bytes 2 (Z.of_nat (length pf))) in *.
  exists ((hn ++ nm) ++ (hp ++ pf) ++ pb). split.
  - destruct (bstr_codec nm [] [] Hun Hln) as [Wn _].
    destruct (bstr_codec pf [] [] Hup Hlp) as [Wp _].
    destruct vs as [|v1 [|v2 [|v3 [|v4 [|v5 [|v6 [|v7 [|v8 [|v9 [|v10 [|v11 [|v12 [|]]]]]]]]]]]]];
      try discriminate.
    set (item := PNT constituent_fields
                   [PStr nm; PStr pf; v1; v2; v3; v4; v5; v6; v7; v8; v9; v10; v11; v12]).
    assert (A1 : attr item "constituentName" = Ok (PStr nm)) by reflexivity.
    assert (A2 : attr item "passFail" = Ok (PStr pf)) by reflexivity.
    assert (A3 : fold_right (fun k acc => let* v := attr item k in let* vs := acc in Ok (v :: vs))
                   (Ok []) (skipn 2 constituent_fields) =
                 Ok [v1; v2; v3; v4; v5; v6; v7; v8; v9; v10; v11; v12]) by reflexivity.
    unfold wrap_constituantType, bstr_bytes. rewrite A1. cbn [bind].
    rewrite Wn. cbn [bind unpack2 pair_ok]. rewrite A2. cbn [bind]. rewrite Wp.
    cbn [bind unpack2 pair_ok]. rewrite A3. cbn [bind].
    unfold pack. change (f_std constituent_fmt) with true. rewrite Ep.
    cbn [bind concat_all py_concat catch].
    rewrite !app_assoc. reflexivity.
  - set (buf := pre ++ ((hn ++ nm) ++ (hp ++ pf) ++ pb) ++ rest).
    assert (Hn : (length hn = 2)%nat) by apply length_le_bytes.
    assert (Hp : (length hp = 2)%nat) by apply length_le_bytes.
    assert (B1 : parse_bstr buf (OffInt (length pre)) =
                 Ok (PStr nm, OffInt (length pre + 2 + length nm))).
    { rewrite <- (proj2 (bstr_codec nm pre ((hp ++ pf) ++ pb ++ rest) Hun Hln)).
      subst buf. rewrite <- !app_assoc. reflexivity. }
    assert (B2 : parse_bstr buf (OffInt (length pre + 2 + length nm)) =
                 Ok (PStr pf, OffInt (length pre + 2 + length nm + 2 + length pf))).
    { replace (length pre + 2 + length nm)%nat with (length (pre ++ hn ++ nm))
        by (rewrite !length_app; lia).
      rewrite <- (proj2 (bstr_codec pf (pre ++ hn ++ nm) (pb ++ rest) Hup Hlp)).
      subst buf. rewrite <- !app_assoc. reflexivity. }
    assert (U : unpack_at constituent_fmt buf (OffInt (length pre + 2 + length nm + 2 + length pf)) =
                Ok vs).
    { replace (length pre + 2 + length nm + 2 + length pf)%nat
        with (length (pre ++ hn ++ nm ++ hp ++ pf)) by (rewrite !length_app; lia).
      cbn [unpack_at]. rewrite <- (Up rest).
      replace buf with ((pre ++ hn ++ nm ++ hp ++ pf) ++ pb ++ rest)
        by (subst buf; rewrite <- !app_assoc; reflexivity).
      apply unpack_from_at. exact Lp. }
    assert (Hlt : (length pre <? length buf)%nat = true).
    { apply Nat.ltb_lt. subst buf. rewrite !length_app. lia. }
    unfold parse_constituantType, check_offset. rewrite Hlt. cbn [bind].
    unfold parse_constituantType_body. rewrite B1. cbn [bind]. rewrite B2. cbn [bind].
    rewrite U. cbn [bind off_add catch].
    replace (length pre + 2 + length nm + 2 + length pf + calcsize constituent_fmt)%nat
      with (length pre + length ((hn ++ nm) ++ (hp ++ pf) ++ pb))%nat
      by (change (calcsize constituent_fmt) with 92%nat;
          change (calcsize (Fmt true (f_codes constituent_fmt))) with 92%nat in Lp;
          rewrite !length_app, Lp; lia).
    reflexivity.
Qed.

(** [__wrap_constituantType] followed by [__parse_constituantType] at the
    same position gives back the same material-report item: its two counted
    strings (well-formed UTF-8 of fewer than 32768 bytes) and its twelve
    numbers, when each number is one that ['<d d d d d d d d d l d d']
    packs and unpacks unchanged; the offset returned is the one just past
    the bytes written. *)
Theorem constituantType_roundtrip (nm pf : bytes) (vs : list pyval) (pre rest : bytes) :
  utf8_valid nm = true -> Z.of_nat (length nm) < 32768 ->
  utf8_valid pf = true -> Z.of_nat (length pf) < 32768 ->
  all_fit true (f_codes constituent_fmt) vs = true ->
  exists bs,
    wrap_constituantType (PNT constituent_fields (PStr nm :: PStr pf :: vs)) =
      pair_ok bs (Z.of_nat (length bs)) /\
    parse_constituantType (pre ++ bs ++ rest) (OffInt (length pre)) =
      Ok (PNT constituent_fields (PStr nm :: PStr pf :: vs), OffInt (length pre + length bs)).
Proof. exact (constituant_codec nm pf vs pre rest). Qed.

Lemma constituantType_roundtrip_witness :
  let vs := [PFloat 0; PFloat 1; PFloat 2; PFloat 3; PFloat 4; PFloat 5; PFloat 6; PFloat 7;
             PFloat 8; PInt (-1); PFloat 9; PFloat 10] in
  utf8_valid [65] = true /\ Z.of_nat (length [65]) < 32768 /\
  utf8_valid [80] = true /\ Z.of_nat (length [80]) < 32768 /\
  all_fit true (f_codes constituent_fmt) vs = true /\
  exists bs,
    wrap_constituantType (PNT constituent_fields (PStr [65] :: PStr [80] :: vs)) =
      pair_ok bs (Z.of_nat (length bs)) /\
    parse_constituantType ([7] ++ bs ++ [8]) (OffInt (length [7])) =
      Ok (PNT constituent_fields (PStr [65] :: PStr [80] :: vs), OffInt (length [7] + length bs)).
Proof.
  intros vs. do 5 (split; [vm_compute; reflexivity|]).
  apply constituantType_roundtrip; vm_compute; reflexivity.
Defined.

(** ** Calibration header *)

Lemma drop_nul_repeat_app (k : nat) (r : bytes) : drop_nul (repeat 0 k ++ r) = drop_nul r.
Proof. induction k as [|k IH]; [reflexivity|]. exact IH. Qed.

Lemma drop_nul_app (l r : bytes) :
  drop_nul (l ++ r) = match drop_nul l with [] => drop_nul r | d => d ++ r end.
Proof.
  induction l as [|x l IH]; [reflexivity|].
  destruct x as [|p|p]; cbn [app drop_nul]; [exact IH | reflexivity | reflexivity].
Qed.

Lemma strip0_pad (l : bytes) (k : nat) : strip0 (l ++ repeat 0 k) = strip0 l.
Proof.
  unfold strip0. rewrite drop_nul_app.
  destruct (drop_nul l) as [|x d] eqn:E.
  - replace (repeat 0 k) with (repeat 0 k ++ []) by apply app_nil_r.
    rewrite drop_nul_repeat_app. reflexivity.
  - rewrite rev_app_distr, rev_repeat, drop_nul_repeat_app. reflexivity.
Qed.

Lemma cal_entries_codec (ss : list pyval) :
  forallb cal_entry_ok ss = true ->
  exists ebs,
    map_res (fun e =>
               match e with
               | PTuple [t; nm; it; g1; g2] =>
                   let* nm' := py_ljust nm 20 in
                   pack calibration_entry_fmt [t; nm'; it; g1; g2]
               | _ => Raise ValueError
               end) ss = Ok ebs /\
    length (concat ebs) = (29 * length ss)%nat /\
    forall pre rest,
      parse_calibration_entries (length ss) (pre ++ concat ebs ++ rest) (length pre) =
        Ok (ss, (length pre + 29 * length ss)%nat).
Proof.
  induction ss as [|e ss IH]; intros H.
  - exists []. split; [reflexivity|]. split; [reflexivity|].
    intros pre rest. cbn. rewrite Nat.add_0_r. reflexivity.
  - cbn [forallb] in H. apply andb_true_iff in H as [He Hs].
    destruct (IH Hs) as (ebs & Em & Lm & Pm).
    destruct e as [| | | | | | vs | | | | ]; try discriminate.
    destruct vs as [|t [|[| | | |nm| | | | | |] [|it [|g1 [|g2 [|]]]]]]; try discriminate.
    cbn [cal_entry_ok] in He. apply andb_true_iff in He as [Hf Hn].
    destruct (list_eq_dec Z.eq_dec (strip0 nm) nm) as [Hst|]; [|discriminate].
    destruct (pack_unpack_codes true _ _ Hf) as (eb & Eb & Lb & Ub).
    exists (eb :: ebs). split.
    + assert (Eb2 : pack calibration_entry_fmt [t; PBytes (ljust0 nm 20); it; g1; g2] = Ok eb)
        by (unfold pack; exact Eb).
      cbn [map_res py_ljust bind]. rewrite Eb2. cbn [bind]. rewrite Em. reflexivity.
    + change (calcsize (Fmt true (f_codes calibration_entry_fmt))) with 29%nat in Lb.
      split.
      * cbn [concat length]. rewrite length_app, Lb, Lm. lia.
      * intros pre rest. cbn [length parse_calibration_entries concat].
        rewrite <- app_assoc.
        rewrite (unpack_from_at calibration_entry_fmt pre eb (concat ebs ++ rest) Lb).
        change (f_std calibration_entry_fmt) with true. rewrite Ub. cbn [bind as_bytes].
        unfold ljust0. rewrite strip0_pad, Hst.
        change (calcsize calibration_entry_fmt) with 29%nat.
        replace (length pre + 29)%nat with (length (pre ++ eb)) by (rewrite length_app, Lb; reflexivity).
        rewrite app_assoc, Pm. cbn [bind]. rewrite length_app, Lb.
        replace (length pre + 29 + 29 * length ss)%nat with (length pre + 29 * S (length ss))%nat by lia.
        reflexivity.
Qed.

(** [__wrap_calibrationHeader] on a header whose count [calibrationNum] is
    the number of its entries (between 1 and 127), each entry a tuple whose
    type, integration time and gains fit their fields ['b'], ['i'], ['h'],
    ['h'] and whose name is a byte string of at most 20 bytes that neither
    starts nor ends with a NUL byte ([cal_entry_ok]), writes the count byte
    and one 29-byte record per entry; [__parse_calibrationHeader] reading
    those bytes back at the same position stores a header with the same
    count and entries and exactly the bytes written as its [byteStream], and
    returns the offset just past them.  Without these conditions on the
    entries the name does not come back: ['20s'] cuts a longer name and
    [strip(b'\x00')] removes NUL bytes at its ends. *)
Theorem calibrationHeader_roundtrip (ch : pyval) (ss : list pyval) (pre rest : bytes) (o : obj) :
  attr ch "calibrationNum" = Ok (PInt (Z.of_nat (length ss))) ->
  attr ch "calibrationSeries" = Ok (PList ss) ->
  (0 < length ss)%nat -> Z.of_nat (length ss) < 128 ->
  forallb cal_entry_ok ss = true ->
  exists bs,
    wrap_calibrationHeader ch = pair_ok bs (Z.of_nat (length bs)) /\
    length bs = (1 + 29 * length ss)%nat /\
    (obj_get o "_ASDFile__asdFileStream" = Some (PBytes (pre ++ bs ++ rest)) ->
     parse_calibrationHeader (OffInt (length pre)) o =
       (obj_set o "calibrationHeader"
          (PNT calibrationHeader_fields
             [PInt (Z.of_nat (length ss)); PList ss; PBytes bs; PInt (Z.of_nat (length bs))]),
        Ok (Ran (OffInt (length pre + length bs))))).
Proof.
  intros Hnum Hser Hpos Hlt Hs.
  destruct (cal_entries_codec ss Hs) as (ebs & Em & Le & Pe).
  assert (Hfit : all_fit false [Cb] [PInt (Z.of_nat (length ss))] = true).
  { cbn [all_fit fits code_size]. change (8 * Z.of_nat 1 - 1) with 7.
    rewrite (proj2 (Z.leb_le _ _)), (proj2 (Z.ltb_lt _ _)) by (cbn; lia). reflexivity. }
  destruct (pack_unpack_codes false [Cb] _ Hfit) as (nb & Enb & Lnb & Unb).
  change (calcsize (Fmt false [Cb])) with 1%nat in Lnb.
  assert (Enb2 : pack (pnat [Cb]) [PInt (Z.of_nat (length ss))] = Ok nb) by exact Enb.
  exists (nb ++ concat ebs).
  assert (Hlen : length (nb ++ concat ebs) = (1 + 29 * length ss)%nat)
    by (rewrite length_app, Lnb, Le; reflexivity).
  split; [|split; [exact Hlen|]].
  - unfold wrap_calibrationHeader. rewrite Hnum. cbn [bind]. rewrite Enb2. cbn [bind py_gt0].
    rewrite (proj2 (Z.ltb_lt 0 (Z.of_nat (length ss)))) by lia.
    rewrite Hser. cbn [bind as_list]. rewrite Em. reflexivity.
  - intros Ho. set (buf := pre ++ (nb ++ concat ebs) ++ rest).
    assert (HL : (length pre <? length buf)%nat = true).
    { apply Nat.ltb_lt. subst buf. rewrite !length_app, Lnb. lia. }
    assert (HC : unpack_one (pnat [Cb]) buf (OffInt (length pre)) = Ok (PInt (Z.of_nat (length ss)))).
    { unfold unpack_one, unpack_at. subst buf. rewrite <- app_assoc.
      rewrite (unpack_from_at (pnat [Cb]) pre nb (concat ebs ++ rest) Lnb).
      cbn [f_std f_codes pnat]. rewrite Unb. reflexivity. }
    assert (HE : parse_calibration_entries (Z.to_nat (Z.of_nat (length ss))) buf (length pre + 1) =
                 Ok (ss, (length pre + length (nb ++ concat ebs))%nat)).
    { rewrite Nat2Z.id. replace (length pre + 1)%nat with (length (pre ++ nb))
        by (rewrite length_app, Lnb; reflexivity).
      subst buf. rewrite <- app_assoc, app_assoc, Pe, Hlen, length_app, Lnb.
      f_equal. f_equal. lia. }
    assert (HS : py_slice buf (Z.of_nat (length pre))
                   (Some (Z.of_nat (length pre) + 1 +
                          Z.of_nat (calcsize calibration_entry_fmt) * Z.of_nat (length ss))) =
                 nb ++ concat ebs).
    { change (calcsize calibration_entry_fmt) with 29%nat.
      replace (Z.of_nat (length pre) + 1 + Z.of_nat 29 * Z.of_nat (length ss))
        with (Z.of_nat (length pre + length (nb ++ concat ebs))) by (rewrite Hlen; lia).
      rewrite py_slice_inner by (subst buf; rewrite !length_app; lia).
      replace (length pre + length (nb ++ concat ebs) - length pre)%nat
        with (length (nb ++ concat ebs)) by lia.
      subst buf. rewrite skipn_length_app, firstn_length_app. reflexivity. }
    unfold parse_calibrationHeader, check_offset_m, try_except, mbind, stream, lift, setattr, mret.
    cbv beta iota. rewrite Ho. cbv beta iota. fold buf. rewrite HL. cbv beta iota. rewrite Ho.
    cbv beta iota. fold buf. rewrite HC. cbn [py_int]. cbv beta iota zeta.
    rewrite (proj2 (Z.ltb_lt 0 (Z.of_nat (length ss)))) by lia.
    rewrite HE. cbv beta iota. rewrite HS. reflexivity.
Qed.

Lemma calibrationHeader_roundtrip_witness :
  let ss := [PTuple [PInt 0; PBytes [65; 66]; PInt 100; PInt 1; PInt 2];
             PTuple [PInt 1; PBytes [67]; PInt 200; PInt 3; PInt 4]] in
  let ch := PNT calibrationHeader_fields [PInt 2; PList ss; PBytes []; PInt 0] in
  attr ch "calibrationNum" = Ok (PInt (Z.of_nat (length ss))) /\
  attr ch "calibrationSeries" = Ok (PList ss) /\
  (0 < length ss)%nat /\ Z.of_nat (length ss) < 128 /\ forallb cal_entry_ok ss = true /\
  exists bs,
    wrap_calibrationHeader ch = pair_ok bs (Z.of_nat (length bs)) /\
    length bs = (1 + 29 * length ss)%nat /\
    (obj_get init_obj "_ASDFile__asdFileStream" = Some (PBytes ([] ++ bs ++ [])) ->
     parse_calibrationHeader (OffInt (length ([] : bytes))) init_obj =
       (obj_set init_obj "calibrationHeader"
          (PNT calibrationHeader_fields
             [PInt (Z.of_nat (length ss)); PList ss; PBytes bs; PInt (Z.of_nat (length bs))]),
        Ok (Ran (OffInt (length ([] : bytes) + length bs))))).
Proof.
  intros ss ch. do 5 (split; [first [vm_compute; reflexivity | cbn; lia]|]).
  apply calibrationHeader_roundtrip; first [vm_compute; reflexivity | cbn; lia].
Defined.

(** ** Dependent variables *)

Lemma skipn_nth_cons (l : list pyval) (j : nat) :
  (j < length l)%nat -> skipn j l = nth j l PNone :: skipn (S j) l.
Proof.
  revert j. induction l as [|x l IH]; intros j H; [cbn in H; lia|].
  destruct j as [|j]; [reflexivity|]. cbn [skipn nth]. apply IH. cbn in H. lia.
Qed.

Lemma items_upto_list (l : list pyval) :
  Z.of_nat (length l) < 2 ^ 31 -> items_upto (Z.of_nat (length l)) (PList l) = Ok l.
Proof.
  intros _. unfold items_upto. rewrite Nat2Z.id.
  assert (G : forall k j, (j + k <= length l)%nat ->
            map_res (fun i => py_getitem (PList l) (Z.of_nat i)) (seq j k) = Ok (firstn k (skipn j l))).
  { induction k as [|k IH]; intros j Hjk; [reflexivity|].
    cbn [seq map_res]. unfold py_getitem.
    rewrite (proj2 (Z.leb_le _ _)), (proj2 (Z.ltb_lt _ _)) by lia. cbn [andb].
    rewrite (proj2 (Z.ltb_ge _ _)) by lia. rewrite Nat2Z.id. cbn [bind].
    rewrite IH by lia. cbn [bind]. rewrite (skipn_nth_cons l j) by lia. reflexivity. }
  rewrite G by lia. rewrite skipn_O, firstn_all. reflexivity.
Qed.

Lemma concat_all_cons2 (v w : pyval) (r : list pyval) :
  concat_all (v :: w :: r) = (let* t := concat_all (w :: r) in py_concat v t).
Proof. reflexivity. Qed.

Lemma concat_all_bytes (l : list bytes) : concat_all (map PBytes l) = Ok (PBytes (concat l)).
Proof.
  induction l as [|x l IH]; [reflexivity|].
  destruct l as [|y l].
  - cbn. rewrite app_nil_r. reflexivity.
  - cbn [map] in IH |- *. rewrite concat_all_cons2, IH. reflexivity.
Qed.

Lemma bstrs_codec (ls : list bytes) :
  Forall (fun s => utf8_valid s = true /\ Z.of_nat (length s) < 32768) ls ->
  map_res bstr_bytes (map PStr ls) =
    Ok (map PBytes (map (fun s => le_bytes 2 (Z.of_nat (length s)) ++ s) ls)) /\
  forall pre rest,
    parse_bstrs (length ls)
      (pre ++ concat (map (fun s => le_bytes 2 (Z.of_nat (length s)) ++ s) ls) ++ rest)
      (OffInt (length pre)) =
    Ok (map PStr ls,
        OffInt (length pre + length (concat (map (fun s => le_bytes 2 (Z.of_nat (length s)) ++ s) ls)))).
Proof.
  induction 1 as [|s ls [Hu Hl] Hls [IHm IHp]].
  - split; [reflexivity|]. intros pre rest. cbn. rewrite Nat.add_0_r. reflexivity.
  - destruct (bstr_codec s [] [] Hu Hl) as [Hw _]. split.
    + cbn [map map_res]. unfold bstr_bytes at 1. rewrite Hw. cbn [bind unpack2 pair_ok].
      rewrite IHm. reflexivity.
    + intros pre rest. cbn [length map concat parse_bstrs].
      set (tl := concat (map (fun s => le_bytes 2 (Z.of_nat (length s)) ++ s) ls)).
      rewrite <- !app_assoc.
      rewrite (proj2 (bstr_codec s pre (tl ++ rest) Hu Hl)). cbn [bind].
      replace (length pre + 2 + length s)%nat
        with (length (pre ++ le_bytes 2 (Z.of_nat (length s)) ++ s))
        by (rewrite !length_app, length_le_bytes; lia).
      replace (pre ++ le_bytes 2 (Z.of_nat (length s)) ++ s ++ tl ++ rest)
        with ((pre ++ le_bytes 2 (Z.of_nat (length s)) ++ s) ++ tl ++ rest)
        by (rewrite <- !app_assoc; reflexivity).
      rewrite IHp. cbn [bind]. rewrite !length_app. do 3 f_equal. subst tl. lia.
Qed.


Lemma array_preamble_int (c : Z) :
  0 <= c < 2 ^ 32 -> array_preamble (PInt c) = Ok (le_bytes 2 1 ++ le_bytes 4 c ++ le_bytes 4 0).
Proof.
  intros Hc. unfold array_preamble, pack, pnat.
  cbn [f_std f_codes pack_codes pack1 pack_int as_index code_size bind].
  change (8 * Z.of_nat 4) with 32.
  rewrite (proj2 (Z.leb_le 0 c)), (proj2 (Z.ltb_lt c (2 ^ 32))) by lia.
  cbn [andb bind]. rewrite !app_nil_r. reflexivity.
Qed.



(** [__wrap_dependentVariables] on a record whose count is 0 writes the
    flag, the count and four zero bytes, 8 bytes in all, without reading
    the labels or the values; [__parse_dependentVariables] reads these 8
    bytes back as a record whose labels are the empty bytes [b''] and whose
    values are the integer 0, and returns the offset 8 bytes further. *)
Theorem dependants_empty_roundtrip (dp flag : pyval) (b : bool) (pre rest : bytes) (o : obj) :
  attr dp "saveDependentVariables" = Ok flag -> truthy flag = Ok b ->
  attr dp "dependentVariableCount" = Ok (PInt 0) ->
  let bs := (if b then [255; 255] else [0; 0]) ++ [0; 0] ++ [0; 0; 0; 0] in
  wrap_dependentVariables dp = pair_ok bs 8 /\
  (obj_get o "_ASDFile__asdFileStream" = Some (PBytes (pre ++ bs ++ rest)) ->
   parse_dependentVariables (OffInt (length pre)) o =
     (obj_set o "dependants"
        (PNT dependants_fields [PBool b; PInt 0; PBytes []; PInt 0; PBytes bs; PInt 8]),
      Ok (Ran (OffInt (length pre + 8))))).
Proof.
  intros Hs Ht Hc bs.
  set (fb := if b then [255; 255] else [0; 0]) in bs.
  assert (Lfb : length fb = 2%nat) by (subst fb; destruct b; reflexivity).
  assert (Hfb : wrap_Bool flag = Ok (fb, 2%nat)) by (unfold wrap_Bool; rewrite Ht; reflexivity).
  split.
  - unfold wrap_dependentVariables. rewrite Hs. cbn [bind]. rewrite Hfb. cbn [bind].
    rewrite Hc. subst bs fb. destruct b; reflexivity.
  - intros Ho. set (buf := pre ++ bs ++ rest).
    assert (HL : (length pre <? length buf)%nat = true).
    { apply Nat.ltb_lt. subst buf bs. rewrite !length_app, Lfb. cbn [length]. lia. }
    assert (HB : parse_Bool buf (OffInt (length pre)) = Ok (PBool b, OffInt (length pre + 2))).
    { destruct (Bool_codec flag b pre (([0; 0] ++ [0; 0; 0; 0]) ++ rest) Ht) as (bs0 & Hw0 & Hp0).
      rewrite Hfb in Hw0. injection Hw0 as <-. rewrite <- Hp0. subst buf bs.
      rewrite <- !app_assoc. reflexivity. }
    assert (HCnt : unpack_one (pnat [Ch]) buf (OffInt (length pre + 2)) = Ok (PInt 0)).
    { unfold unpack_one, unpack_at.
      replace (length pre + 2)%nat with (length (pre ++ fb)) by (rewrite length_app, Lfb; reflexivity).
      replace buf with ((pre ++ fb) ++ [0; 0] ++ [0; 0; 0; 0] ++ rest)
        by (subst buf bs; rewrite <- !app_assoc; reflexivity).
      rewrite (unpack_from_at (pnat [Ch]) (pre ++ fb) [0; 0] _ eq_refl). reflexivity. }
    assert (HSl : py_slice buf (Z.of_nat (length pre)) (off_end (OffInt (length pre + 2 + 2 + 4))) = bs).
    { cbn [off_end]. rewrite py_slice_inner
        by (subst buf bs; rewrite !length_app, Lfb; cbn [length]; lia).
      replace (length pre + 2 + 2 + 4 - length pre)%nat with (length bs)
        by (subst bs; rewrite !length_app, Lfb; cbn [length]; lia).
      subst buf. rewrite skipn_length_app, firstn_length_app. reflexivity. }
    unfold parse_dependentVariables, check_offset_m, try_except, mbind, stream, lift, setattr, mret.
    cbv beta iota. rewrite Ho. cbv beta iota. fold buf. rewrite HL. cbv beta iota. rewrite Ho.
    cbv beta iota. fold buf. rewrite HB. cbv beta iota. rewrite HCnt. cbn [off_add py_int Z.ltb Z.eqb].
    change (0 <? 0) with false. change (0 =? 0) with true. cbv beta iota. cbn [off_add]. cbv beta iota. rewrite HSl.
    replace (Z.of_nat (length bs)) with 8 by (subst bs; rewrite !length_app, Lfb; reflexivity).
    replace (length pre + 2 + 2 + 4)%nat with (length pre + 8)%nat by lia. reflexivity.
Qed.

Lemma dependants_empty_roundtrip_witness :
  let dp := PNT dependants_fields [PBool false; PInt 0; PList []; PList []; PBytes []; PInt 0] in
  let bs := [0; 0; 0; 0; 0; 0; 0; 0] in
  wrap_dependentVariables dp = pair_ok bs 8 /\
  (obj_get init_obj "_ASDFile__asdFileStream" = Some (PBytes ([] ++ bs ++ [])) ->
   parse_dependentVariables (OffInt (length ([] : bytes))) init_obj =
     (obj_set init_obj "dependants"
        (PNT dependants_fields [PBool false; PInt 0; PBytes []; PInt 0; PBytes bs; PInt 8]),
      Ok (Ran (OffInt (length ([] : bytes) + 8))))).
Proof.
  intros dp bs.
  exact (dependants_empty_roundtrip dp (PBool false) false [] [] init_obj eq_refl eq_refl eq_refl).
Defined.

(** ** Signature *)

Lemma pack_unpack_one (std : bool) (c : scode) (v : pyval) :
  fits std c v = true ->
  exists b, pack (Fmt std [c]) [v] = Ok b /\ length b = code_size std c /\
            forall pre rest, unpack_one (Fmt std [c]) (pre ++ b ++ rest) (OffInt (length pre)) = Ok v.
Proof.
  intros H.
  assert (Hf : all_fit std [c] [v] = true) by (cbn [all_fit]; rewrite H; reflexivity).
  destruct (pack_unpack_codes std [c] [v] Hf) as (b & Eb & Lb & Ub).
  exists b. split; [exact Eb|]. split.
  - rewrite Lb. unfold calcsize. cbn [f_std f_codes fold_right]. lia.
  - intros pre rest. unfold unpack_one, unpack_at.
    rewrite (unpack_from_at (Fmt std [c]) pre b rest Lb). cbn [f_std f_codes]. rewrite Ub.
    reflexivity.
Qed.

Lemma signature_strs (sg : pyval) (ks : list string) (ls : list bytes) :
  Forall2 (fun k s => attr sg k = Ok (PStr s)) ks ls ->
  map_res (fun k => let* v := attr sg k in bstr_bytes v) ks = map_res bstr_bytes (map PStr ls).
Proof.
  induction 1 as [|k s ks ls Hk _ IH]; [reflexivity|].
  cbn [map_res map]. rewrite Hk. cbn [bind]. rewrite IH. reflexivity.
Qed.

(** [__wrap_signature] on a record whose [signed] fits a signed byte, whose
    [signatureTime] fits a signed 64-bit integer, whose [signature] is a
    byte string of exactly 128 bytes and whose seven string fields are
    well-formed UTF-8 of fewer than 32768 bytes, followed by
    [__parse_signature] on the bytes written, at the same position, stores
    a record with the same twelve fields' values (the bytes written as its
    [byteStream]) and returns the offset just past them. *)
Theorem signature_roundtrip (sg s t g : pyval) (ls : list bytes) (pre rest : bytes) (o : obj) :
  attr sg "signed" = Ok s -> attr sg "signatureTime" = Ok t -> attr sg "signature" = Ok g ->
  Forall2 (fun k x => attr sg k = Ok (PStr x))
    ["userDomain"; "userLogin"; "userName"; "source"; "reason"; "notes"; "publicKey"] ls ->
  Forall (fun x => utf8_valid x = true /\ Z.of_nat (length x) < 32768) ls ->
  all_fit false [Cb; Cq; Cs 128] [s; t; g] = true ->
  exists bs,
    wrap_signature sg = pair_ok bs (Z.of_nat (length bs)) /\
    (obj_get o "_ASDFile__asdFileStream" = Some (PBytes (pre ++ bs ++ rest)) ->
     parse_signature (OffInt (length pre)) o =
       (obj_set o "signature"
          (PNT signature_fields ([s; t] ++ map PStr ls ++ [g; PBytes bs; PInt (Z.of_nat (length bs))])),
        Ok (Ran (OffInt (length pre + length bs))))).
Proof.
  intros Hs Ht Hg Hk Hls Hfit.
  cbn [all_fit] in Hfit. apply andb_true_iff in Hfit as [Hfs Hfit].
  apply andb_true_iff in Hfit as [Hft Hfit]. apply andb_true_iff in Hfit as [Hfg _].
  assert (L7 : length ls = 7%nat) by (apply Forall2_length in Hk; rewrite <- Hk; reflexivity).
  destruct (pack_unpack_one false Cb s Hfs) as (sb & Esb & Lsb & Usb).
  destruct (pack_unpack_one false Cq t Hft) as (tb & Etb & Ltb & Utb).
  destruct (pack_unpack_one false (Cs 128) g Hfg) as (gb & Egb & Lgb & Ugb).
  change (code_size false Cb) with 1%nat in Lsb.
  change (code_size false Cq) with 8%nat in Ltb.
  change (code_size false (Cs 128)) with 128%nat in Lgb.
  change (Fmt false [Cb]) with (pnat [Cb]) in Esb, Usb.
  change (Fmt false [Cq]) with (pnat [Cq]) in Etb, Utb.
  change (Fmt false [Cs 128]) with (pnat [Cs 128]) in Egb, Ugb.
  destruct (bstrs_codec ls Hls) as [Blab Plab].
  set (LB := map (fun x => le_bytes 2 (Z.of_nat (length x)) ++ x) ls) in *.
  exists (sb ++ tb ++ concat LB ++ gb). split.
  - unfold wrap_signature. rewrite Hs. cbn [bind]. rewrite Esb. cbn [bind]. rewrite Ht.
    cbn [bind]. rewrite Etb. cbn [bind]. rewrite (signature_strs sg _ ls Hk), Blab. cbn [bind].
    rewrite Hg. cbn [bind]. rewrite Egb. cbn [bind].
    replace ([PBytes sb; PBytes tb] ++ map PBytes LB ++ [PBytes gb])
      with (map PBytes (sb :: tb :: LB ++ [gb])) by (cbn [map]; rewrite map_app; reflexivity).
    rewrite concat_all_bytes. cbn [bind as_bytes concat]. rewrite concat_app. cbn [concat].
    rewrite app_nil_r. reflexivity.
  - intros Ho. set (bs := sb ++ tb ++ concat LB ++ gb) in *. set (buf := pre ++ bs ++ rest) in *.
    set (n0 := length pre).
    assert (HL : (n0 <? length buf)%nat = true).
    { apply Nat.ltb_lt. subst buf bs n0. rewrite !length_app, Lsb. lia. }
    assert (HS : unpack_one (pnat [Cb]) buf (OffInt n0) = Ok s).
    { subst buf bs n0. rewrite <- !app_assoc. apply Usb. }
    assert (HT : unpack_one (pnat [Cq]) buf (OffInt (n0 + 1)) = Ok t).
    { replace (n0 + 1)%nat with (length (pre ++ sb)) by (subst n0; rewrite length_app, Lsb; reflexivity).
      replace buf with ((pre ++ sb) ++ tb ++ (concat LB ++ gb) ++ rest)
        by (subst buf bs; rewrite <- !app_assoc; reflexivity).
      apply Utb. }
    assert (HB : parse_bstrs 7 buf (OffInt (n0 + 9)) =
                 Ok (map PStr ls, OffInt (n0 + 9 + length (concat LB)))).
    { pose proof (Plab (pre ++ sb ++ tb) (gb ++ rest)) as P. rewrite L7 in P.
      rewrite !length_app, Lsb, Ltb, <- !app_assoc in P.
      subst buf bs n0. rewrite <- !app_assoc. exact P. }
    assert (HG : unpack_one (pnat [Cs 128]) buf (OffInt (n0 + 9 + length (concat LB))) = Ok g).
    { replace (n0 + 9 + length (concat LB))%nat with (length (pre ++ sb ++ tb ++ concat LB))
        by (subst n0; rewrite !length_app, Lsb, Ltb; lia).
      replace buf with ((pre ++ sb ++ tb ++ concat LB) ++ gb ++ rest)
        by (subst buf bs; rewrite <- !app_assoc; reflexivity).
      apply Ugb. }
    assert (Lbs : length bs = (9 + length (concat LB) + 128)%nat)
      by (subst bs; rewrite !length_app, Lsb, Ltb, Lgb; lia).
    assert (HSl : py_slice buf (Z.of_nat n0) (off_end (OffInt (n0 + 9 + length (concat LB) + 128))) = bs).
    { cbn [off_end]. rewrite py_slice_inner by (subst buf n0; rewrite !length_app; lia).
      replace (n0 + 9 + length (concat LB) + 128 - n0)%nat with (length bs) by lia.
      subst buf n0. rewrite skipn_length_app, firstn_length_app. reflexivity. }
    unfold parse_signature, check_offset_m, try_except, mbind, stream, lift, setattr, mret.
    cbv beta iota. rewrite Ho. cbv beta iota. fold buf. rewrite HL. cbv beta iota. rewrite Ho.
    cbv beta iota. fold buf. rewrite HS. cbv beta iota. rewrite HT. cbv beta iota. rewrite HB.
    cbv beta iota. rewrite HG. cbn [off_add]. cbv beta iota. rewrite HSl.
    replace (n0 + 9 + length (concat LB) + 128)%nat with (n0 + length bs)%nat by lia.
    reflexivity.
Qed.

Lemma signature_roundtrip_witness :
  let ls := [[65]; []; [66; 67]; []; []; []; [68]] in
  let sg := PNT signature_fields
              ([PInt 1; PInt 1700000000] ++ map PStr ls ++ [PBytes (repeat 7 128); PBytes []; PInt 0]) in
  exists bs,
    wrap_signature sg = pair_ok bs (Z.of_nat (length bs)) /\
    (obj_get init_obj "_ASDFile__asdFileStream" = Some (PBytes ([] ++ bs ++ [])) ->
     parse_signature (OffInt (length ([] : bytes))) init_obj =
       (obj_set init_obj "signature"
          (PNT signature_fields
             ([PInt 1; PInt 1700000000] ++ map PStr ls ++
              [PBytes (repeat 7 128); PBytes bs; PInt (Z.of_nat (length bs))])),
        Ok (Ran (OffInt (length ([] : bytes) + length bs))))).
Proof.
  intros ls sg.
  apply (signature_roundtrip sg (PInt 1) (PInt 1700000000) (PBytes (repeat 7 128)) ls [] [] init_obj);
    [reflexivity | reflexivity | reflexivity | repeat constructor | | vm_compute; reflexivity].
  repeat constructor; vm_compute; first [reflexivity | congruence].
Defined.

(** ** Audit log *)

(** An audit log whose [auditCount] is a native long [c <= 0]:
    [__wrap_auditLog] writes only the four bytes of the count, and
    [__parse_auditLog] on these bytes fails ([auditEvents] is unbound when
    the count is not positive), catches the error and returns [None]
    without setting [auditLog]. *)
Theorem auditLog_nonpositive_unreadable (al : pyval) (c : Z) (pre rest : bytes) (o : obj) :
  attr al "auditCount" = Ok (PInt c) -> - 2 ^ 31 <= c <= 0 ->
  exists cb,
    wrap_auditLog al = pair_ok cb 4 /\ length cb = 4%nat /\
    (obj_get o "_ASDFile__asdFileStream" = Some (PBytes (pre ++ cb ++ rest)) ->
     parse_auditLog (OffInt (length pre)) o = (o, Ok (Ran OffNone))).
Proof.
  intros Hc Hr.
  assert (Hf : fits false Cl (PInt c) = true).
  { cbn [fits]. unfold code_size, native_long_size. change (8 * Z.of_nat 4 - 1) with 31.
    rewrite (proj2 (Z.leb_le _ _)), (proj2 (Z.ltb_lt _ _)) by lia. reflexivity. }
  destruct (pack_unpack_one false Cl (PInt c) Hf) as (cb & Ecb & Lcb & Ucb).
  change (code_size false Cl) with 4%nat in Lcb.
  change (Fmt false [Cl]) with (pnat [Cl]) in Ecb, Ucb.
  assert (Hp : (0 <? c) = false) by (apply Z.ltb_ge; lia).
  exists cb. split; [|split; [exact Lcb|]].
  - unfold wrap_auditLog. rewrite Hc. cbn [bind]. rewrite Ecb. cbn [bind py_gt0]. rewrite Hp.
    cbn [bind py_concat as_bytes]. rewrite app_nil_r, Lcb. reflexivity.
  - intros Ho. set (buf := pre ++ cb ++ rest) in *.
    assert (HL : (length pre <? length buf)%nat = true).
    { apply Nat.ltb_lt. subst buf. rewrite !length_app, Lcb. lia. }
    assert (HC : unpack_one (pnat [Cl]) buf (OffInt (length pre)) = Ok (PInt c)) by apply Ucb.
    unfold parse_auditLog, check_offset_m, try_except, mbind, stream, lift, setattr, mret, mraise.
    cbv beta iota. rewrite Ho. cbv beta iota. rewrite HL. cbv beta iota. rewrite Ho.
    cbv beta iota. rewrite HC. cbn [py_int]. cbv beta iota. rewrite Hp. reflexivity.
Qed.

Lemma auditLog_nonpositive_unreadable_witness :
  let al := PNT auditLog_fields [PInt 0; PList []; PBytes []; PInt 0] in
  exists cb,
    wrap_auditLog al = pair_ok cb 4 /\ length cb = 4%nat /\
    (obj_get init_obj "_ASDFile__asdFileStream" = Some (PBytes ([] ++ cb ++ [])) ->
     parse_auditLog (OffInt (length ([] : bytes))) init_obj = (init_obj, Ok (Ran OffNone))).
Proof.
  intros al. apply (auditLog_nonpositive_unreadable al 0); [reflexivity | lia].
Defined.

(** ** Classifier data *)

Lemma constituants_codec (its : list pyval) :
  forallb constituent_ok its = true ->
  exists bss,
    map_res (fun it => let* '(b, _) := unpack2 (wrap_constituantType it) in Ok b) its =
      Ok (map PBytes bss) /\
    forall pre rest,
      parse_constituants (length its) (pre ++ concat bss ++ rest) (OffInt (length pre)) =
        Ok (its, OffInt (length pre + length (concat bss))).
Proof.
  induction its as [|it its IH]; intros H.
  - exists []. split; [reflexivity|]. intros pre rest. cbn. rewrite Nat.add_0_r. reflexivity.
  - cbn [forallb] in H. apply andb_true_iff in H as [Hit Hits].
    destruct (IH Hits) as (bss & Em & Pm).
    destruct it as [| | | | | | | |fs [|[| | | | |nm| | | | |] [|[| | | | |pf| | | | |] vs]]| |];
      try discriminate.
    cbn [constituent_ok] in Hit.
    destruct (list_eq_dec string_dec fs constituent_fields) as [->|]; [|discriminate].
    repeat rewrite andb_true_iff in Hit. destruct Hit as [[[[[_ Hun] Hln] Hup] Hlp] Hfit].
    apply Z.ltb_lt in Hln, Hlp.
    destruct (constituant_codec nm pf vs [] [] Hun Hln Hup Hlp Hfit) as (b & Wb & _).
    exists (b :: bss). split.
    + cbn [map_res map]. rewrite Wb. cbn [bind unpack2 pair_ok]. rewrite Em. reflexivity.
    + intros pre rest. cbn [length concat parse_constituants].
      destruct (constituant_codec nm pf vs pre (concat bss ++ rest) Hun Hln Hup Hlp Hfit)
        as (b' & Wb' & Pb').
      rewrite Wb in Wb'. injection Wb' as <-.
      rewrite <- app_assoc, Pb'. cbn [bind].
      replace (length pre + length b)%nat with (length (pre ++ b)) by apply length_app.
      rewrite app_assoc, Pm. cbn [bind]. rewrite !length_app. do 3 f_equal. lia.
Qed.

(** [__wrap_classifierData] on a record whose [yCode] and [yModelType] fit
    a signed byte, whose twenty strings are well-formed UTF-8 of fewer than
    32768 bytes, and whose [constituantCount] is the number of its
    [constituantItems] (fewer than 65536, each an item that
    [__wrap_constituantType] and [__parse_constituantType] carry over
    unchanged), followed by [__parse_classifierData] on the bytes written,
    at the same position, stores a record with the same fields, exactly the
    bytes written as its [byteStream], and returns the offset just past
    them; with no items the record reads [constituantItems] as [[]]. *)
Theorem classifierData_roundtrip (cd yc ym : pyval) (ls : list bytes) (its : list pyval)
    (pre rest : bytes) (o : obj) :
  attr cd "yCode" = Ok yc -> attr cd "yModelType" = Ok ym ->
  all_fit false [Cb; Cb] [yc; ym] = true ->
  Forall2 (fun k s => attr cd k = Ok (PStr s)) (firstn 20 (skipn 2 classifierData_fields)) ls ->
  Forall (fun s => utf8_valid s = true /\ Z.of_nat (length s) < 32768) ls ->
  attr cd "constituantCount" = Ok (PInt (Z.of_nat (length its))) ->
  attr cd "constituantItems" = Ok (PList its) ->
  Z.of_nat (length its) < 65536 -> forallb constituent_ok its = true ->
  exists bs,
    wrap_classifierData cd = pair_ok bs (Z.of_nat (length bs)) /\
    (obj_get o "_ASDFile__asdFileStream" = Some (PBytes (pre ++ bs ++ rest)) ->
     parse_classifierData (OffInt (length pre)) o =
       (obj_set o "classifierData"
          (PNT classifierData_fields
             ([yc; ym] ++ map PStr ls ++
              [PInt (Z.of_nat (length its)); PList its; PBytes bs; PInt (Z.of_nat (length bs))])),
        Ok (Ran (OffInt (length pre + length bs))))).
Proof.
  intros Hyc Hym Hyy Hk Hls Hc Hits Hlt Hok.
  assert (L20 : length ls = 20%nat) by (apply Forall2_length in Hk; rewrite <- Hk; reflexivity).
  destruct (pack_unpack_codes false [Cb; Cb] [yc; ym] Hyy) as (hb & Ehb & Lhb & Uhb).
  change (calcsize (Fmt false [Cb; Cb])) with 2%nat in Lhb.
  assert (Ehb2 : pack (pnat [Cb; Cb]) [yc; ym] = Ok hb) by exact Ehb.
  set (N := Z.of_nat (length its)) in *.
  assert (Hf : fits false CH (PInt N) = true).
  { cbn [fits code_size]. change (8 * Z.of_nat 2) with 16.
    rewrite (proj2 (Z.leb_le _ _)), (proj2 (Z.ltb_lt _ _)) by (subst N; cbn; lia). reflexivity. }
  destruct (pack_unpack_one false CH (PInt N) Hf) as (cb & Ecb & Lcb & Ucb).
  change (code_size false CH) with 2%nat in Lcb.
  change (Fmt false [CH]) with (pnat [CH]) in Ecb, Ucb.
  destruct (bstrs_codec ls Hls) as [Blab Plab].
  set (LB := map (fun s => le_bytes 2 (Z.of_nat (length s)) ++ s) ls) in *.
  destruct (constituants_codec its Hok) as (bss & Ebss & Pbss).
  set (P := le_bytes 2 1 ++ le_bytes 4 N ++ le_bytes 4 0).
  assert (LP : length P = 10%nat) by (subst P; rewrite !length_app, !length_le_bytes; reflexivity).
  set (cons := if (0 <? N) then P ++ concat bss else [0; 0]).
  exists (hb ++ concat LB ++ cb ++ cons). split.
  - unfold wrap_classifierData. rewrite Hyc. cbn [bind]. rewrite Hym. cbn [bind].
    rewrite Ehb2. cbn [bind]. rewrite (signature_strs cd _ ls Hk), Blab. cbn [bind].
    rewrite Hc. cbn [bind]. rewrite Ecb. cbn [bind py_gt0].
    subst cons. destruct (Z.ltb_spec 0 N) as [Hpos|Hnp].
    + rewrite array_preamble_int by (subst N; lia). cbn [bind py_int]. rewrite Hits. cbn [bind].
      assert (Iu : items_upto N (PList its) = Ok its) by (apply items_upto_list; subst N; lia). rewrite Iu. cbn [bind]. rewrite Ebss. cbn [bind].
      change (PBytes (le_bytes 2 1 ++ le_bytes 4 N ++ le_bytes 4 0) :: map PBytes bss) with (map PBytes (P :: bss)).
      rewrite concat_all_bytes. cbn [bind py_eq_int concat].
      rewrite (proj2 (Z.eqb_neq N 0)) by lia. cbn [bind].
      replace ([PBytes hb] ++ map PBytes LB ++ [PBytes cb; PBytes (P ++ concat bss)])
        with (map PBytes (hb :: LB ++ [cb; P ++ concat bss])) by (cbn [map]; rewrite map_app; reflexivity).
      rewrite concat_all_bytes. cbn [bind concat]. rewrite concat_app. cbn [concat].
      rewrite app_nil_r. reflexivity.
    + assert (N0 : N = 0) by (subst N; lia). rewrite N0. cbn [bind py_eq_int Z.eqb py_concat app].
      replace (PBytes hb :: map PBytes LB ++ [PBytes cb; PBytes [0; 0]])
        with (map PBytes (hb :: LB ++ [cb; [0; 0]])) by (cbn [map]; rewrite map_app; reflexivity).
      rewrite concat_all_bytes. cbn [bind concat]. rewrite concat_app. cbn [concat].
      rewrite app_nil_r. reflexivity.
  - intros Ho. set (bs := hb ++ concat LB ++ cb ++ cons) in *. set (buf := pre ++ bs ++ rest) in *.
    set (n0 := length pre).
    assert (HL : (n0 <? length buf)%nat = true).
    { apply Nat.ltb_lt. subst buf bs n0. rewrite !length_app, Lhb. lia. }
    assert (HY : unpack_at (pnat [Cb; Cb]) buf (OffInt n0) = Ok [yc; ym]).
    { cbn [unpack_at]. subst buf bs n0. rewrite <- !app_assoc. rewrite (unpack_from_at (pnat [Cb; Cb]) pre hb _ Lhb).
      cbn [f_std f_codes pnat]. rewrite Uhb. reflexivity. }
    assert (HB : parse_bstrs 20 buf (OffInt (n0 + 2)) =
                 Ok (map PStr ls, OffInt (n0 + 2 + length (concat LB)))).
    { pose proof (Plab (pre ++ hb) (cb ++ cons ++ rest)) as Q. rewrite L20 in Q.
      rewrite !length_app, Lhb, <- !app_assoc in Q.
      subst buf bs n0. rewrite <- !app_assoc. exact Q. }
    set (o1 := (n0 + 2 + length (concat LB))%nat).
    assert (HC : unpack_one (pnat [CH]) buf (OffInt o1) = Ok (PInt N)).
    { replace o1 with (length (pre ++ hb ++ concat LB)) by (subst o1 n0; rewrite !length_app, Lhb; lia).
      replace buf with ((pre ++ hb ++ concat LB) ++ cb ++ cons ++ rest)
        by (subst buf bs; rewrite <- !app_assoc; reflexivity).
      apply Ucb. }
    assert (Hsl : forall e, length bs = (e - n0)%nat -> (n0 <= e)%nat ->
                  py_slice buf (Z.of_nat n0) (off_end (OffInt e)) = bs).
    { intros e He Hne. cbn [off_end]. rewrite py_slice_inner by (subst buf n0; rewrite !length_app; lia).
      rewrite <- He. subst buf n0. rewrite skipn_length_app, firstn_length_app. reflexivity. }
    unfold parse_classifierData, check_offset_m, try_except, mbind, stream, lift, setattr, mret, mraise.
    cbv beta iota. rewrite Ho. cbv beta iota. rewrite HL. cbv beta iota. rewrite Ho.
    cbv beta iota. rewrite HY. cbv beta iota. rewrite HB. cbv beta iota. fold o1. rewrite HC.
    cbn [off_add py_int]. cbv beta iota.
    destruct (Z.ltb_spec 0 N) as [Hpos|Hnp].
    + assert (Hcons : cons = P ++ concat bss) by (subst cons; reflexivity).
      assert (HI : parse_constituants (Z.to_nat N) buf (OffInt (o1 + 2 + 10)) =
                   Ok (its, OffInt (o1 + 2 + 10 + length (concat bss)))).
      { subst N. rewrite Nat2Z.id.
        replace (o1 + 2 + 10)%nat with (length (pre ++ hb ++ concat LB ++ cb ++ P))
          by (subst o1 n0; rewrite !length_app, Lhb, Lcb, LP; lia).
        replace buf with ((pre ++ hb ++ concat LB ++ cb ++ P) ++ concat bss ++ rest)
          by (subst buf bs; rewrite Hcons, <- !app_assoc; reflexivity).
        rewrite Pbss. reflexivity. }
      cbn [off_add]. rewrite HI. cbv beta iota.
      rewrite (proj2 (Z.eqb_neq N 0)) by lia. cbv beta iota.
      rewrite Hsl; [| subst bs o1; rewrite Hcons, !length_app, Lhb, Lcb, LP; lia | lia].
      replace (o1 + 2 + 10 + length (concat bss))%nat with (n0 + length bs)%nat
        by (subst bs o1; rewrite Hcons, !length_app, Lhb, Lcb, LP; lia).
      reflexivity.
    + assert (N0 : N = 0) by lia.
      assert (Hcons : cons = [0; 0]) by (subst cons; reflexivity).
      assert (Hnil : its = []) by (destruct its; [reflexivity|]; subst N; cbn in N0; lia).
      rewrite N0. cbn [Z.eqb off_add]. cbv beta iota.
      rewrite Hsl; [| subst bs o1; rewrite Hcons, !length_app, Lhb, Lcb; cbn [length]; lia | lia].
      replace (o1 + 2 + 2)%nat with (n0 + length bs)%nat
        by (subst bs o1; rewrite Hcons, !length_app, Lhb, Lcb; cbn [length]; lia).
      rewrite Hnil. reflexivity.
Qed.

Lemma classifierData_roundtrip_witness :
  let ls := [[65]; []; [66; 67]] ++ repeat [] 16 ++ [[68]] in
  let item := PNT constituent_fields
                [PStr [65]; PStr [80]; PFloat 0; PFloat 1; PFloat 2; PFloat 3; PFloat 4; PFloat 5;
                 PFloat 6; PFloat 7; PFloat 8; PInt (-1); PFloat 9; PFloat 10] in
  let cd := PNT classifierData_fields
              ([PInt 1; PInt (-2)] ++ map PStr ls ++ [PInt 1; PList [item]; PBytes []; PInt 0]) in
  exists bs,
    wrap_classifierData cd = pair_ok bs (Z.of_nat (length bs)) /\
    (obj_get init_obj "_ASDFile__asdFileStream" = Some (PBytes ([] ++ bs ++ [])) ->
     parse_classifierData (OffInt (length ([] : bytes))) init_obj =
       (obj_set init_obj "classifierData"
          (PNT classifierData_fields
             ([PInt 1; PInt (-2)] ++ map PStr ls ++
              [PInt (Z.of_nat (length [item])); PList [item]; PBytes bs; PInt (Z.of_nat (length bs))])),
        Ok (Ran (OffInt (length ([] : bytes) + length bs))))).
Proof.
  intros ls item cd.
  apply (classifierData_roundtrip cd (PInt 1) (PInt (-2)) ls [item] [] [] init_obj);
    [reflexivity | reflexivity | vm_compute; reflexivity | | | reflexivity | reflexivity
    | vm_compute; reflexivity | vm_compute; reflexivity].
  - cbv [firstn skipn classifierData_fields ls repeat app]. repeat constructor.
  - cbv [ls repeat app]. repeat constructor; vm_compute; first [reflexivity | congruence].
Defined.
